(** * AI_xandria: prompt evaluation (gacha) and battle judging

    A shallow embedding of the two AI-provider services that carry rules:

    - [PromptEvaluationService]
      (packages/ai-provider/src/services/prompt-evaluation.service.ts):
      [TIER_PROBABILITIES], [validateScore], [getQualityLevel], [rollTier],
      [evaluatePrompt];
    - [BattleJudgeService] (the battle judge service of the same package):
      [validatePersonaScore], [validateJudgeResult], [judgeBattle].

    Both are first modelled from the text the provider generated, then as
    whole methods with their request and their provider
    ([ServiceMethods]); the providers themselves are in [Provider].

    Conventions of the embedding.

    - A JavaScript value that reaches the validators is whatever
      [JSON.parse] returned, so runtime values are JSON trees ([JSON]) and
      [undefined] is the absence of one ([value := option JSON]).  Objects
      are finite maps from property names to values.
    - [number] is modelled on the integers: the rubric points the services
      exchange (0-25, 0-30, 0-100) are integers, and on integers of that
      size the double-precision [+], [-], [Math.abs], [<], [>], [>=] of the
      engine are exact, so they are [Z]'s.  The draw [Math.random() * 100]
      is not an integer; it is a rational ([Q]) that is only ever compared
      with an integer.  [getQualityLevel] only compares its argument with
      three constants, so it is modelled on every rational, where the
      comparisons of the engine are exact; the totals the embedded
      pipeline hands it are the integers among them.
    - Strings are [string]s; [.length] is [String.length] (text in the
      ASCII range, where one character is one code unit).
    - A [throw] is the [Throw] outcome of the [result] monad; a method that
      mutates its argument returns the argument's new state.
    - The engine and the model provider are not code of the repository:
      [JSON.parse], the coercing [<] of the engine on non-numbers and the
      text the provider generates are parameters. *)

From Stdlib Require Import ZArith QArith Qround Qminmax String Ascii List Lia Lqa Bool.
From stdpp Require Import base option strings pretty gmap.

#[local] Set Warnings "-register-all".

#[local] Open Scope string_scope.
#[local] Open Scope Z_scope.

(** ** JavaScript values, errors and the few engine operations used *)

Module JS.

(** What [JSON.parse] can return. *)
Inductive JSON : Type :=
  | JNull
  | JBool (b : bool)
  | JNumber (n : Z)
  | JString (s : string)
  | JArray (elements : list JSON)
  | JObject (members : gmap string JSON).

(** A runtime value; [None] is [undefined]. *)
Definition value : Type := option JSON.

(** Thrown objects: [new Error(message)] of the services, and the two
    kinds the engine throws here. *)
Inductive exn : Type :=
  | Error (message : string)
  | TypeError (message : string)
  | SyntaxError (message : string).

Definition exn_name (e : exn) : string :=
  match e with
  | Error _ => "Error"
  | TypeError _ => "TypeError"
  | SyntaxError _ => "SyntaxError"
  end.

Definition exn_message (e : exn) : string :=
  match e with
  | Error m | TypeError m | SyntaxError m => m
  end.

(** [Error.prototype.toString], which a template literal [`${error}`]
    calls. *)
Definition toString (e : exn) : string :=
  if String.eqb (exn_message e) "" then exn_name e
  else exn_name e ++ ": " ++ exn_message e.

Inductive result (A : Type) : Type :=
  | Ok (a : A)
  | Throw (e : exn).
Arguments Ok {A} a.
Arguments Throw {A} e.

#[export] Instance result_ret : MRet result := fun A a => Ok a.
#[export] Instance result_bind : MBind result := fun A B f m =>
  match m with
  | Ok a => f a
  | Throw e => Throw e
  end.

#[export] Instance result_fmap : FMap result := fun A B f m =>
  match m with
  | Ok a => Ok (f a)
  | Throw e => Throw e
  end.

(** [try { body } catch (error) { throw handler(error) }]. *)
Definition try_catch {A : Type} (body : result A) (handler : exn → exn)
  : result A :=
  match body with
  | Ok a => Ok a
  | Throw error => Throw (handler error)
  end.

Definition typeof_number (v : value) : option Z :=
  match v with
  | Some (JNumber n) => Some n
  | _ => None
  end.

(** [ToBoolean]: [undefined], [null], [false], [0] and the empty string
    are falsy. *)
Definition truthy (v : value) : bool :=
  match v with
  | None | Some JNull | Some (JBool false) | Some (JNumber 0)
  | Some (JString EmptyString) => false
  | Some _ => true
  end.

(** Property read on a value that is neither [null] nor [undefined], for
    the names the services read (none is an array index or a member of
    [Object.prototype]): an object answers with its member, a string and
    an array know their [length], other primitives have no such
    property. *)
Definition property (j : JSON) (k : string) : value :=
  match j with
  | JObject members => members !! k
  | JString s =>
      if String.eqb k "length" then Some (JNumber (Z.of_nat (String.length s)))
      else None
  | JArray elements =>
      if String.eqb k "length" then Some (JNumber (Z.of_nat (length elements)))
      else None
  | JNull | JBool _ | JNumber _ => None
  end.

Definition nullish_name (v : value) : string :=
  match v with
  | None => "undefined"
  | Some _ => "null"
  end.

(** [v.k]; the message is V8's wording. *)
Definition Get (v : value) (k : string) : result value :=
  match v with
  | None | Some JNull =>
      Throw (TypeError ("Cannot read properties of " ++ nullish_name v
                        ++ " (reading '" ++ k ++ "')"))
  | Some j => Ok (property j k)
  end.

(** [v?.k] *)
Definition OptGet (v : value) (k : string) : value :=
  match v with
  | None | Some JNull => None
  | Some j => property j k
  end.

(** One property of [const { ..., k, ... } = v]. *)
Definition Destructure (v : value) (k : string) : result value :=
  match v with
  | None | Some JNull =>
      Throw (TypeError ("Cannot destructure property '" ++ k
                        ++ "' of 'score' as it is " ++ nullish_name v ++ "."))
  | Some j => Ok (property j k)
  end.

(** [v.k = x] in strict code (class bodies are strict): an object gets
    the member, a primitive refuses, and a named property put on an array
    is no part of its JSON content. *)
Definition Put (v : value) (k : string) (x : JSON) : result value :=
  match v with
  | Some (JObject members) => Ok (Some (JObject (<[k := x]> members)))
  | Some (JArray elements) => Ok v
  | None | Some JNull =>
      Throw (TypeError ("Cannot set properties of " ++ nullish_name v
                        ++ " (setting '" ++ k ++ "')"))
  | Some _ =>
      Throw (TypeError ("Cannot create property '" ++ k ++ "'"))
  end.

(** The value of an expression the type checker and an earlier run-time
    check both make a number. *)
Definition number_value (v : value) : Z :=
  match v with
  | Some (JNumber n) => n
  | _ => 0
  end.

Section Engine.
(** The engine's [x < n] for an operand [x] that is a string, an array
    or an object ([ToPrimitive] and [StringToNumber]); not modelled. *)
Variable less_than_coerced : JSON → Z → bool.

(** [x < n] for a number [n]: [undefined] converts to [NaN], which is
    below nothing; [null] to [0]; [false] and [true] to [0] and [1]. *)
Definition less_than (x : value) (n : Z) : bool :=
  match x with
  | None => false
  | Some (JNumber m) => m <? n
  | Some JNull => 0 <? n
  | Some (JBool b) => (if b then 1 else 0) <? n
  | Some j => less_than_coerced j n
  end.
End Engine.

(** [a || b] where evaluating [b] may throw. *)
Definition or_else (a : bool) (b : result bool) : result bool :=
  if a then Ok true else b.

(** [v === s] for a string literal [s]. *)
Definition strict_equals (v : value) (s : string) : bool :=
  match v with
  | Some (JString t) => String.eqb t s
  | _ => false
  end.

(** [x < y] on rationals, as a boolean. *)
Definition Qlt_bool (x y : Q) : bool := negb (Qle_bool y x).

(** [x >= y] on rationals, as a boolean. *)
Definition Qge_bool (x y : Q) : bool := Qle_bool y x.

(** [text.replace(/```json\n?|\n?```/g, '')]: scanning from the left,
    every match of the first alternative, else of the second, is dropped;
    [skip] counts the characters of the current match still to drop. *)
Fixpoint replace_fences (skip : nat) (text : string) : string :=
  match text with
  | EmptyString => EmptyString
  | String c rest =>
      match skip with
      | S n => replace_fences n rest
      | O =>
          if String.prefix ("```json" ++ String "010" "") text
          then replace_fences 7 rest
          else if String.prefix "```json" text then replace_fences 6 rest
          else if String.prefix (String "010" "```") text
          then replace_fences 3 rest
          else if String.prefix "```" text then replace_fences 2 rest
          else String c (replace_fences 0 rest)
      end
  end.

(** White space and line terminators of the ASCII range. *)
Definition is_white_space (c : ascii) : bool :=
  let n := nat_of_ascii c in
  ((9 <=? n)%nat && (n <=? 13)%nat) || (n =? 32)%nat.

Fixpoint trimStart (s : string) : string :=
  match s with
  | EmptyString => EmptyString
  | String c rest => if is_white_space c then trimStart rest else s
  end.

Fixpoint trimEnd (s : string) : string :=
  match s with
  | EmptyString => EmptyString
  | String c rest =>
      match trimEnd rest with
      | EmptyString => if is_white_space c then EmptyString else String c EmptyString
      | rest' => String c rest'
      end
  end.

Definition trim (s : string) : string := trimEnd (trimStart s).

(** The cleaning both services apply to the generated text. *)
Definition clean (text : string) : string := trim (replace_fences 0 text).

End JS.

Import JS.

(** ** Prompt evaluation service *)

Module PromptEvaluationService.

(** [TierProbability]: the object's own properties in creation order,
    which is the order [Object.entries] walks them in. *)
Definition TierProbability : Type := list (string * Z).

Definition Object_entries (probabilities : TierProbability)
  : list (string * Z) := probabilities.

Definition TIER_PROBABILITIES : gmap string TierProbability :=
  {[ "exceptional" :=
       [("common", 5); ("rare", 30); ("epic", 45); ("legendary", 20)];
     "high" :=
       [("common", 25); ("rare", 40); ("epic", 28); ("legendary", 7)];
     "medium" :=
       [("common", 50); ("rare", 35); ("epic", 12); ("legendary", 3)];
     "low" :=
       [("common", 80); ("rare", 15); ("epic", 4); ("legendary", 1)] ]}.

Record PromptEvaluationResponse : Type := {
  score : value;
  tierProbabilities : option TierProbability;
  qualityLevel : string
}.

(** [validateScore]: returns the score object as the call leaves it. *)
Definition validateScore (score : value) : result value :=
  specificity ← Destructure score "specificity";
  creativity ← Destructure score "creativity";
  coherence ← Destructure score "coherence";
  complexity ← Destructure score "complexity";
  total ← Destructure score "total";
  match typeof_number specificity, typeof_number creativity,
        typeof_number coherence, typeof_number complexity,
        typeof_number total with
  | Some specificity, Some creativity, Some coherence, Some complexity,
    Some total =>
      if (specificity <? 0) || (specificity >? 25) ||
         (creativity <? 0) || (creativity >? 25) ||
         (coherence <? 0) || (coherence >? 25) ||
         (complexity <? 0) || (complexity >? 25)
      then Throw (Error "Scores must be between 0 and 25")
      else if (total <? 0) || (total >? 100)
      then Throw (Error "Total score must be between 0 and 100")
      else
        let calculatedTotal :=
          specificity + creativity + coherence + complexity in
        if Z.abs (calculatedTotal - total) >? 1
        then Put score "total" (JNumber calculatedTotal)
        else Ok score
  | _, _, _, _, _ => Throw (Error "Invalid score format")
  end.

(** [getQualityLevel]: [total] is any number; the function only
    compares it. *)
Definition getQualityLevel (total : Q) : string :=
  if Qge_bool total 86 then "exceptional"
  else if Qge_bool total 71 then "high"
  else if Qge_bool total 41 then "medium"
  else "low".

(** The loop of [rollTier], from a running [cumulative]. *)
Fixpoint rollTier_loop (roll : Q) (cumulative : Z)
    (entries : list (string * Z)) : string :=
  match entries with
  | [] => "common"
  | (tier, probability) :: rest =>
      let cumulative := cumulative + probability in
      if Qlt_bool roll (inject_Z cumulative) then tier
      else rollTier_loop roll cumulative rest
  end.

(** [rollTier]; [roll] is the draw [Math.random() * 100]. *)
Definition rollTier (roll : Q) (probabilities : TierProbability) : string :=
  rollTier_loop roll 0 (Object_entries probabilities).

Section Pipeline.
Variable JSON_parse : string → result JSON.

(** [evaluatePrompt] from the text the provider generated: the [try]
    block and what follows it, for a [response.text] that is a string.
    The whole method, with the request and the call of the provider, is
    [ServiceMethods.evaluatePrompt]. *)
Definition evaluatePrompt (response_text : string)
  : result PromptEvaluationResponse :=
  score ← try_catch
    (let cleaned := clean response_text in
     score ← JSON_parse cleaned;
     validateScore (Some score))
    (fun error =>
       Error ("Failed to parse evaluation response: " ++ toString error));
  total ← Get score "total";
  let qualityLevel := getQualityLevel (inject_Z (number_value total)) in
  let tierProbabilities := TIER_PROBABILITIES !! qualityLevel in
  Ok {| score := score;
        tierProbabilities := tierProbabilities;
        qualityLevel := qualityLevel |}.
End Pipeline.

End PromptEvaluationService.

(** ** Battle judge service *)

Module BattleJudgeService.

(** [validatePersonaScore] *)
Definition validatePersonaScore (score : value) : result unit :=
  logical_coherence ← Destructure score "logical_coherence";
  creativity ← Destructure score "creativity";
  persuasiveness ← Destructure score "persuasiveness";
  topic_relevance ← Destructure score "topic_relevance";
  total ← Destructure score "total";
  match typeof_number logical_coherence, typeof_number creativity,
        typeof_number persuasiveness, typeof_number topic_relevance,
        typeof_number total with
  | Some logical_coherence, Some creativity, Some persuasiveness,
    Some topic_relevance, Some total =>
      if (logical_coherence <? 0) || (logical_coherence >? 30)
      then Throw (Error "logical_coherence must be 0-30")
      else if (creativity <? 0) || (creativity >? 25)
      then Throw (Error "creativity must be 0-25")
      else if (persuasiveness <? 0) || (persuasiveness >? 25)
      then Throw (Error "persuasiveness must be 0-25")
      else if (topic_relevance <? 0) || (topic_relevance >? 20)
      then Throw (Error "topic_relevance must be 0-20")
      else if (total <? 0) || (total >? 100)
      then Throw (Error "total must be 0-100")
      else
        let calculatedTotal :=
          logical_coherence + creativity + persuasiveness + topic_relevance in
        if Z.abs (calculatedTotal - total) >? 1
        then Throw (Error "Total score mismatch")
        else Ok ()
  | _, _, _, _, _ => Throw (Error "Invalid score types")
  end.

(** [['persona1', 'persona2'].includes(winner)] *)
Definition includes_winner (winner : value) : bool :=
  strict_equals winner "persona1" || strict_equals winner "persona2".

Section Engine.
Variable less_than_coerced : JSON → Z → bool.

(** [validateJudgeResult] *)
Definition validateJudgeResult (result : value) : JS.result unit :=
  winner ← Get result "winner";
  if negb (includes_winner winner)
  then Throw (Error "Invalid winner value")
  else
    scores ← Get result "scores";
    persona1 ← Get scores "persona1";
    validatePersonaScore persona1;;
    scores ← Get result "scores";
    persona2 ← Get scores "persona2";
    validatePersonaScore persona2;;
    scores ← Get result "scores";
    persona1 ← Get scores "persona1";
    p1Total ← number_value <$> Get persona1 "total";
    scores ← Get result "scores";
    persona2 ← Get scores "persona2";
    p2Total ← number_value <$> Get persona2 "total";
    winner ← Get result "winner";
    if strict_equals winner "persona1" && (p1Total <? p2Total)
    then Throw (Error "Winner mismatch: persona1 declared but has lower score")
    else
      winner ← Get result "winner";
      if strict_equals winner "persona2" && (p2Total <? p1Total)
      then Throw (Error "Winner mismatch: persona2 declared but has lower score")
      else
        reasoning ← Get result "reasoning";
        too_short ← or_else (negb (truthy reasoning))
          (reasoning ← Get result "reasoning";
           len ← Get reasoning "length";
           Ok (less_than less_than_coerced len 20));
        if (too_short : bool)
        then Throw (Error "Reasoning must be at least 20 characters")
        else
          highlights ← Get result "highlights";
          no_highlight ←
            or_else (negb (truthy (OptGet highlights "persona1_best")))
              (highlights ← Get result "highlights";
               Ok (negb (truthy (OptGet highlights "persona2_best"))));
          if (no_highlight : bool)
          then Throw (Error "Missing highlights")
          else
            suggestions ← Get result "improvement_suggestions";
            no_suggestion ←
              or_else (negb (truthy (OptGet suggestions "persona1")))
                (suggestions ← Get result "improvement_suggestions";
                 Ok (negb (truthy (OptGet suggestions "persona2"))));
            if (no_suggestion : bool)
            then Throw (Error "Missing improvement suggestions")
            else Ok ().

Variable JSON_parse : string → result JSON.

(** [judgeBattle] from the text the provider generated: the [try]
    block and the [return], for a [response.text] that is a string.  The
    whole method, with the request and the call of the provider, is
    [ServiceMethods.judgeBattle]. *)
Definition judgeBattle (response_text : string) : result value :=
  try_catch
    (let cleaned := clean response_text in
     result ← JSON_parse cleaned;
     validateJudgeResult (Some result);;
     Ok (Some result))
    (fun error =>
       Error ("Failed to parse judge response: " ++ toString error)).
End Engine.

(** [generateBattleTopic], from the text the provider generated. *)
Definition generateBattleTopic (response_text : string) : string :=
  trim response_text.

End BattleJudgeService.

(** ** A reference instance of [JSON.parse]

    A parser for the fragment of JSON whose numbers are integer literals
    and whose strings use the two-character escapes only.  It stands for
    the engine's [JSON.parse] where an instance is needed; texts outside
    the fragment are refused here although the engine reads them. *)

Module ReferenceJSON.

Definition is_json_space (c : ascii) : bool :=
  let n := nat_of_ascii c in
  (n =? 32)%nat || (n =? 9)%nat || (n =? 10)%nat || (n =? 13)%nat.

Fixpoint skip_space (s : string) : string :=
  match s with
  | String c rest => if is_json_space c then skip_space rest else s
  | EmptyString => EmptyString
  end.

Definition digit_of (c : ascii) : option Z :=
  let n := nat_of_ascii c in
  if (48 <=? n)%nat && (n <=? 57)%nat then Some (Z.of_nat (n - 48)) else None.

(** Digits after the first one. *)
Fixpoint more_digits (acc : Z) (s : string) : Z * string :=
  match s with
  | String c rest =>
      match digit_of c with
      | Some d => more_digits (10 * acc + d) rest
      | None => (acc, s)
      end
  | EmptyString => (acc, s)
  end.

Definition ends_number (s : string) : bool :=
  match s with
  | String c _ =>
      negb (Ascii.eqb c "." || Ascii.eqb c "e" || Ascii.eqb c "E")
  | EmptyString => true
  end.

(** [0] or a digit string without leading zero, with no fraction or
    exponent behind it. *)
Definition natural (s : string) : option (Z * string) :=
  match s with
  | String c rest =>
      match digit_of c with
      | Some 0 => if ends_number rest then Some (0, rest) else None
      | Some d =>
          let '(n, rest') := more_digits d rest in
          if ends_number rest' then Some (n, rest') else None
      | None => None
      end
  | EmptyString => None
  end.

Definition escape (c : ascii) : option ascii :=
  if Ascii.eqb c "n" then Some "010"%char
  else if Ascii.eqb c "t" then Some "009"%char
  else if Ascii.eqb c "r" then Some "013"%char
  else if Ascii.eqb c "b" then Some "008"%char
  else if Ascii.eqb c "f" then Some "012"%char
  else if Ascii.eqb c "/" then Some "/"%char
  else if Ascii.eqb c "092" then Some "092"%char
  else if Ascii.eqb c "034" then Some "034"%char
  else None.

(** The characters of a string literal after its opening quote. *)
Fixpoint string_body (s : string) : option (string * string) :=
  match s with
  | EmptyString => None
  | String c rest =>
      if Ascii.eqb c "034" then Some (EmptyString, rest)
      else if Ascii.eqb c "092" then
        match rest with
        | String e rest' =>
            match escape e, string_body rest' with
            | Some c', Some (body, after) => Some (String c' body, after)
            | _, _ => None
            end
        | EmptyString => None
        end
      else if (nat_of_ascii c <? 32)%nat then None
      else
        match string_body rest with
        | Some (body, after) => Some (String c body, after)
        | None => None
        end
  end.

Definition literal (word : string) (v : JSON) (s : string)
  : option (JSON * string) :=
  if String.prefix word s
  then Some (v, String.substring (String.length word)
                  (String.length s - String.length word) s)
  else None.

Fixpoint element (fuel : nat) (s : string) : option (JSON * string) :=
  match fuel with
  | O => None
  | S fuel =>
      match skip_space s with
      | String "{" rest =>
          match skip_space rest with
          | String "}" after => Some (JObject ∅, after)
          | _ => members fuel ∅ rest
          end
      | String "[" rest =>
          match skip_space rest with
          | String "]" after => Some (JArray [], after)
          | _ => elements fuel [] rest
          end
      | String "034" rest =>
          match string_body rest with
          | Some (body, after) => Some (JString body, after)
          | None => None
          end
      | String "-" rest =>
          match natural rest with
          | Some (n, after) => Some (JNumber (- n), after)
          | None => None
          end
      | String "t" _ => literal "true" (JBool true) (skip_space s)
      | String "f" _ => literal "false" (JBool false) (skip_space s)
      | String "n" _ => literal "null" JNull (skip_space s)
      | other =>
          match natural other with
          | Some (n, after) => Some (JNumber n, after)
          | None => None
          end
      end
  end
with members (fuel : nat) (acc : gmap string JSON) (s : string)
    : option (JSON * string) :=
  match fuel with
  | O => None
  | S fuel =>
      match skip_space s with
      | String "034" rest =>
          match string_body rest with
          | Some (key, after_key) =>
              match skip_space after_key with
              | String ":" rest =>
                  match element fuel rest with
                  | Some (v, after) =>
                      match skip_space after with
                      | String "," rest => members fuel (<[key := v]> acc) rest
                      | String "}" rest => Some (JObject (<[key := v]> acc), rest)
                      | _ => None
                      end
                  | None => None
                  end
              | _ => None
              end
          | None => None
          end
      | _ => None
      end
  end
with elements (fuel : nat) (acc : list JSON) (s : string)
    : option (JSON * string) :=
  match fuel with
  | O => None
  | S fuel =>
      match element fuel s with
      | Some (v, after) =>
          match skip_space after with
          | String "," rest => elements fuel (acc ++ [v]) rest
          | String "]" rest => Some (JArray (acc ++ [v]), rest)
          | _ => None
          end
      | None => None
      end
  end.

Definition parse (text : string) : result JSON :=
  match element (S (String.length text)) text with
  | Some (v, after) =>
      match skip_space after with
      | EmptyString => Ok v
      | _ => Throw (SyntaxError "Unexpected non-whitespace character after JSON")
      end
  | None => Throw (SyntaxError "Unexpected token in JSON")
  end.

End ReferenceJSON.

(** ** The properties, in the words of the specification *)

Module Spec.
Import PromptEvaluationService BattleJudgeService.

(** Cumulative weight of the entries up to and including index [i]. *)
Definition cumulative (entries : list (string * Z)) (i : nat) : Z :=
  foldr Z.add 0 (snd <$> take (S i) entries).

Definition exceeds (roll : Q) (entries : list (string * Z)) (i : nat) : Prop :=
  (roll < inject_Z (cumulative entries i))%Q.

(** [tier] is the first tier, in iteration order, whose cumulative weight
    strictly exceeds the draw. *)
Definition first_exceeding (roll : Q) (entries : list (string * Z))
    (tier : string) : Prop :=
  ∃ (i : nat) (probability : Z),
    entries !! i = Some (tier, probability) ∧
    exceeds roll entries i ∧
    ∀ j : nat, (j < i)%nat → ¬ exceeds roll entries j.

Definition none_exceeding (roll : Q) (entries : list (string * Z)) : Prop :=
  ∀ j : nat, (j < length entries)%nat → ¬ exceeds roll entries j.

Definition sum_weights (row : TierProbability) : Z :=
  foldr Z.add 0 (snd <$> row).

(** The error kinds of the specification, as the services throw them. *)
Definition TotalMismatch : exn := Error "Total score mismatch".

Definition WinnerMismatch (declared : string) : exn :=
  Error ("Winner mismatch: " ++ declared ++ " declared but has lower score").

Definition EvaluationParseError (cause : exn) : exn :=
  Error ("Failed to parse evaluation response: " ++ toString cause).

Definition JudgeParseError (cause : exn) : exn :=
  Error ("Failed to parse judge response: " ++ toString cause).

(** A field is missing ([undefined] or [null]) or the empty string. *)
Definition missing_or_empty (v : value) : Prop :=
  v = None ∨ v = Some JNull ∨ v = Some (JString "").

(** A field is missing or a string of fewer than [n] characters. *)
Definition missing_or_shorter (n : nat) (v : value) : Prop :=
  v = None ∨ v = Some JNull ∨
  ∃ s : string, v = Some (JString s) ∧ (String.length s < n)%nat.

(** A string of at least [n] characters. *)
Definition text_of_length (n : nat) (v : value) : Prop :=
  ∃ s : string, v = Some (JString s) ∧ (n ≤ String.length s)%nat.

(** A string that is not empty. *)
Definition nonempty_text (v : value) : Prop :=
  ∃ s : string, v = Some (JString s) ∧ s ≠ "".

(** The score object of a participant in a judge result. *)
Definition persona_score (result : value) (persona : string) : value :=
  OptGet (OptGet result "scores") persona.

(** The members of a prompt score object that are numbers. *)
Definition prompt_numbers (members : gmap string JSON)
    (specificity creativity coherence complexity total : Z) : Prop :=
  members !! "specificity" = Some (JNumber specificity) ∧
  members !! "creativity" = Some (JNumber creativity) ∧
  members !! "coherence" = Some (JNumber coherence) ∧
  members !! "complexity" = Some (JNumber complexity) ∧
  members !! "total" = Some (JNumber total).

(** The members of a persona score object that are numbers. *)
Definition persona_numbers (members : gmap string JSON)
    (logical_coherence creativity persuasiveness topic_relevance total : Z)
  : Prop :=
  members !! "logical_coherence" = Some (JNumber logical_coherence) ∧
  members !! "creativity" = Some (JNumber creativity) ∧
  members !! "persuasiveness" = Some (JNumber persuasiveness) ∧
  members !! "topic_relevance" = Some (JNumber topic_relevance) ∧
  members !! "total" = Some (JNumber total).

(** A judge result in which persona1 is declared winner with 70 points
    against 68, although persona2 is the more persuasive (20 against
    10). *)
Definition close_result (highlights : JSON) : JSON :=
  JObject
    {[ "winner" := JString "persona1";
       "scores" := JObject
         {[ "persona1" := JObject
              {[ "logical_coherence" := JNumber 25;
                 "creativity" := JNumber 20;
                 "persuasiveness" := JNumber 10;
                 "topic_relevance" := JNumber 15;
                 "total" := JNumber 70 ]};
            "persona2" := JObject
              {[ "logical_coherence" := JNumber 20;
                 "creativity" := JNumber 13;
                 "persuasiveness" := JNumber 20;
                 "topic_relevance" := JNumber 15;
                 "total" := JNumber 68 ]} ]};
       "reasoning" := JString "Persona one built the tighter argument.";
       "highlights" := highlights;
       "improvement_suggestions" := JObject
         {[ "persona1" := JString "Appeal to the audience more.";
            "persona2" := JString "Tighten the structure." ]} ]}.

Definition both_highlights : JSON :=
  JObject {[ "persona1_best" := JString "The opening analogy.";
             "persona2_best" := JString "The closing appeal." ]}.

Definition first_highlight_only : JSON :=
  JObject {[ "persona1_best" := JString "The opening analogy." ]}.

(** A judge result that declares persona2 winner with 68 points against
    70. *)
Definition mismatch_result : JSON :=
  match close_result both_highlights with
  | JObject members => JObject (<["winner" := JString "persona2"]> members)
  | other => other
  end.

Definition quote : string := String "034" "".

(** The generator output of the end-to-end example. *)
Definition example_text : string :=
  "{" ++ quote ++ "specificity" ++ quote ++ ":20,"
      ++ quote ++ "creativity" ++ quote ++ ":18,"
      ++ quote ++ "coherence" ++ quote ++ ":22,"
      ++ quote ++ "complexity" ++ quote ++ ":15,"
      ++ quote ++ "total" ++ quote ++ ":74,"
      ++ quote ++ "reasoning" ++ quote ++ ":"
      ++ quote ++ "Well-structured and specific." ++ quote ++ "}".

Definition example_score : JSON :=
  JObject {[ "specificity" := JNumber 20;
             "creativity" := JNumber 18;
             "coherence" := JNumber 22;
             "complexity" := JNumber 15;
             "total" := JNumber 74;
             "reasoning" := JString "Well-structured and specific." ]}.

End Spec.

(** ** Provider types, the factory and the Bedrock provider

    The AWS client is not code of the repository: what [client.send]
    answers, decoded to text, or what it rejects with, is a parameter
    ([send]), as are [JSON.parse], the engine's [+] on operands that are
    not both numbers and its conversion of a non-string to a string.  The
    request body, which the source serialises with [JSON.stringify], is
    kept as the payload record. *)

Module Provider.

(** [enum AIProvider] and the string each member stands for. *)
Inductive AIProvider : Type := BEDROCK | OPENAI | GEMINI | MOCK.

Definition AIProvider_value (p : AIProvider) : string :=
  match p with
  | BEDROCK => "bedrock"
  | OPENAI => "openai"
  | GEMINI => "gemini"
  | MOCK => "mock"
  end.

(** What a provider method can find thrown, or throw: an error of the
    engine, an error of the AWS client (its [name] and [message]), or one
    of the three provider error classes. *)
Inductive thrown : Type :=
  | Engine (e : exn)
  | Sdk (name message : string)
  | AIProviderError (message provider : string) (originalError : option thrown)
  | RateLimitError (provider : string) (retryAfter : option Z)
  | ContentFilterError (provider reason : string).

Definition thrown_name (t : thrown) : string :=
  match t with
  | Engine e => exn_name e
  | Sdk name _ => name
  | AIProviderError _ _ _ => "AIProviderError"
  | RateLimitError _ _ => "RateLimitError"
  | ContentFilterError _ _ => "ContentFilterError"
  end.

Definition thrown_message (t : thrown) : string :=
  match t with
  | Engine e => exn_message e
  | Sdk _ message => message
  | AIProviderError message _ _ => message
  | RateLimitError provider _ => "Rate limit exceeded for " ++ provider
  | ContentFilterError _ reason => "Content filtered: " ++ reason
  end.

Definition instanceof_ContentFilterError (t : thrown) : bool :=
  match t with
  | ContentFilterError _ _ => true
  | _ => false
  end.

Definition instanceof_RateLimitError (t : thrown) : bool :=
  match t with
  | RateLimitError _ _ => true
  | _ => false
  end.

Inductive outcome (A : Type) : Type :=
  | Return (a : A)
  | Raise (t : thrown).
Arguments Return {A} a.
Arguments Raise {A} t.

#[export] Instance outcome_ret : MRet outcome := fun A a => Return a.
#[export] Instance outcome_bind : MBind outcome := fun A B f m =>
  match m with
  | Return a => f a
  | Raise t => Raise t
  end.

(** An engine operation inside a provider method. *)
Definition engine {A : Type} (r : result A) : outcome A :=
  match r with
  | Ok a => Return a
  | Throw e => Raise (Engine e)
  end.

(** [try { body } catch (error) { throw handler(error) }]. *)
Definition try_rethrow {A : Type} (body : outcome A) (handler : thrown → thrown)
  : outcome A :=
  match body with
  | Return a => Return a
  | Raise error => Raise (handler error)
  end.

(** [a || d] for a string [a] that may be missing: the empty string is
    falsy too. *)
Definition or_default (a : option string) (d : string) : string :=
  match a with
  | Some (String c rest) => String c rest
  | _ => d
  end.

Definition truthy_string (a : option string) : bool :=
  match a with
  | Some (String _ _) => true
  | _ => false
  end.

(** [n || d] for a number [n] that may be missing: [0] is falsy too. *)
Definition or_number (n : option Z) (d : Z) : Z :=
  match n with
  | Some 0 | None => d
  | Some n => n
  end.

(** [v || 0] for a JSON value. *)
Definition or_zero (v : value) : JSON :=
  match v with
  | Some j => if truthy v then j else JNumber 0
  | None => JNumber 0
  end.

(** *** The Bedrock provider *)

Record BedrockConfig : Type := {
  config_region : option string;
  config_textModel : option string;
  config_imageModel : option string;
  config_accessKeyId : option string;
  config_secretAccessKey : option string
}.

(** The fields of a [BedrockProvider]; [credentials] is what the client
    is built with. *)
Record BedrockProvider : Type := {
  region : string;
  textModel : string;
  imageModel : string;
  credentials : option (string * string)
}.

Record TextGenerationRequest : Type := {
  prompt : string;
  maxTokens : option Z;
  temperature : option Q;
  topP : option Q;
  stopSequences : option (list string);
  systemPrompt : option string
}.

(** The payload of a text request. *)
Record TextPayload : Type := {
  anthropic_version : string;
  max_tokens : Z;
  payload_temperature : Q;
  top_p : Q;
  messages : list (string * string);
  system : option string;
  stop_sequences : option (list string)
}.

Record TextInput : Type := {
  text_modelId : string;
  text_contentType : string;
  text_accept : string;
  text_body : TextPayload
}.

Record TextGenerationResponse : Type := {
  text : value;
  model : string;
  inputTokens : JSON;
  outputTokens : JSON;
  totalTokens : JSON;
  finishReason : string;
  metadata_id : value;
  metadata_model : value
}.

Record ImageGenerationRequest : Type := {
  image_prompt : string;
  negativePrompt : option string;
  width : option Z;
  height : option Z;
  seed : option Z
}.

(** The payload of an image request. *)
Record ImagePayload : Type := {
  taskType : string;
  image_text : string;
  negativeText : option string;
  numberOfImages : Z;
  quality : string;
  payload_height : Z;
  payload_width : Z;
  cfgScale : Q;
  payload_seed : option Z
}.

Record ImageInput : Type := {
  image_modelId : string;
  image_contentType : string;
  image_accept : string;
  image_body : ImagePayload
}.

Record ImageGenerationResponse : Type := {
  imageUrl : string;
  base64 : value;
  response_seed : JSON;
  image_model : string;
  dimensions : Z * Z
}.

(** [mapStopReason] *)
Definition mapStopReason (stopReason : value) : string :=
  if strict_equals stopReason "end_turn" then "stop"
  else if strict_equals stopReason "stop_sequence" then "stop"
  else if strict_equals stopReason "max_tokens" then "length"
  else if strict_equals stopReason "content_filtered" then "content_filter"
  else "stop".

(** [list.find((c) => c.type === 'text')] *)
Fixpoint find_text (list : list JSON) : result value :=
  match list with
  | [] => Ok None
  | c :: rest =>
      type ← Get (Some c) "type";
      if strict_equals type "text" then Ok (Some c) else find_text rest
  end.

(** [content?.find(...)]: only an array has the method. *)
Definition optional_find_text (content : value) : result value :=
  match content with
  | None | Some JNull => Ok None
  | Some (JArray list) => find_text list
  | Some _ =>
      Throw (TypeError "responseBody.content?.find is not a function")
  end.

(** [images[0]] on a value that is neither [null] nor [undefined]. *)
Definition first_element (j : JSON) : value :=
  match j with
  | JArray list => head list
  | JString (String c _) => Some (JString (String c EmptyString))
  | JObject members => members !! "0"
  | _ => None
  end.

(** [[512, 1024].includes(n)] *)
Definition supported_dimension (n : Z) : bool := (n =? 512) || (n =? 1024).

Section Methods.
Variable self : BedrockProvider.
Variable JSON_parse : string → result JSON.
Variable add_coerced : JSON → JSON → JSON.
Variable to_string_coerced : value → string.

(** [x + y] *)
Definition add (x y : JSON) : JSON :=
  match x, y with
  | JNumber a, JNumber b => JNumber (a + b)
  | _, _ => add_coerced x y
  end.

(** [`${v}`] *)
Definition template (v : value) : string :=
  match v with
  | Some (JString s) => s
  | _ => to_string_coerced v
  end.

Definition text_payload (request : TextGenerationRequest) : TextPayload :=
  {| anthropic_version := "bedrock-2023-05-31";
     max_tokens := or_number (maxTokens request) 4096;
     payload_temperature := default (7 # 10)%Q (temperature request);
     top_p := default (9 # 10)%Q (topP request);
     messages := [("user", prompt request)];
     system :=
       if truthy_string (systemPrompt request) then systemPrompt request
       else None;
     stop_sequences := stopSequences request |}.

Definition text_failure (error : thrown) : thrown :=
  if String.eqb (thrown_name error) "ThrottlingException"
  then RateLimitError "bedrock" (Some 60)
  else if instanceof_ContentFilterError error || instanceof_RateLimitError error
  then error
  else AIProviderError
         ("Bedrock text generation failed: " ++ thrown_message error)
         "bedrock" (Some error).

(** [generateText] *)
Definition generateText (send : TextInput → outcome string)
    (request : TextGenerationRequest) : outcome TextGenerationResponse :=
  try_rethrow
    (let payload := text_payload request in
     let input :=
       {| text_modelId := textModel self;
          text_contentType := "application/json";
          text_accept := "application/json";
          text_body := payload |} in
     body ← send input;
     responseBody ← engine (JSON_parse body);
     stop_reason ← engine (Get (Some responseBody) "stop_reason");
     if strict_equals stop_reason "content_filtered"
     then Raise (ContentFilterError "bedrock"
                   "Content was filtered by safety policies")
     else
       content ← engine (Get (Some responseBody) "content");
       textContent ← engine (optional_find_text content);
       if negb (truthy textContent)
       then Raise (AIProviderError "No text content in response" "bedrock" None)
       else
         text ← engine (Get textContent "text");
         usage ← engine (Get (Some responseBody) "usage");
         stop_reason ← engine (Get (Some responseBody) "stop_reason");
         id ← engine (Get (Some responseBody) "id");
         model ← engine (Get (Some responseBody) "model");
         Return
           {| text := text;
              model := textModel self;
              inputTokens := or_zero (OptGet usage "input_tokens");
              outputTokens := or_zero (OptGet usage "output_tokens");
              totalTokens :=
                add (or_zero (OptGet usage "input_tokens"))
                    (or_zero (OptGet usage "output_tokens"));
              finishReason := mapStopReason stop_reason;
              metadata_id := id;
              metadata_model := model |})
    text_failure.

Definition image_failure (error : thrown) : thrown :=
  if String.eqb (thrown_name error) "ThrottlingException"
  then RateLimitError "bedrock" (Some 60)
  else if instanceof_RateLimitError error
  then error
  else AIProviderError
         ("Bedrock image generation failed: " ++ thrown_message error)
         "bedrock" (Some error).

(** [generateImage] *)
Definition generateImage (send : ImageInput → outcome string)
    (request : ImageGenerationRequest) : outcome ImageGenerationResponse :=
  try_rethrow
    (let width := or_number (width request) 1024 in
     let height := or_number (height request) 1024 in
     if negb (supported_dimension width) || negb (supported_dimension height)
     then Raise (AIProviderError
                   "Invalid dimensions. Titan supports 512x512 or 1024x1024"
                   "bedrock" None)
     else
       let payload :=
         {| taskType := "TEXT_IMAGE";
            image_text := image_prompt request;
            negativeText :=
              if truthy_string (negativePrompt request)
              then negativePrompt request else None;
            numberOfImages := 1;
            quality := "premium";
            payload_height := height;
            payload_width := width;
            cfgScale := 8%Q;
            payload_seed :=
              match seed request with
              | Some 0 | None => None
              | Some n => Some n
              end |} in
       let input :=
         {| image_modelId := imageModel self;
            image_contentType := "application/json";
            image_accept := "application/json";
            image_body := payload |} in
       body ← send input;
       responseBody ← engine (JSON_parse body);
       images ← engine (Get (Some responseBody) "images");
       no_images ← engine (or_else (negb (truthy images))
         (images ← Get (Some responseBody) "images";
          len ← Get images "length";
          Ok (match len with Some (JNumber 0) => true | _ => false end)));
       if (no_images : bool)
       then Raise (AIProviderError "No images generated" "bedrock" None)
       else
         images ← engine (Get (Some responseBody) "images");
         let base64Image :=
           match images with Some j => first_element j | None => None end in
         let imageUrl := "data:image/png;base64," ++ template base64Image in
         response_seed ← engine (Get (Some responseBody) "seed");
         Return
           {| imageUrl := imageUrl;
              base64 := base64Image;
              response_seed :=
                if truthy response_seed then or_zero response_seed
                else JNumber (or_number (seed request) 0);
              image_model := imageModel self;
              dimensions := (width, height) |})
    image_failure.

(** [healthCheck] *)
Definition healthCheck (send : TextInput → outcome string) : bool :=
  match generateText send
          {| prompt := "Hello"; maxTokens := Some 10; temperature := None;
             topP := None; stopSequences := None; systemPrompt := None |} with
  | Return response => truthy (text response)
  | Raise _ => false
  end.

End Methods.

(** [Math.ceil(text.length / 3.5)]; the quotient is a rational, which the
    engine's division rounds to a double without crossing an integer for
    any length a string can have. *)
Definition countTokens (text : string) : Z :=
  Qceiling (inject_Z (Z.of_nat (String.length text)) / (7 # 2)).

Section Environment.
(** [process.env] *)
Variable env : string → option string.

(** [new BedrockProvider(config)] *)
Definition new_BedrockProvider (config : BedrockConfig) : BedrockProvider :=
  {| region :=
       or_default (config_region config)
         (or_default (env "AWS_REGION") "us-east-1");
     textModel :=
       or_default (config_textModel config)
         (or_default (env "BEDROCK_TEXT_MODEL")
            "anthropic.claude-3-5-sonnet-20240620-v1:0");
     imageModel :=
       or_default (config_imageModel config)
         (or_default (env "BEDROCK_IMAGE_MODEL")
            "amazon.titan-image-generator-v1");
     credentials :=
       match config_accessKeyId config, config_secretAccessKey config with
       | Some (String c1 k1), Some (String c2 k2) =>
           Some (String c1 k1, String c2 k2)
       | _, _ => None
       end |}.

(** *** The factory *)

(** The fields of [AIProviderConfig] the factory reads; [provider] may be
    missing at run time, which the factory allows for. *)
Record AIProviderConfig : Type := {
  provider : option AIProvider;
  factory_region : option string
}.

Inductive IAIProvider : Type :=
  | Bedrock (instance : BedrockProvider)
  | Mock.

(** [createAIProvider] *)
Definition createAIProvider (config : option AIProviderConfig)
  : result IAIProvider :=
  let provider := default BEDROCK (config ≫= provider) in
  match provider with
  | BEDROCK =>
      Ok (Bedrock (new_BedrockProvider
            {| config_region := config ≫= factory_region;
               config_textModel := None;
               config_imageModel := None;
               config_accessKeyId := env "AWS_ACCESS_KEY_ID";
               config_secretAccessKey := env "AWS_SECRET_ACCESS_KEY" |}))
  | MOCK => Ok Mock
  | _ =>
      Throw (Error ("Unsupported AI provider: " ++ AIProvider_value provider))
  end.

(** [getDefaultProvider] *)
Definition getDefaultProvider : result IAIProvider := createAIProvider None.

End Environment.

(** [MockProvider.countTokens]: [Math.ceil(text.length / 4)]. *)
Definition Mock_countTokens (text : string) : Z :=
  Qceiling (inject_Z (Z.of_nat (String.length text)) / 4).

End Provider.

(** ** Web components: the computations of [TraitBar] and [PersonaCard] *)

Module Web.

(** [TraitBar]: [Math.min(100, Math.max(0, value))]. *)
Definition percentage (value : Q) : Q := Qmin 100 (Qmax 0 value).

(** An index argument of [slice], relative to the end when negative. *)
Definition relative_index (len k : Z) : Z :=
  if k <? 0 then Z.max (len + k) 0 else Z.min k len.

(** [s.slice(start, end)] for integer arguments; [None] is a missing
    [end]. *)
Definition slice (s : string) (start : Z) (stop : option Z) : string :=
  let len := Z.of_nat (String.length s) in
  let from := relative_index len start in
  let to := match stop with
            | None => len
            | Some e => relative_index len e
            end in
  String.substring (Z.to_nat from) (Z.to_nat (to - from)) s.

(** [truncateAddress]; [chars] defaults to 4. *)
Definition truncateAddress (address : string) (chars : option Z) : string :=
  let chars := default 4 chars in
  slice address 0 (Some chars) ++ "..." ++ slice address (- chars) None.

End Web.

(** ** The two services with their provider

    [evaluatePrompt] and [judgeBattle] as the classes have them: the
    request, the prompt built from it, the awaited call of
    [this.aiProvider.generateText], which stands before the [try], and
    then the [try] block on the response.  The provider is a parameter of
    the services ([IAIProvider]); what it raises when its promise rejects
    is a [thrown].  [String.prototype.replace] with a string pattern,
    [Number.prototype.toString] and the conversions of arrays and objects
    to strings are the engine's. *)

Module ServiceMethods.
Import PromptEvaluationService BattleJudgeService Provider.

Definition LF : string := String "010" EmptyString.

Definition quote : string := String "034" EmptyString.

(** [EVALUATION_PROMPT], line by line. *)
Definition EVALUATION_PROMPT : string :=
  String.concat LF
    [ "You are an expert evaluator of AI persona creation prompts.";
      EmptyString;
      "EVALUATE THIS PROMPT:";
      quote ++ "{userPrompt}" ++ quote;
      EmptyString;
      "SCORING CRITERIA (rate each 0-25):";
      EmptyString;
      "1. SPECIFICITY (0-25): How detailed and specific is the prompt?";
      "   - Generic (0-10): " ++ quote ++ "Smart AI" ++ quote ++ ", " ++ quote ++ "Helpful assistant" ++ quote;
      "   - Moderate (11-18): " ++ quote ++ "Marketing expert with social media skills" ++ quote;
      "   - Specific (19-25): " ++ quote ++ "B2B SaaS marketing strategist specializing in product-led growth, with expertise in SEO, content marketing, and conversion optimization for early-stage startups" ++ quote;
      EmptyString;
      "2. CREATIVITY (0-25): How unique and interesting are the traits?";
      "   - Boring (0-10): Standard job description, no personality";
      "   - Moderate (11-18): Some personality traits, basic background";
      "   - Creative (19-25): Unique background story, memorable quirks, unexpected combinations";
      EmptyString;
      "3. COHERENCE (0-25): Does the persona make logical sense?";
      "   - Contradictory (0-10): Conflicting traits that don't work together";
      "   - Moderate (11-18): Mostly consistent, minor contradictions";
      "   - Coherent (19-25): Clear, consistent, well-integrated personality";
      EmptyString;
      "4. COMPLEXITY (0-25): Is this a multi-dimensional character?";
      "   - Flat (0-10): One-dimensional, single trait focus";
      "   - Moderate (11-18): Multiple traits, some depth";
      "   - Complex (19-25): Rich backstory, nuanced personality, multiple specialties";
      EmptyString;
      "RESPOND WITH ONLY THIS JSON (no markdown, no explanation):";
      "{";
      "  " ++ quote ++ "specificity" ++ quote ++ ": 0-25,";
      "  " ++ quote ++ "creativity" ++ quote ++ ": 0-25,";
      "  " ++ quote ++ "coherence" ++ quote ++ ": 0-25,";
      "  " ++ quote ++ "complexity" ++ quote ++ ": 0-25,";
      "  " ++ quote ++ "total" ++ quote ++ ": sum of above,";
      "  " ++ quote ++ "reasoning" ++ quote ++ ": " ++ quote ++ "2-3 sentence explanation of the score" ++ quote;
      "}" ].

(** [JUDGE_PROMPT_TEMPLATE], line by line. *)
Definition JUDGE_PROMPT_TEMPLATE : string :=
  String.concat LF
    [ "You are an expert debate judge evaluating arguments from two AI personas.";
      EmptyString;
      "## BATTLE TOPIC";
      "{topic}";
      EmptyString;
      "## PERSONA 1: {persona1_name}";
      "**Traits**: Intelligence: {p1_intelligence}, Creativity: {p1_creativity}, Persuasion: {p1_persuasion}";
      "**Argument**:";
      "{persona1_argument}";
      EmptyString;
      "## PERSONA 2: {persona2_name}";
      "**Traits**: Intelligence: {p2_intelligence}, Creativity: {p2_creativity}, Persuasion: {p2_persuasion}";
      "**Argument**:";
      "{persona2_argument}";
      EmptyString;
      "## EVALUATION CRITERIA";
      EmptyString;
      "Evaluate each argument on these 4 dimensions:";
      EmptyString;
      "### 1. LOGICAL COHERENCE (30 points)";
      "- Argument structure and flow";
      "- Evidence quality and relevance";
      "- Reasoning validity";
      "- Internal consistency";
      EmptyString;
      "### 2. CREATIVITY (25 points)";
      "- Original perspectives";
      "- Unique analogies or metaphors";
      "- Novel solutions or approaches";
      "- Unexpected insights";
      EmptyString;
      "### 3. PERSUASIVENESS (25 points)";
      "- Emotional appeal";
      "- Rhetorical techniques";
      "- Call to action";
      "- Audience engagement";
      "- Confidence and conviction";
      EmptyString;
      "### 4. TOPIC RELEVANCE (20 points)";
      "- Direct addressing of the topic";
      "- Staying on-subject throughout";
      "- Depth of topic coverage";
      "- Contextual understanding";
      EmptyString;
      "## INSTRUCTIONS";
      EmptyString;
      "1. Evaluate both arguments fairly and objectively";
      "2. Consider the persona's traits when scoring (e.g., high intelligence = expect strong logic)";
      "3. Be critical but constructive";
      "4. Winner is determined by highest total score";
      "5. In case of tie (within 3 points), declare the one with better persuasiveness as winner";
      EmptyString;
      "## OUTPUT FORMAT";
      EmptyString;
      "Respond with ONLY valid JSON (no markdown, no code blocks, no explanations):";
      EmptyString;
      "{";
      "  " ++ quote ++ "winner" ++ quote ++ ": " ++ quote ++ "persona1" ++ quote ++ " or " ++ quote ++ "persona2" ++ quote ++ ",";
      "  " ++ quote ++ "scores" ++ quote ++ ": {";
      "    " ++ quote ++ "persona1" ++ quote ++ ": {";
      "      " ++ quote ++ "logical_coherence" ++ quote ++ ": 0-30,";
      "      " ++ quote ++ "creativity" ++ quote ++ ": 0-25,";
      "      " ++ quote ++ "persuasiveness" ++ quote ++ ": 0-25,";
      "      " ++ quote ++ "topic_relevance" ++ quote ++ ": 0-20,";
      "      " ++ quote ++ "total" ++ quote ++ ": 0-100";
      "    },";
      "    " ++ quote ++ "persona2" ++ quote ++ ": {";
      "      " ++ quote ++ "logical_coherence" ++ quote ++ ": 0-30,";
      "      " ++ quote ++ "creativity" ++ quote ++ ": 0-25,";
      "      " ++ quote ++ "persuasiveness" ++ quote ++ ": 0-25,";
      "      " ++ quote ++ "topic_relevance" ++ quote ++ ": 0-20,";
      "      " ++ quote ++ "total" ++ quote ++ ": 0-100";
      "    }";
      "  },";
      "  " ++ quote ++ "reasoning" ++ quote ++ ": " ++ quote ++ "2-3 sentence explanation of why the winner prevailed" ++ quote ++ ",";
      "  " ++ quote ++ "highlights" ++ quote ++ ": {";
      "    " ++ quote ++ "persona1_best" ++ quote ++ ": " ++ quote ++ "Quote or summary of strongest point" ++ quote ++ ",";
      "    " ++ quote ++ "persona2_best" ++ quote ++ ": " ++ quote ++ "Quote or summary of strongest point" ++ quote;
      "  },";
      "  " ++ quote ++ "improvement_suggestions" ++ quote ++ ": {";
      "    " ++ quote ++ "persona1" ++ quote ++ ": " ++ quote ++ "Brief suggestion for improvement" ++ quote ++ ",";
      "    " ++ quote ++ "persona2" ++ quote ++ ": " ++ quote ++ "Brief suggestion for improvement" ++ quote;
      "  }";
      "}" ].

(** One property of [const { ..., k, ... } = request]. *)
Definition Destructure_request (request : value) (k : string)
  : result value :=
  match request with
  | None | Some JNull =>
      Throw (TypeError ("Cannot destructure property '" ++ k
                        ++ "' of 'request' as it is "
                        ++ nullish_name request ++ "."))
  | Some j => Ok (property j k)
  end.

Section Methods.
(** [this.aiProvider.generateText] *)
Variable generateText :
  TextGenerationRequest → outcome TextGenerationResponse.
Variable JSON_parse : string → result JSON.
Variable less_than_coerced : JSON → Z → bool.
(** [template.replace(pattern, replacement)] on three strings; it never
    throws. *)
Variable String_replace : string → string → string → string.
(** [n.toString()] and [String(n)] for a number. *)
Variable Number_toString : Z → string.
(** [String(x)] for an array or an object; it throws when no method of
    [x] gives a primitive. *)
Variable ToString_object : JSON → result string.
(** [x.toString()] for an array or an object; it throws when the
    property is not a function. *)
Variable toString_object : JSON → result string.

(** [ToString], which [replace] applies to a replacement that is not a
    function. *)
Definition ToString (v : value) : result string :=
  match v with
  | None => Ok "undefined"
  | Some JNull => Ok "null"
  | Some (JBool b) => Ok (if b then "true" else "false")
  | Some (JNumber n) => Ok (Number_toString n)
  | Some (JString s) => Ok s
  | Some j => ToString_object j
  end.

(** [template.replace(pattern, replacement)] *)
Definition replace (template pattern : string) (replacement : value)
  : result string :=
  replacement ← ToString replacement;
  Ok (String_replace template pattern replacement).

(** [v.toString()] *)
Definition call_toString (v : value) : result string :=
  match v with
  | None | Some JNull =>
      Throw (TypeError ("Cannot read properties of " ++ nullish_name v
                        ++ " (reading 'toString')"))
  | Some (JBool b) => Ok (if b then "true" else "false")
  | Some (JNumber n) => Ok (Number_toString n)
  | Some (JString s) => Ok s
  | Some j => toString_object j
  end.

(** [text.replace(/```json\n?|\n?```/g, '').trim()] for the [text] of a
    response, which the provider takes from the model's answer: only a
    string has the method. *)
Definition cleaned_text (text : value) : result string :=
  match text with
  | Some (JString s) => Ok (clean s)
  | None | Some JNull =>
      Throw (TypeError ("Cannot read properties of " ++ nullish_name text
                        ++ " (reading 'replace')"))
  | Some _ => Throw (TypeError "response.text.replace is not a function")
  end.

(** [evaluatePrompt] *)
Definition evaluatePrompt (request : value)
  : outcome PromptEvaluationResponse :=
  prompt ← engine (Destructure_request request "prompt");
  evaluationPrompt ← engine (replace EVALUATION_PROMPT "{userPrompt}" prompt);
  response ← generateText
    {| Provider.prompt := evaluationPrompt;
       maxTokens := Some 500;
       temperature := Some (3 # 10)%Q;
       topP := None;
       stopSequences := None;
       systemPrompt := None |};
  score ← engine (try_catch
    (cleaned ← cleaned_text (text response);
     score ← JSON_parse cleaned;
     validateScore (Some score))
    (fun error =>
       Error ("Failed to parse evaluation response: " ++ toString error)));
  total ← engine (Get score "total");
  let qualityLevel := getQualityLevel (inject_Z (number_value total)) in
  let tierProbabilities := TIER_PROBABILITIES !! qualityLevel in
  Return {| score := score;
            tierProbabilities := tierProbabilities;
            qualityLevel := qualityLevel |}.

(** [buildJudgePrompt] *)
Definition buildJudgePrompt (request : value) : result string :=
  topic ← Get request "topic";
  prompt ← replace JUDGE_PROMPT_TEMPLATE "{topic}" topic;
  persona1 ← Get request "persona1";
  name ← Get persona1 "name";
  prompt ← replace prompt "{persona1_name}" name;
  persona1 ← Get request "persona1";
  argument ← Get persona1 "argument";
  prompt ← replace prompt "{persona1_argument}" argument;
  persona1 ← Get request "persona1";
  traits ← Get persona1 "traits";
  intelligence ← Get traits "intelligence";
  intelligence ← call_toString intelligence;
  prompt ← replace prompt "{p1_intelligence}" (Some (JString intelligence));
  persona1 ← Get request "persona1";
  traits ← Get persona1 "traits";
  creativity ← Get traits "creativity";
  creativity ← call_toString creativity;
  prompt ← replace prompt "{p1_creativity}" (Some (JString creativity));
  persona1 ← Get request "persona1";
  traits ← Get persona1 "traits";
  persuasion ← Get traits "persuasion";
  persuasion ← call_toString persuasion;
  prompt ← replace prompt "{p1_persuasion}" (Some (JString persuasion));
  persona2 ← Get request "persona2";
  name ← Get persona2 "name";
  prompt ← replace prompt "{persona2_name}" name;
  persona2 ← Get request "persona2";
  argument ← Get persona2 "argument";
  prompt ← replace prompt "{persona2_argument}" argument;
  persona2 ← Get request "persona2";
  traits ← Get persona2 "traits";
  intelligence ← Get traits "intelligence";
  intelligence ← call_toString intelligence;
  prompt ← replace prompt "{p2_intelligence}" (Some (JString intelligence));
  persona2 ← Get request "persona2";
  traits ← Get persona2 "traits";
  creativity ← Get traits "creativity";
  creativity ← call_toString creativity;
  prompt ← replace prompt "{p2_creativity}" (Some (JString creativity));
  persona2 ← Get request "persona2";
  traits ← Get persona2 "traits";
  persuasion ← Get traits "persuasion";
  persuasion ← call_toString persuasion;
  replace prompt "{p2_persuasion}" (Some (JString persuasion)).

(** [judgeBattle] *)
Definition judgeBattle (request : value) : outcome value :=
  prompt ← engine (buildJudgePrompt request);
  response ← generateText
    {| Provider.prompt := prompt;
       maxTokens := Some 2000;
       temperature := Some (3 # 10)%Q;
       topP := None;
       stopSequences := None;
       systemPrompt := None |};
  engine (try_catch
    (cleaned ← cleaned_text (text response);
     result ← JSON_parse cleaned;
     validateJudgeResult less_than_coerced (Some result);;
     Ok (Some result))
    (fun error =>
       Error ("Failed to parse judge response: " ++ toString error))).

End Methods.

End ServiceMethods.

(** ** Notions used by the further properties *)

Module Notions.
Import PromptEvaluationService BattleJudgeService Spec.

(** The quality bands in ascending order. *)
Definition quality_rank (level : string) : nat :=
  if String.eqb level "exceptional" then 3
  else if String.eqb level "high" then 2
  else if String.eqb level "medium" then 1
  else 0.

(** The weight a row gives a tier ([0] if the row does not name it). *)
Definition tier_weight (row : TierProbability) (tier : string) : Z :=
  match List.find (λ entry, String.eqb entry.1 tier) row with
  | Some entry => entry.2
  | None => 0
  end.

(** Over the hundred integer draws 0, 1, ..., 99: how many give [tier]. *)
Definition draws_giving (row : TierProbability) (tier : string) : Z :=
  Z.of_nat (length (List.filter
    (λ r, String.eqb (rollTier (inject_Z r) row) tier) (seqZ 0 100))).

Fixpoint contains_char (c : ascii) (s : string) : bool :=
  match s with
  | EmptyString => false
  | String c' rest => Ascii.eqb c' c || contains_char c rest
  end.

Definition starts_with_space (s : string) : bool :=
  match s with
  | EmptyString => false
  | String c _ => is_white_space c
  end.

Fixpoint ends_with_space (s : string) : bool :=
  match s with
  | EmptyString => false
  | String c EmptyString => is_white_space c
  | String _ rest => ends_with_space rest
  end.

Definition newline : string := String "010" "".

Fixpoint all_space (s : string) : bool :=
  match s with
  | EmptyString => true
  | String c rest => is_white_space c && all_space rest
  end.

(** A judge result with equal totals, 70 against 70. *)
Definition tie_members : gmap string JSON :=
  {[ "winner" := JString "persona1";
     "scores" := JObject
       {[ "persona1" := JObject
            {[ "logical_coherence" := JNumber 25;
               "creativity" := JNumber 20;
               "persuasiveness" := JNumber 10;
               "topic_relevance" := JNumber 15;
               "total" := JNumber 70 ]};
          "persona2" := JObject
            {[ "logical_coherence" := JNumber 20;
               "creativity" := JNumber 15;
               "persuasiveness" := JNumber 20;
               "topic_relevance" := JNumber 15;
               "total" := JNumber 70 ]} ]};
     "reasoning" := JString "Both arguments were equally strong.";
     "highlights" := both_highlights;
     "improvement_suggestions" := JObject
       {[ "persona1" := JString "Appeal to the audience more.";
          "persona2" := JString "Tighten the structure." ]} ]}.

(** The close result with a reasoning of two characters and no
    highlights at all. *)
Definition terse_result : JSON :=
  match close_result JNull with
  | JObject members => JObject (<["reasoning" := JString "ok"]> members)
  | other => other
  end.

(** Everything [validateJudgeResult] asks of a result. *)
Definition judge_result_ok (less_than_coerced : JSON → Z → bool)
    (result : value) : Prop :=
  ∃ (w : string) (t1 t2 : Z),
    OptGet result "winner" = Some (JString w) ∧
    validatePersonaScore (persona_score result "persona1") = Ok () ∧
    validatePersonaScore (persona_score result "persona2") = Ok () ∧
    OptGet (persona_score result "persona1") "total" = Some (JNumber t1) ∧
    OptGet (persona_score result "persona2") "total" = Some (JNumber t2) ∧
    ((w = "persona1" ∧ t2 ≤ t1) ∨ (w = "persona2" ∧ t1 ≤ t2)) ∧
    truthy (OptGet result "reasoning") = true ∧
    less_than less_than_coerced
      (OptGet (OptGet result "reasoning") "length") 20 = false ∧
    truthy (OptGet (OptGet result "highlights") "persona1_best") = true ∧
    truthy (OptGet (OptGet result "highlights") "persona2_best") = true ∧
    truthy (OptGet (OptGet result "improvement_suggestions") "persona1") = true ∧
    truthy (OptGet (OptGet result "improvement_suggestions") "persona2") = true.

(** The command [generateText] sends for a request. *)
Definition text_input (self : Provider.BedrockProvider)
    (request : Provider.TextGenerationRequest) : Provider.TextInput :=
  {| Provider.text_modelId := Provider.textModel self;
     Provider.text_contentType := "application/json";
     Provider.text_accept := "application/json";
     Provider.text_body := Provider.text_payload request |}.

(** An element that is neither [null] nor a text block. *)
Definition not_text_block (c : JSON) : Prop :=
  c ≠ JNull ∧ property c "type" ≠ Some (JString "text").

(** The first text block of a content array. *)
Definition first_text_block (content : value) (block : JSON) : Prop :=
  ∃ before after : list JSON,
    content = Some (JArray (before ++ block :: after)%list) ∧
    property block "type" = Some (JString "text") ∧
    Forall not_text_block before.

(** The command [generateImage] sends for a request whose dimensions are
    supported. *)
Definition image_input (self : Provider.BedrockProvider)
    (request : Provider.ImageGenerationRequest) : Provider.ImageInput :=
  {| Provider.image_modelId := Provider.imageModel self;
     Provider.image_contentType := "application/json";
     Provider.image_accept := "application/json";
     Provider.image_body :=
       {| Provider.taskType := "TEXT_IMAGE";
          Provider.image_text := Provider.image_prompt request;
          Provider.negativeText :=
            if Provider.truthy_string (Provider.negativePrompt request)
            then Provider.negativePrompt request else None;
          Provider.numberOfImages := 1;
          Provider.quality := "premium";
          Provider.payload_height :=
            Provider.or_number (Provider.height request) 1024;
          Provider.payload_width :=
            Provider.or_number (Provider.width request) 1024;
          Provider.cfgScale := 8%Q;
          Provider.payload_seed :=
            match Provider.seed request with
            | Some 0 | None => None
            | Some n => Some n
            end |} |}.

(** [!images || images.length === 0] *)
Definition no_images (images : value) : bool :=
  negb (truthy images) ||
  match OptGet images "length" with
  | Some (JNumber 0) => true
  | _ => false
  end.

(** *** Sample data for the providers *)

(** An environment without any of the variables the providers read. *)
Definition empty_env (name : string) : option string := None.

(** An environment that names a region and both access keys. *)
Definition sample_env (name : string) : option string :=
  if String.eqb name "AWS_REGION" then Some "eu-west-1"
  else if String.eqb name "AWS_ACCESS_KEY_ID" then Some "AKIAEXAMPLE"
  else if String.eqb name "AWS_SECRET_ACCESS_KEY" then Some "secret"
  else None.

Definition no_config : Provider.BedrockConfig :=
  {| Provider.config_region := None;
     Provider.config_textModel := None;
     Provider.config_imageModel := None;
     Provider.config_accessKeyId := None;
     Provider.config_secretAccessKey := None |}.

(** The provider [new BedrockProvider()] builds in the empty
    environment. *)
Definition default_provider : Provider.BedrockProvider :=
  Provider.new_BedrockProvider empty_env no_config.

(** The request [healthCheck] makes. *)
Definition probe : Provider.TextGenerationRequest :=
  {| Provider.prompt := "Hello";
     Provider.maxTokens := Some 10;
     Provider.temperature := None;
     Provider.topP := None;
     Provider.stopSequences := None;
     Provider.systemPrompt := None |}.

(** A body with one text block, the given stop reason and a usage. *)
Definition text_reply (stop_reason : string) : string :=
  "{" ++ quote ++ "content" ++ quote ++ ":[{"
      ++ quote ++ "type" ++ quote ++ ":" ++ quote ++ "text" ++ quote ++ ","
      ++ quote ++ "text" ++ quote ++ ":" ++ quote ++ "Hi" ++ quote ++ "}],"
      ++ quote ++ "stop_reason" ++ quote ++ ":"
      ++ quote ++ stop_reason ++ quote ++ ","
      ++ quote ++ "usage" ++ quote ++ ":{"
      ++ quote ++ "input_tokens" ++ quote ++ ":3,"
      ++ quote ++ "output_tokens" ++ quote ++ ":2}}".

Definition text_block : JSON :=
  JObject {[ "type" := JString "text"; "text" := JString "Hi" ]}.

Definition text_reply_body (stop_reason : string) : JSON :=
  JObject
    {[ "content" := JArray [text_block];
       "stop_reason" := JString stop_reason;
       "usage" := JObject {[ "input_tokens" := JNumber 3;
                             "output_tokens" := JNumber 2 ]} ]}.

(** A body with one image. *)
Definition image_reply : string :=
  "{" ++ quote ++ "images" ++ quote ++ ":["
      ++ quote ++ "aGVsbG8=" ++ quote ++ "]}".

Definition image_reply_body : JSON :=
  JObject {[ "images" := JArray [JString "aGVsbG8="] ]}.

Definition image_request (side : Z) : Provider.ImageGenerationRequest :=
  {| Provider.image_prompt := "A lighthouse at dusk";
     Provider.negativePrompt := None;
     Provider.width := Some side;
     Provider.height := Some side;
     Provider.seed := Some 7 |}.

(** The answers of the engine for the coercions the samples never
    need. *)
Definition no_add (x y : JSON) : JSON := JNull.

Definition undefined_text (v : value) : string := "undefined".

(** *** The services with their provider *)

(** The request [evaluatePrompt] sends for an evaluation prompt. *)
Definition evaluation_request (evaluationPrompt : string)
  : Provider.TextGenerationRequest :=
  {| Provider.prompt := evaluationPrompt;
     Provider.maxTokens := Some 500;
     Provider.temperature := Some (3 # 10)%Q;
     Provider.topP := None;
     Provider.stopSequences := None;
     Provider.systemPrompt := None |}.

(** The request [judgeBattle] sends for a judge prompt. *)
Definition judge_request (prompt : string) : Provider.TextGenerationRequest :=
  {| Provider.prompt := prompt;
     Provider.maxTokens := Some 2000;
     Provider.temperature := Some (3 # 10)%Q;
     Provider.topP := None;
     Provider.stopSequences := None;
     Provider.systemPrompt := None |}.

(** The evaluation prompt of a request, or what building it throws. *)
Definition evaluation_prompt
    (String_replace : string → string → string → string)
    (Number_toString : Z → string)
    (ToString_object : JSON → result string)
    (request : value) : result string :=
  prompt ← ServiceMethods.Destructure_request request "prompt";
  ServiceMethods.replace String_replace Number_toString ToString_object
    ServiceMethods.EVALUATION_PROMPT "{userPrompt}" prompt.

Definition is_string (v : value) : Prop := ∃ s : string, v = Some (JString s).

Definition is_number (v : value) : Prop := ∃ n : Z, v = Some (JNumber n).

(** A participant as [BattleJudgeRequest] declares it. *)
Definition persona_declared (persona : value) : Prop :=
  is_string (OptGet persona "name") ∧
  is_string (OptGet persona "argument") ∧
  is_number (OptGet (OptGet persona "traits") "intelligence") ∧
  is_number (OptGet (OptGet persona "traits") "creativity") ∧
  is_number (OptGet (OptGet persona "traits") "persuasion").

(** A request as [BattleJudgeRequest] declares it. *)
Definition request_declared (request : value) : Prop :=
  is_string (OptGet request "topic") ∧
  persona_declared (OptGet request "persona1") ∧
  persona_declared (OptGet request "persona2").

(** Sample requests, a provider that is throttled, one that answers with
    a given text, and instances of the engine's conversions. *)
Definition prompt_request : JSON :=
  JObject {[ "prompt" := JString "A smart AI assistant" ]}.

Definition sample_persona (name : string) : JSON :=
  JObject {[ "name" := JString name;
             "traits" := JObject {[ "intelligence" := JNumber 80;
                                    "creativity" := JNumber 70;
                                    "persuasion" := JNumber 60 ]};
             "argument" := JString "Because it is so." ]}.

Definition battle_request : JSON :=
  JObject {[ "topic" := JString "Is remote work more productive?";
             "persona1" := sample_persona "Ada";
             "persona2" := sample_persona "Grace" ]}.

Definition throttled (request : Provider.TextGenerationRequest)
  : Provider.outcome Provider.TextGenerationResponse :=
  Provider.Raise (Provider.RateLimitError "bedrock" (Some 60)).

Definition answering (text : value)
    (request : Provider.TextGenerationRequest)
  : Provider.outcome Provider.TextGenerationResponse :=
  Provider.Return
    {| Provider.text := text;
       Provider.model := "mock-model";
       Provider.inputTokens := JNumber 10;
       Provider.outputTokens := JNumber 20;
       Provider.totalTokens := JNumber 30;
       Provider.finishReason := "stop";
       Provider.metadata_id := None;
       Provider.metadata_model := None |}.

(** [replace] for a replacement without [$]: the first occurrence of
    the pattern is replaced. *)
Fixpoint replace_first (template pattern replacement : string) : string :=
  match template with
  | EmptyString =>
      match pattern with
      | EmptyString => replacement
      | _ => EmptyString
      end
  | String c rest =>
      if String.prefix pattern template
      then replacement
           ++ String.substring (String.length pattern)
                (String.length template - String.length pattern) template
      else String c (replace_first rest pattern replacement)
  end.

(** The decimal digits of an integer. *)
Definition decimal (n : Z) : string := pretty n.

Definition object_text (j : JSON) : result string := Ok "[object Object]".

End Notions.

(** ** Proofs *)

Import PromptEvaluationService BattleJudgeService Spec.

(** *** Quality bands *)

Section QualityClassifier.

Lemma getQualityLevel_cases (total : Q) :
  ((86 <= total)%Q ∧ getQualityLevel total = "exceptional") ∨
  ((71 <= total)%Q ∧ (total < 86)%Q ∧ getQualityLevel total = "high") ∨
  ((41 <= total)%Q ∧ (total < 71)%Q ∧ getQualityLevel total = "medium") ∨
  ((total < 41)%Q ∧ getQualityLevel total = "low").
Proof.
  unfold getQualityLevel, Qge_bool.
  destruct (Qle_bool 86 total) eqn:H86.
  { left. by rewrite <- Qle_bool_iff. }
  apply not_true_iff_false in H86. rewrite Qle_bool_iff in H86.
  apply Qnot_le_lt in H86.
  destruct (Qle_bool 71 total) eqn:H71.
  { right; left. by rewrite <- Qle_bool_iff. }
  apply not_true_iff_false in H71. rewrite Qle_bool_iff in H71.
  apply Qnot_le_lt in H71.
  destruct (Qle_bool 41 total) eqn:H41.
  { right; right; left. by rewrite <- Qle_bool_iff. }
  apply not_true_iff_false in H41. rewrite Qle_bool_iff in H41.
  apply Qnot_le_lt in H41.
  by right; right; right.
Qed.

(** The bands of an integer total. *)
Lemma getQualityLevel_integer (total : Z) :
  (86 ≤ total ∧ getQualityLevel (inject_Z total) = "exceptional") ∨
  (71 ≤ total ≤ 85 ∧ getQualityLevel (inject_Z total) = "high") ∨
  (41 ≤ total ≤ 70 ∧ getQualityLevel (inject_Z total) = "medium") ∨
  (total ≤ 40 ∧ getQualityLevel (inject_Z total) = "low").
Proof.
  destruct (getQualityLevel_cases (inject_Z total))
    as [[H ->]|[(H & H' & ->)|[(H & H' & ->)|[H ->]]]];
    unfold Qle, Qlt in *; simpl in *.
  - left. split; [lia|done].
  - right; left. split; [lia|done].
  - right; right; left. split; [lia|done].
  - right; right; right. split; [lia|done].
Qed.

(** C3, counterexample.  The total 85.5 lies in [0,100] and is
    classified "high", although it is not at most 85: the band of "high"
    is not closed at 85.  (Sub-scores 22, 21, 21, 21 with the declared
    total 85.5 pass [validateScore], which never asks for integers.) *)
Lemma getQualityLevel_closed_bands_counterexample :
  (0 <= 171 # 2)%Q ∧ (171 # 2 <= 100)%Q ∧
  getQualityLevel (171 # 2) = "high" ∧
  ¬ ((71 <= 171 # 2)%Q ∧ (171 # 2 <= 85)%Q).
Proof.
  split; [discriminate|]. split; [discriminate|]. split; [reflexivity|].
  intros [_ H]. by apply H.
Qed.

(** C3, amended.  The quality classifier is the threshold function of
    the specification, with half-open bands: for every number [total],
    [getQualityLevel total] is "exceptional" exactly when [total >= 86],
    "high" exactly when [71 <= total < 86], "medium" exactly when
    [41 <= total < 71] and "low" exactly when [total < 41]; for an
    integer total these are the bands 71..85, 41..70 and up to 40; 100
    and 86 are exceptional, 85 and 71 high, 70 and 41 medium, 40 and 0
    low.  Being a function of [total] alone, it is deterministic and has
    no effect. *)
Theorem getQualityLevel_thresholds :
  (∀ total : Q,
     (getQualityLevel total = "exceptional" ↔ (86 <= total)%Q) ∧
     (getQualityLevel total = "high" ↔ (71 <= total)%Q ∧ (total < 86)%Q) ∧
     (getQualityLevel total = "medium" ↔ (41 <= total)%Q ∧ (total < 71)%Q) ∧
     (getQualityLevel total = "low" ↔ (total < 41)%Q)) ∧
  (∀ total : Z,
     (getQualityLevel (inject_Z total) = "exceptional" ↔ 86 ≤ total) ∧
     (getQualityLevel (inject_Z total) = "high" ↔ 71 ≤ total ≤ 85) ∧
     (getQualityLevel (inject_Z total) = "medium" ↔ 41 ≤ total ≤ 70) ∧
     (getQualityLevel (inject_Z total) = "low" ↔ total ≤ 40)) ∧
  getQualityLevel 100 = "exceptional" ∧ getQualityLevel 86 = "exceptional" ∧
  getQualityLevel 85 = "high" ∧ getQualityLevel 71 = "high" ∧
  getQualityLevel 70 = "medium" ∧ getQualityLevel 41 = "medium" ∧
  getQualityLevel 40 = "low" ∧ getQualityLevel 0 = "low".
Proof.
  split; [|split; [|by repeat split]].
  - intros total.
    destruct (getQualityLevel_cases total)
      as [[H ->]|[(H & H' & ->)|[(H & H' & ->)|[H ->]]]];
      repeat split; try done; try discriminate;
      intros; destruct_and?; lra.
  - intros total.
    destruct (getQualityLevel_integer total)
      as [[H ->]|[[H ->]|[[H ->]|[H ->]]]];
      repeat split; intros; try discriminate; try lia.
Qed.

End QualityClassifier.

(** *** The tier probability table *)

Section TierProbabilityTable.

Lemma TIER_PROBABILITIES_lookup band row :
  TIER_PROBABILITIES !! band = Some row →
  (band = "exceptional" ∧
     row = [("common", 5); ("rare", 30); ("epic", 45); ("legendary", 20)]) ∨
  (band = "high" ∧
     row = [("common", 25); ("rare", 40); ("epic", 28); ("legendary", 7)]) ∨
  (band = "medium" ∧
     row = [("common", 50); ("rare", 35); ("epic", 12); ("legendary", 3)]) ∨
  (band = "low" ∧
     row = [("common", 80); ("rare", 15); ("epic", 4); ("legendary", 1)]).
Proof.
  unfold TIER_PROBABILITIES. intros H.
  apply lookup_insert_Some in H as [[<- <-]|[_ H]]; [by left|].
  apply lookup_insert_Some in H as [[<- <-]|[_ H]]; [by right; left|].
  apply lookup_insert_Some in H as [[<- <-]|[_ H]]; [by right; right; left|].
  apply lookup_singleton_Some in H as [<- <-]. by right; right; right.
Qed.

(** C7.  The tier probability table is a closed constant: its bands are
    exactly the four quality bands, each band holds the row of the
    specification (exceptional 5/30/45/20, high 25/40/28/7, medium
    50/35/12/3, low 80/15/4/1, in the order common, rare, epic,
    legendary), every row sums to exactly 100, and the lookup of the
    band of any total is defined. *)
Theorem TIER_PROBABILITIES_closed_rows_sum_100 :
  dom TIER_PROBABILITIES
    = ({[ "exceptional"; "high"; "medium"; "low" ]} : gset string) ∧
  TIER_PROBABILITIES !! "exceptional"
    = Some [("common", 5); ("rare", 30); ("epic", 45); ("legendary", 20)] ∧
  TIER_PROBABILITIES !! "high"
    = Some [("common", 25); ("rare", 40); ("epic", 28); ("legendary", 7)] ∧
  TIER_PROBABILITIES !! "medium"
    = Some [("common", 50); ("rare", 35); ("epic", 12); ("legendary", 3)] ∧
  TIER_PROBABILITIES !! "low"
    = Some [("common", 80); ("rare", 15); ("epic", 4); ("legendary", 1)] ∧
  (∀ (band : string) (row : TierProbability),
     TIER_PROBABILITIES !! band = Some row → sum_weights row = 100) ∧
  (∀ total : Q, is_Some (TIER_PROBABILITIES !! getQualityLevel total)).
Proof.
  split; [|split; [|split; [|split; [|split; [|split]]]]]; try done.
  - intros band row H.
    destruct (TIER_PROBABILITIES_lookup band row H)
      as [[_ ->]|[[_ ->]|[[_ ->]|[_ ->]]]]; reflexivity.
  - intros total.
    destruct (getQualityLevel_cases total)
      as [[_ ->]|[(_ & _ & ->)|[(_ & _ & ->)|[_ ->]]]]; by eexists.
Qed.

(** The instance of C7's row-sum statement at the band "high". *)
Lemma TIER_PROBABILITIES_closed_rows_sum_100_witness :
  sum_weights [("common", 25); ("rare", 40); ("epic", 28); ("legendary", 7)]
    = 100.
Proof.
  destruct TIER_PROBABILITIES_closed_rows_sum_100
    as (_ & _ & _ & _ & _ & Hsum & _).
  apply (Hsum "high"). reflexivity.
Defined.

End TierProbabilityTable.

(** *** Rolling a tier *)

Section TierRoller.

Lemma Qlt_bool_spec (x y : Q) : Qlt_bool x y = true ↔ (x < y)%Q.
Proof.
  unfold Qlt_bool. rewrite negb_true_iff, <- not_true_iff_false, Qle_bool_iff.
  split; [apply Qnot_le_lt | apply Qlt_not_le].
Qed.

Lemma cumulative_head tier probability rest :
  cumulative ((tier, probability) :: rest) 0 = probability + 0.
Proof. reflexivity. Qed.

Lemma cumulative_tail tier probability rest j :
  cumulative ((tier, probability) :: rest) (S j)
    = probability + cumulative rest j.
Proof. reflexivity. Qed.

(** The loop started at [c] finds the first index whose cumulative
    weight, counted from [c], exceeds the draw. *)
Lemma rollTier_loop_first roll entries : ∀ c i tier probability,
  entries !! i = Some (tier, probability) →
  (roll < inject_Z (c + cumulative entries i))%Q →
  (∀ j, (j < i)%nat → ¬ (roll < inject_Z (c + cumulative entries j))%Q) →
  rollTier_loop roll c entries = tier.
Proof.
  induction entries as [|[t p] rest IH]; intros c i tier probability Hi Hlt Hmin.
  - discriminate.
  - simpl. destruct i as [|i].
    + injection Hi as -> ->. rewrite cumulative_head, Z.add_0_r in Hlt.
      apply Qlt_bool_spec in Hlt. by rewrite Hlt.
    + destruct (Qlt_bool roll (inject_Z (c + p))) eqn:Hhead.
      * exfalso. apply (Hmin 0%nat); [lia|].
        rewrite cumulative_head, Z.add_0_r. by apply Qlt_bool_spec.
      * apply (IH (c + p) i tier probability); [done| |].
        -- by rewrite cumulative_tail, Z.add_assoc in Hlt.
        -- intros j Hj. specialize (Hmin (S j)).
           rewrite cumulative_tail, Z.add_assoc in Hmin. apply Hmin. lia.
Qed.

Lemma rollTier_loop_none roll entries : ∀ c,
  (∀ j, (j < length entries)%nat →
        ¬ (roll < inject_Z (c + cumulative entries j))%Q) →
  rollTier_loop roll c entries = "common".
Proof.
  induction entries as [|[t p] rest IH]; intros c Hnone; [done|].
  simpl. destruct (Qlt_bool roll (inject_Z (c + p))) eqn:Hhead.
  - exfalso. apply (Hnone 0%nat); [simpl; lia|].
    rewrite cumulative_head, Z.add_0_r. by apply Qlt_bool_spec.
  - apply IH. intros j Hj. specialize (Hnone (S j)).
    rewrite cumulative_tail, Z.add_assoc in Hnone. apply Hnone. simpl. lia.
Qed.

(** Either some index is the first to exceed the draw, or none does. *)
Lemma first_or_none roll entries : ∀ c,
  (∃ i tier probability,
     entries !! i = Some (tier, probability) ∧
     (roll < inject_Z (c + cumulative entries i))%Q ∧
     ∀ j, (j < i)%nat → ¬ (roll < inject_Z (c + cumulative entries j))%Q) ∨
  (∀ j, (j < length entries)%nat →
        ¬ (roll < inject_Z (c + cumulative entries j))%Q).
Proof.
  induction entries as [|[t p] rest IH]; intros c.
  - right. simpl. intros j Hj. lia.
  - destruct (Qlt_bool roll (inject_Z (c + p))) eqn:Hhead.
    + left. exists 0%nat, t, p. split; [done|]. split.
      * rewrite cumulative_head, Z.add_0_r. by apply Qlt_bool_spec.
      * intros j Hj. lia.
    + assert (¬ (roll < inject_Z (c + p))%Q) as Hnot.
      { intros H. apply Qlt_bool_spec in H. congruence. }
      destruct (IH (c + p)) as [(i & tier & q & Hi & Hlt & Hmin)|Hnone].
      * left. exists (S i), tier, q. split; [done|]. split.
        -- by rewrite cumulative_tail, Z.add_assoc.
        -- intros [|j] Hj.
           ++ by rewrite cumulative_head, Z.add_0_r.
           ++ rewrite cumulative_tail, Z.add_assoc. apply Hmin. lia.
      * right. intros [|j] Hj.
        -- by rewrite cumulative_head, Z.add_0_r.
        -- rewrite cumulative_tail, Z.add_assoc. apply Hnone. simpl in Hj. lia.
Qed.

Lemma Qlt_bool_false (x y : Q) : (y <= x)%Q → Qlt_bool x y = false.
Proof.
  intros H. apply not_true_iff_false. rewrite Qlt_bool_spec.
  by apply Qle_not_lt.
Qed.

(** The cumulative bands of the exceptional row: 5, 35, 80, 100. *)
Lemma rollTier_exceptional_bands roll :
  let row := [("common", 5); ("rare", 30); ("epic", 45); ("legendary", 20)] in
  ((roll < 5)%Q → rollTier roll row = "common") ∧
  ((5 <= roll < 35)%Q → rollTier roll row = "rare") ∧
  ((35 <= roll < 80)%Q → rollTier roll row = "epic") ∧
  ((80 <= roll < 100)%Q → rollTier roll row = "legendary").
Proof.
  unfold rollTier, Object_entries. simpl.
  change (inject_Z (0 + 5)) with 5%Q.
  change (inject_Z (0 + 5 + 30)) with 35%Q.
  change (inject_Z (0 + 5 + 30 + 45)) with 80%Q.
  change (inject_Z (0 + 5 + 30 + 45 + 20)) with 100%Q.
  assert (5 <= 35)%Q as H5 by discriminate.
  assert (35 <= 80)%Q as H35 by discriminate.
  repeat split.
  - intros H. apply Qlt_bool_spec in H. by rewrite H.
  - intros [Hlo Hhi]. apply Qlt_bool_spec in Hhi.
    by rewrite (Qlt_bool_false _ _ Hlo), Hhi.
  - intros [Hlo Hhi]. apply Qlt_bool_spec in Hhi.
    rewrite (Qlt_bool_false roll 5), (Qlt_bool_false _ _ Hlo), Hhi; [done|].
    by apply (Qle_trans _ 35).
  - intros [Hlo Hhi]. apply Qlt_bool_spec in Hhi.
    assert (35 <= roll)%Q as Hlo' by by apply (Qle_trans _ 80).
    rewrite (Qlt_bool_false roll 5), (Qlt_bool_false _ _ Hlo'),
      (Qlt_bool_false _ _ Hlo), Hhi; [done|].
    by apply (Qle_trans _ 35).
Qed.

(** C2.  For every distribution and every draw (in particular every draw
    in [0,100)), [rollTier] returns the first tier in iteration order
    whose cumulative weight strictly exceeds the draw; such a tier exists
    or no cumulative weight exceeds the draw, and in the latter case
    [rollTier] returns "common".  A draw of 0 returns "common" on every
    row of the table, and on the exceptional row the bands are common
    below 5, rare from 5 below 35, epic from 35 below 80 and legendary
    from 80 below 100, so a draw of 99 returns "legendary". *)
Theorem rollTier_first_exceeding :
  (∀ (roll : Q) (probabilities : TierProbability) (tier : string),
     first_exceeding roll (Object_entries probabilities) tier →
     rollTier roll probabilities = tier) ∧
  (∀ (roll : Q) (probabilities : TierProbability),
     none_exceeding roll (Object_entries probabilities) →
     rollTier roll probabilities = "common") ∧
  (∀ (roll : Q) (probabilities : TierProbability),
     (∃ tier, first_exceeding roll (Object_entries probabilities) tier) ∨
     none_exceeding roll (Object_entries probabilities)) ∧
  (∀ (band : string) (row : TierProbability),
     TIER_PROBABILITIES !! band = Some row → rollTier 0 row = "common") ∧
  (∀ (roll : Q) (row : TierProbability),
     TIER_PROBABILITIES !! "exceptional" = Some row →
     ((roll < 5)%Q → rollTier roll row = "common") ∧
     ((5 <= roll < 35)%Q → rollTier roll row = "rare") ∧
     ((35 <= roll < 80)%Q → rollTier roll row = "epic") ∧
     ((80 <= roll < 100)%Q → rollTier roll row = "legendary")) ∧
  (∀ row : TierProbability,
     TIER_PROBABILITIES !! "exceptional" = Some row →
     rollTier 99 row = "legendary").
Proof.
  split; [|split; [|split; [|split; [|split]]]].
  - intros roll probabilities tier (i & p & Hi & Hlt & Hmin).
    apply (rollTier_loop_first roll _ 0 i tier p); [done|done|].
    intros j Hj. by apply Hmin.
  - intros roll probabilities Hnone.
    apply rollTier_loop_none. intros j Hj. by apply Hnone.
  - intros roll probabilities.
    destruct (first_or_none roll (Object_entries probabilities) 0)
      as [(i & tier & p & Hi & Hlt & Hmin)|Hnone].
    + left. exists tier, i, p. split; [done|]. split; [done|].
      intros j Hj. by apply Hmin.
    + right. intros j Hj. by apply Hnone.
  - intros band row H.
    destruct (TIER_PROBABILITIES_lookup band row H)
      as [[_ ->]|[[_ ->]|[[_ ->]|[_ ->]]]]; reflexivity.
  - intros roll row H.
    change (TIER_PROBABILITIES !! "exceptional")
      with (Some [("common", 5); ("rare", 30); ("epic", 45); ("legendary", 20)])
      in H.
    injection H as <-. apply rollTier_exceptional_bands.
  - intros row H.
    change (TIER_PROBABILITIES !! "exceptional")
      with (Some [("common", 5); ("rare", 30); ("epic", 45); ("legendary", 20)])
      in H.
    injection H as <-. reflexivity.
Qed.

(** C2 on the exceptional row: index 3, "legendary", is the first whose
    cumulative weight (100) exceeds a draw of 99, and no cumulative
    weight exceeds a draw of 100. *)
Lemma rollTier_first_exceeding_witness :
  rollTier 99 [("common", 5); ("rare", 30); ("epic", 45); ("legendary", 20)]
    = "legendary" ∧
  rollTier 100 [("common", 5); ("rare", 30); ("epic", 45); ("legendary", 20)]
    = "common" ∧
  rollTier 0 [("common", 80); ("rare", 15); ("epic", 4); ("legendary", 1)]
    = "common" ∧
  rollTier (349 # 10)
      [("common", 5); ("rare", 30); ("epic", 45); ("legendary", 20)]
    = "rare".
Proof.
  destruct rollTier_first_exceeding
    as (Hfirst & Hnone & _ & Hzero & Hbands & _).
  split; [|split; [|split]].
  - apply Hfirst. exists 3%nat, 20. split; [reflexivity|]. split.
    + reflexivity.
    + intros j Hj.
      destruct j as [|[|[|j]]]; [discriminate..|lia].
  - apply Hnone. intros j Hj.
    destruct j as [|[|[|[|j]]]]; [discriminate..|simpl in Hj; lia].
  - apply (Hzero "low"). reflexivity.
  - apply (Hbands (349 # 10)%Q); [reflexivity|]. split; [discriminate|reflexivity].
Defined.

End TierRoller.

(** *** Score validation, lenient and strict *)

(** Decide the integer comparisons of the goal, closing by arithmetic the
    cases the hypotheses exclude. *)
Ltac decide_comparisons :=
  repeat match goal with
    | |- context [?x >? ?y] => rewrite (Z.gtb_ltb x y)
    | |- context [?x >=? ?y] => rewrite (Z.geb_leb x y)
    | |- context [?x <? ?y] => destruct (Z.ltb_spec x y); try lia; simpl
    | |- context [?x <=? ?y] => destruct (Z.leb_spec x y); try lia; simpl
    end.

(** Turn a range check that came out [false] into inequalities. *)
Ltac comparisons_of_hyps :=
  repeat match goal with
    | H : _ || _ = false |- _ => apply orb_false_iff in H as [? ?]
    | H : (_ <? _) = false |- _ => apply Z.ltb_ge in H
    | H : (_ >? _) = false |- _ => rewrite Z.gtb_ltb in H; apply Z.ltb_ge in H
    | H : (_ >? _) = true |- _ => rewrite Z.gtb_ltb in H; apply Z.ltb_lt in H
    end.

Section ScoreValidator.

(** [validateScore] on an object whose five members are numbers. *)
Lemma validateScore_numbers members a b c d t :
  prompt_numbers members a b c d t →
  validateScore (Some (JObject members)) =
    if (a <? 0) || (a >? 25) || (b <? 0) || (b >? 25) ||
       (c <? 0) || (c >? 25) || (d <? 0) || (d >? 25)
    then Throw (Error "Scores must be between 0 and 25")
    else if (t <? 0) || (t >? 100)
    then Throw (Error "Total score must be between 0 and 100")
    else if Z.abs (a + b + c + d - t) >? 1
    then Ok (Some (JObject (<["total" := JNumber (a + b + c + d)]> members)))
    else Ok (Some (JObject members)).
Proof.
  intros (Ha & Hb & Hc & Hd & Ht).
  unfold validateScore, Destructure, property. simpl.
  by rewrite Ha, Hb, Hc, Hd, Ht.
Qed.

(** A score that passes [validateScore] is an object whose five members
    are numbers in range. *)
Lemma validateScore_Ok_inv score score' :
  validateScore score = Ok score' →
  ∃ members a b c d t,
    score = Some (JObject members) ∧
    prompt_numbers members a b c d t ∧
    0 ≤ a ≤ 25 ∧ 0 ≤ b ≤ 25 ∧ 0 ≤ c ≤ 25 ∧ 0 ≤ d ≤ 25 ∧ 0 ≤ t ≤ 100.
Proof.
  intros H.
  destruct score as [[| | | | |members]|]; try discriminate.
  unfold validateScore, Destructure, property in H. simpl in H.
  destruct (members !! "specificity") as [[| |a| | |]|] eqn:Ha; try discriminate.
  destruct (members !! "creativity") as [[| |b| | |]|] eqn:Hb; try discriminate.
  destruct (members !! "coherence") as [[| |c| | |]|] eqn:Hc; try discriminate.
  destruct (members !! "complexity") as [[| |d| | |]|] eqn:Hd; try discriminate.
  destruct (members !! "total") as [[| |t| | |]|] eqn:Ht; try discriminate.
  simpl in H.
  destruct (_ || _) eqn:Hsub in H; [discriminate|].
  destruct ((t <? 0) || (t >? 100)) eqn:Htot in H; [discriminate|].
  comparisons_of_hyps.
  exists members, a, b, c, d, t. repeat split; done || lia.
Qed.

(** After [validateScore] the total read by [evaluatePrompt] is a number. *)
Lemma validateScore_total_number score score' :
  validateScore score = Ok score' →
  ∃ total : Z, OptGet score' "total" = Some (JNumber total).
Proof.
  intros H.
  destruct (validateScore_Ok_inv _ _ H)
    as (members & a & b & c & d & t & -> & Hnum & _).
  rewrite (validateScore_numbers _ _ _ _ _ _ Hnum) in H.
  destruct Hnum as (_ & _ & _ & _ & Ht).
  destruct (_ || _) in H; [discriminate|].
  destruct (_ || _) in H; [discriminate|].
  destruct (_ >? _) in H; injection H as <-; simpl.
  - rewrite lookup_insert_eq. by eexists.
  - rewrite Ht. by eexists.
Qed.

End ScoreValidator.

Section LenientValidation.

(** C1, counterexample.  The score of the end-to-end example has
    sub-scores 20, 18, 22, 15 (sum 75) and declared total 74: lenient
    validation succeeds and leaves the total at 74, which is not the
    sum. *)
Lemma lenient_total_is_sum_counterexample :
  prompt_numbers
    {[ "specificity" := JNumber 20; "creativity" := JNumber 18;
       "coherence" := JNumber 22; "complexity" := JNumber 15;
       "total" := JNumber 74;
       "reasoning" := JString "Well-structured and specific." ]}
    20 18 22 15 74 ∧
  validateScore (Some example_score) = Ok (Some example_score) ∧
  OptGet (Some example_score) "total" = Some (JNumber 74) ∧
  74 ≠ 20 + 18 + 22 + 15.
Proof. repeat split; try reflexivity. discriminate. Qed.

(** C1, amended.  For every score object whose four sub-scores are
    numbers in [0,25] and whose declared total is a number in [0,100],
    lenient validation succeeds; the resulting total is the sum of the
    four sub-scores when the declared total deviates from the sum by
    more than 1, and the declared total otherwise. *)
Theorem lenient_total_within_tolerance :
  ∀ (members : gmap string JSON) (a b c d t : Z),
    prompt_numbers members a b c d t →
    0 ≤ a ≤ 25 → 0 ≤ b ≤ 25 → 0 ≤ c ≤ 25 → 0 ≤ d ≤ 25 → 0 ≤ t ≤ 100 →
    ∃ total' : Z,
      validateScore (Some (JObject members))
        = Ok (Some (JObject (<["total" := JNumber total']> members))) ∧
      (1 < Z.abs (a + b + c + d - t) → total' = a + b + c + d) ∧
      (Z.abs (a + b + c + d - t) ≤ 1 → total' = t).
Proof.
  intros members a b c d t Hnum Ha Hb Hc Hd Ht.
  rewrite (validateScore_numbers _ _ _ _ _ _ Hnum).
  decide_comparisons.
  - exists (a + b + c + d). split; [done|]. split; [done|lia].
  - exists t. destruct Hnum as (_ & _ & _ & _ & Htotal).
    rewrite insert_id by done. split; [done|]. split; [lia|done].
Qed.

(** C1 amended, on a score that declares 60 for sub-scores summing to
    75. *)
Lemma lenient_total_within_tolerance_witness :
  ∃ total' : Z,
    validateScore
      (Some (JObject {[ "specificity" := JNumber 20; "creativity" := JNumber 18;
                        "coherence" := JNumber 22; "complexity" := JNumber 15;
                        "total" := JNumber 60 ]}))
      = Ok (Some (JObject (<["total" := JNumber total']>
               {[ "specificity" := JNumber 20; "creativity" := JNumber 18;
                  "coherence" := JNumber 22; "complexity" := JNumber 15;
                  "total" := JNumber 60 ]}))) ∧
    (1 < Z.abs (20 + 18 + 22 + 15 - 60) → total' = 20 + 18 + 22 + 15) ∧
    (Z.abs (20 + 18 + 22 + 15 - 60) ≤ 1 → total' = 60).
Proof.
  apply lenient_total_within_tolerance; [by repeat split|lia..].
Defined.

(** C9.  A score that passes lenient validation is an object with five
    numeric members, and validation changes at most its [total]: every
    other member (the four sub-scores and the reasoning among them) reads
    as before; when the declared total is within 1 of the recomputed sum
    the object is returned unchanged, and only when it deviates by more
    than 1 is the total replaced, by the recomputed sum. *)
Theorem lenient_changes_only_total :
  ∀ score score' : value,
    validateScore score = Ok score' →
    ∃ (members : gmap string JSON) (a b c d t : Z),
      score = Some (JObject members) ∧
      prompt_numbers members a b c d t ∧
      (∀ k : string, k ≠ "total" → OptGet score' k = OptGet score k) ∧
      OptGet score' "specificity" = Some (JNumber a) ∧
      OptGet score' "creativity" = Some (JNumber b) ∧
      OptGet score' "coherence" = Some (JNumber c) ∧
      OptGet score' "complexity" = Some (JNumber d) ∧
      OptGet score' "reasoning" = OptGet score "reasoning" ∧
      (Z.abs (a + b + c + d - t) ≤ 1 → score' = score) ∧
      (1 < Z.abs (a + b + c + d - t) →
         score' = Some (JObject (<["total" := JNumber (a + b + c + d)]> members))).
Proof.
  intros score score' H.
  destruct (validateScore_Ok_inv _ _ H)
    as (members & a & b & c & d & t & -> & Hnum & Ha & Hb & Hc & Hd & Ht).
  rewrite (validateScore_numbers _ _ _ _ _ _ Hnum) in H.
  exists members, a, b, c, d, t.
  destruct Hnum as (Hna & Hnb & Hnc & Hnd & Hnt).
  revert H. decide_comparisons; intros [= <-]; simpl;
    rewrite ?lookup_insert_ne by done; repeat split; try done; try lia.
  intros k Hk. by rewrite lookup_insert_ne.
Qed.

(** C9 on the end-to-end example, which is returned as it came. *)
Lemma lenient_changes_only_total_witness :
  ∃ (members : gmap string JSON) (a b c d t : Z),
    Some example_score = Some (JObject members) ∧
    prompt_numbers members a b c d t ∧
    (∀ k : string, k ≠ "total" →
       OptGet (Some example_score) k = OptGet (Some example_score) k) ∧
    OptGet (Some example_score) "specificity" = Some (JNumber a) ∧
    OptGet (Some example_score) "creativity" = Some (JNumber b) ∧
    OptGet (Some example_score) "coherence" = Some (JNumber c) ∧
    OptGet (Some example_score) "complexity" = Some (JNumber d) ∧
    OptGet (Some example_score) "reasoning"
      = OptGet (Some example_score) "reasoning" ∧
    (Z.abs (a + b + c + d - t) ≤ 1 → Some example_score = Some example_score) ∧
    (1 < Z.abs (a + b + c + d - t) →
       Some example_score
         = Some (JObject (<["total" := JNumber (a + b + c + d)]> members))).
Proof.
  apply (lenient_changes_only_total (Some example_score) (Some example_score)).
  reflexivity.
Defined.

End LenientValidation.

Section StrictValidation.

(** [validatePersonaScore] on an object whose five members are numbers. *)
Lemma validatePersonaScore_numbers members l c p r t :
  persona_numbers members l c p r t →
  validatePersonaScore (Some (JObject members)) =
    if (l <? 0) || (l >? 30)
    then Throw (Error "logical_coherence must be 0-30")
    else if (c <? 0) || (c >? 25)
    then Throw (Error "creativity must be 0-25")
    else if (p <? 0) || (p >? 25)
    then Throw (Error "persuasiveness must be 0-25")
    else if (r <? 0) || (r >? 20)
    then Throw (Error "topic_relevance must be 0-20")
    else if (t <? 0) || (t >? 100)
    then Throw (Error "total must be 0-100")
    else if Z.abs (l + c + p + r - t) >? 1
    then Throw TotalMismatch
    else Ok ().
Proof.
  intros (Hl & Hc & Hp & Hr & Ht).
  unfold validatePersonaScore, Destructure, property. simpl.
  by rewrite Hl, Hc, Hp, Hr, Ht.
Qed.

(** A score that passes [validatePersonaScore] is an object whose five
    members are numbers in range, the total within 1 of the sum. *)
Lemma validatePersonaScore_Ok_inv score :
  validatePersonaScore score = Ok () →
  ∃ members l c p r t,
    score = Some (JObject members) ∧
    persona_numbers members l c p r t ∧
    0 ≤ l ≤ 30 ∧ 0 ≤ c ≤ 25 ∧ 0 ≤ p ≤ 25 ∧ 0 ≤ r ≤ 20 ∧ 0 ≤ t ≤ 100 ∧
    Z.abs (l + c + p + r - t) ≤ 1.
Proof.
  intros H.
  destruct score as [[| | | | |members]|]; try discriminate.
  unfold validatePersonaScore, Destructure, property in H. simpl in H.
  destruct (members !! "logical_coherence") as [[| |l| | |]|] eqn:Hl;
    try discriminate.
  destruct (members !! "creativity") as [[| |c| | |]|] eqn:Hc; try discriminate.
  destruct (members !! "persuasiveness") as [[| |p| | |]|] eqn:Hp;
    try discriminate.
  destruct (members !! "topic_relevance") as [[| |r| | |]|] eqn:Hr;
    try discriminate.
  destruct (members !! "total") as [[| |t| | |]|] eqn:Ht; try discriminate.
  simpl in H.
  destruct ((l <? 0) || (l >? 30)) eqn:Hcl in H; [discriminate|].
  destruct ((c <? 0) || (c >? 25)) eqn:Hcc in H; [discriminate|].
  destruct ((p <? 0) || (p >? 25)) eqn:Hcp in H; [discriminate|].
  destruct ((r <? 0) || (r >? 20)) eqn:Hcr in H; [discriminate|].
  destruct ((t <? 0) || (t >? 100)) eqn:Hct in H; [discriminate|].
  destruct (Z.abs (l + c + p + r - t) >? 1) eqn:Hdev in H; [discriminate|].
  comparisons_of_hyps.
  exists members, l, c, p, r, t. repeat split; done || lia.
Qed.

(** C4.  When the declared total deviates from the sum of the sub-scores
    by more than 1, all values being in their declared ranges, strict
    validation ([validatePersonaScore], ranges 0-30, 0-25, 0-25, 0-20)
    fails with the total-mismatch error, while lenient validation
    ([validateScore], ranges 0-25) succeeds and returns the score with
    its total replaced by the recomputed sum. *)
Theorem mismatch_strict_fails_lenient_corrects :
  (∀ (members : gmap string JSON) (l c p r t : Z),
     persona_numbers members l c p r t →
     0 ≤ l ≤ 30 → 0 ≤ c ≤ 25 → 0 ≤ p ≤ 25 → 0 ≤ r ≤ 20 → 0 ≤ t ≤ 100 →
     1 < Z.abs (l + c + p + r - t) →
     validatePersonaScore (Some (JObject members)) = Throw TotalMismatch) ∧
  (∀ (members : gmap string JSON) (a b c d t : Z),
     prompt_numbers members a b c d t →
     0 ≤ a ≤ 25 → 0 ≤ b ≤ 25 → 0 ≤ c ≤ 25 → 0 ≤ d ≤ 25 → 0 ≤ t ≤ 100 →
     1 < Z.abs (a + b + c + d - t) →
     validateScore (Some (JObject members))
       = Ok (Some (JObject (<["total" := JNumber (a + b + c + d)]> members)))).
Proof.
  split.
  - intros members l c p r t Hnum Hl Hc Hp Hr Ht Hdev.
    rewrite (validatePersonaScore_numbers _ _ _ _ _ _ Hnum).
    by decide_comparisons.
  - intros members a b c d t Hnum Ha Hb Hc Hd Ht Hdev.
    rewrite (validateScore_numbers _ _ _ _ _ _ Hnum).
    by decide_comparisons.
Qed.

(** C4 on two scores that declare 60 for sub-scores summing to 75. *)
Lemma mismatch_strict_fails_lenient_corrects_witness :
  validatePersonaScore
    (Some (JObject {[ "logical_coherence" := JNumber 25;
                      "creativity" := JNumber 20;
                      "persuasiveness" := JNumber 15;
                      "topic_relevance" := JNumber 15;
                      "total" := JNumber 60 ]}))
    = Throw (Error "Total score mismatch") ∧
  validateScore
    (Some (JObject {[ "specificity" := JNumber 20; "creativity" := JNumber 18;
                      "coherence" := JNumber 22; "complexity" := JNumber 15;
                      "total" := JNumber 60 ]}))
    = Ok (Some (JObject (<["total" := JNumber (20 + 18 + 22 + 15)]>
             {[ "specificity" := JNumber 20; "creativity" := JNumber 18;
                "coherence" := JNumber 22; "complexity" := JNumber 15;
                "total" := JNumber 60 ]}))).
Proof.
  destruct mismatch_strict_fails_lenient_corrects as [Hstrict Hlenient].
  split.
  - apply (Hstrict _ 25 20 15 15 60); [by repeat split|lia..].
  - apply (Hlenient _ 20 18 22 15 60); [by repeat split|lia..].
Defined.

End StrictValidation.

Section PromptEvaluationPipeline.
Variable JSON_parse : string → result JSON.

(** C10.  In lenient validation the range check on the declared total
    comes before the correction: a score whose four sub-scores are
    numbers in [0,25] and whose declared total is a number outside
    [0,100] is refused with the total-range error, and [evaluatePrompt]
    raises the parse error that wraps it, although the recomputed sum
    lies in [0,100]. *)
Theorem lenient_total_range_checked_first :
  ∀ (members : gmap string JSON) (a b c d t : Z),
    prompt_numbers members a b c d t →
    0 ≤ a ≤ 25 → 0 ≤ b ≤ 25 → 0 ≤ c ≤ 25 → 0 ≤ d ≤ 25 →
    t < 0 ∨ 100 < t →
    validateScore (Some (JObject members))
      = Throw (Error "Total score must be between 0 and 100") ∧
    0 ≤ a + b + c + d ≤ 100 ∧
    ∀ response_text : string,
      JSON_parse (clean response_text) = Ok (JObject members) →
      evaluatePrompt JSON_parse response_text
        = Throw (EvaluationParseError
                   (Error "Total score must be between 0 and 100")).
Proof.
  intros members a b c d t Hnum Ha Hb Hc Hd Ht.
  assert (validateScore (Some (JObject members))
            = Throw (Error "Total score must be between 0 and 100")) as Hv.
  { rewrite (validateScore_numbers _ _ _ _ _ _ Hnum).
    destruct Ht; by decide_comparisons. }
  split; [done|]. split; [lia|].
  intros response_text Hparse.
  unfold evaluatePrompt. rewrite Hparse. simpl. by rewrite Hv.
Qed.

(** C6.  When the generated text, once cleaned, is the example of the
    specification and [JSON.parse] reads it as the object it denotes,
    [evaluatePrompt] returns that score with quality level "high" and
    the tier probabilities common 25, rare 40, epic 28, legendary 7. *)
Theorem evaluatePrompt_example :
  ∀ response_text : string,
    clean response_text = example_text →
    JSON_parse example_text = Ok example_score →
    evaluatePrompt JSON_parse response_text
      = Ok {| score := Some example_score;
              tierProbabilities :=
                Some [("common", 25); ("rare", 40); ("epic", 28);
                      ("legendary", 7)];
              qualityLevel := "high" |}.
Proof.
  intros response_text Hclean Hparse.
  unfold evaluatePrompt. rewrite Hclean, Hparse. reflexivity.
Qed.

End PromptEvaluationPipeline.

(** C10 with the reference parser, on a score that declares 140. *)
Lemma lenient_total_range_checked_first_witness :
  validateScore
    (Some (JObject {[ "specificity" := JNumber 20; "creativity" := JNumber 18;
                      "coherence" := JNumber 22; "complexity" := JNumber 15;
                      "total" := JNumber 140 ]}))
    = Throw (Error "Total score must be between 0 and 100") ∧
  0 ≤ 20 + 18 + 22 + 15 ≤ 100 ∧
  ∀ response_text : string,
    ReferenceJSON.parse (clean response_text)
      = Ok (JObject {[ "specificity" := JNumber 20; "creativity" := JNumber 18;
                       "coherence" := JNumber 22; "complexity" := JNumber 15;
                       "total" := JNumber 140 ]}) →
    evaluatePrompt ReferenceJSON.parse response_text
      = Throw (EvaluationParseError
                 (Error "Total score must be between 0 and 100")).
Proof.
  apply (lenient_total_range_checked_first ReferenceJSON.parse _ 20 18 22 15 140);
    [by repeat split|lia..].
Defined.

(** C6 with the reference parser, on the example wrapped in a code fence. *)
Lemma evaluatePrompt_example_witness :
  evaluatePrompt ReferenceJSON.parse
    ("```json" ++ String "010" example_text ++ String "010" "```")
    = Ok {| score := Some example_score;
            tierProbabilities :=
              Some [("common", 25); ("rare", 40); ("epic", 28);
                    ("legendary", 7)];
            qualityLevel := "high" |}.
Proof.
  apply evaluatePrompt_example; vm_compute; reflexivity.
Defined.

(** *** Judge results *)

Section BattleJudgePipeline.
Variable less_than_coerced : JSON → Z → bool.

Lemma OptGet_object v k o :
  OptGet v k = Some (JObject o) →
  ∃ members, v = Some (JObject members) ∧ members !! k = Some (JObject o).
Proof.
  destruct v as [[| | |s|l|members]|]; simpl; try discriminate.
  - destruct (String.eqb k "length"); discriminate.
  - destruct (String.eqb k "length"); discriminate.
  - eauto.
Qed.

Lemma Get_truthy v k : truthy v = true → Get v k = Ok (OptGet v k).
Proof. by destruct v as [[]|]. Qed.

(** The checks of [validateJudgeResult] that follow the validation of
    the two scores. *)
Lemma validateJudgeResult_scores_valid m w sc m1 m2 t1 t2 :
  m !! "winner" = Some (JString w) →
  w = "persona1" ∨ w = "persona2" →
  m !! "scores" = Some (JObject sc) →
  sc !! "persona1" = Some (JObject m1) →
  sc !! "persona2" = Some (JObject m2) →
  validatePersonaScore (Some (JObject m1)) = Ok () →
  validatePersonaScore (Some (JObject m2)) = Ok () →
  m1 !! "total" = Some (JNumber t1) →
  m2 !! "total" = Some (JNumber t2) →
  validateJudgeResult less_than_coerced (Some (JObject m)) =
    if String.eqb w "persona1" && (t1 <? t2)
    then Throw (WinnerMismatch "persona1")
    else if String.eqb w "persona2" && (t2 <? t1)
    then Throw (WinnerMismatch "persona2")
    else if negb (truthy (m !! "reasoning"))
            || less_than less_than_coerced
                 (OptGet (m !! "reasoning") "length") 20
    then Throw (Error "Reasoning must be at least 20 characters")
    else if negb (truthy (OptGet (m !! "highlights") "persona1_best"))
            || negb (truthy (OptGet (m !! "highlights") "persona2_best"))
    then Throw (Error "Missing highlights")
    else if negb (truthy (OptGet (m !! "improvement_suggestions") "persona1"))
            || negb (truthy (OptGet (m !! "improvement_suggestions") "persona2"))
    then Throw (Error "Missing improvement suggestions")
    else Ok ().
Proof.
  intros Hw Hwin Hsc H1 H2 Hv1 Hv2 Ht1 Ht2.
  unfold validateJudgeResult.
  cbn [Get property mbind result_bind fmap result_fmap].
  rewrite Hw.
  replace (includes_winner (Some (JString w))) with true
    by (by destruct Hwin as [-> | ->]).
  cbn [negb].
  rewrite Hsc. cbn [Get property mbind result_bind fmap result_fmap].
  rewrite H1, H2, Hv1, Hv2.
  cbn [Get property mbind result_bind fmap result_fmap].
  rewrite Ht1, Ht2. cbn [number_value strict_equals].
  destruct (String.eqb w "persona1" && (t1 <? t2)); [done|].
  destruct (String.eqb w "persona2" && (t2 <? t1)); [done|].
  destruct (truthy (m !! "reasoning")) eqn:Hr;
    cbn [negb or_else orb mbind result_bind]; [|done].
  rewrite (Get_truthy _ _ Hr). cbn [mbind result_bind].
  destruct (less_than _ _ _); [done|].
  destruct (truthy (OptGet (m !! "highlights") "persona1_best"));
    cbn [negb or_else orb mbind result_bind]; [|done].
  destruct (truthy (OptGet (m !! "highlights") "persona2_best"));
    cbn [negb or_else orb mbind result_bind]; [|done].
  destruct (truthy (OptGet (m !! "improvement_suggestions") "persona1"));
    cbn [negb or_else orb mbind result_bind]; [|done].
  by destruct (truthy (OptGet (m !! "improvement_suggestions") "persona2")).
Qed.

(** The shape of a result whose winner is a participant and whose two
    scores pass strict validation. *)
Lemma judge_result_shape result w :
  OptGet result "winner" = Some (JString w) →
  validatePersonaScore (persona_score result "persona1") = Ok () →
  validatePersonaScore (persona_score result "persona2") = Ok () →
  ∃ m sc m1 m2,
    result = Some (JObject m) ∧
    m !! "winner" = Some (JString w) ∧
    m !! "scores" = Some (JObject sc) ∧
    sc !! "persona1" = Some (JObject m1) ∧
    sc !! "persona2" = Some (JObject m2).
Proof.
  intros Hw Hv1 Hv2.
  destruct (validatePersonaScore_Ok_inv _ Hv1) as (m1 & ? & ? & ? & ? & ? & H1 & _).
  destruct (validatePersonaScore_Ok_inv _ Hv2) as (m2 & ? & ? & ? & ? & ? & H2 & _).
  unfold persona_score in H1, H2.
  destruct (OptGet_object _ _ _ H1) as (sc & Hsc & Hp1).
  destruct (OptGet_object _ _ _ H2) as (sc' & Hsc' & Hp2).
  rewrite Hsc in Hsc'. injection Hsc' as <-.
  destruct (OptGet_object _ _ _ Hsc) as (m & -> & Hm).
  exists m, sc, m1, m2. by repeat split.
Qed.

(** What an accepted judge result is. *)
Lemma validateJudgeResult_Ok_inv result :
  validateJudgeResult less_than_coerced result = Ok () →
  ∃ w t1 t2,
    OptGet result "winner" = Some (JString w) ∧
    validatePersonaScore (persona_score result "persona1") = Ok () ∧
    validatePersonaScore (persona_score result "persona2") = Ok () ∧
    OptGet (persona_score result "persona1") "total" = Some (JNumber t1) ∧
    OptGet (persona_score result "persona2") "total" = Some (JNumber t2) ∧
    ((w = "persona1" ∧ t2 ≤ t1) ∨ (w = "persona2" ∧ t1 ≤ t2)) ∧
    truthy (OptGet result "reasoning") = true ∧
    less_than less_than_coerced
      (OptGet (OptGet result "reasoning") "length") 20 = false ∧
    truthy (OptGet (OptGet result "highlights") "persona1_best") = true ∧
    truthy (OptGet (OptGet result "highlights") "persona2_best") = true ∧
    truthy (OptGet (OptGet result "improvement_suggestions") "persona1") = true ∧
    truthy (OptGet (OptGet result "improvement_suggestions") "persona2") = true.
Proof.
  intros H.
  destruct result as [[| | |s|l|m]|]; try discriminate.
  pose proof H as Hrun.
  unfold validateJudgeResult in H.
  cbn [Get property mbind result_bind fmap result_fmap] in H.
  destruct (m !! "winner") as [[| | |w| |]|] eqn:Hw; try discriminate.
  destruct (includes_winner (Some (JString w))) eqn:Hinc; [|discriminate].
  cbn [negb] in H.
  destruct (m !! "scores") as [[| | |s|l|sc]|] eqn:Hsc; try discriminate.
  cbn [Get property mbind result_bind fmap result_fmap] in H.
  destruct (validatePersonaScore (sc !! "persona1")) as [[]|] eqn:Hv1;
    [|discriminate].
  destruct (validatePersonaScore (sc !! "persona2")) as [[]|] eqn:Hv2;
    [|discriminate].
  clear H.
  destruct (validatePersonaScore_Ok_inv _ Hv1)
    as (m1 & ? & ? & ? & ? & t1 & H1 & (_ & _ & _ & _ & Ht1) & _).
  destruct (validatePersonaScore_Ok_inv _ Hv2)
    as (m2 & ? & ? & ? & ? & t2 & H2 & (_ & _ & _ & _ & Ht2) & _).
  assert (w = "persona1" ∨ w = "persona2") as Hwin.
  { unfold includes_winner, strict_equals in Hinc.
    apply orb_true_iff in Hinc as [Hinc|Hinc]; apply String.eqb_eq in Hinc; auto. }
  rewrite H1 in Hv1. rewrite H2 in Hv2.
  rewrite (validateJudgeResult_scores_valid m w sc m1 m2 t1 t2) in Hrun by done.
  exists w, t1, t2. unfold persona_score. simpl.
  rewrite Hw, Hsc. simpl. rewrite H1, H2. simpl. rewrite Ht1, Ht2.
  destruct (String.eqb w "persona1" && (t1 <? t2)) eqn:Hm1; [discriminate|].
  destruct (String.eqb w "persona2" && (t2 <? t1)) eqn:Hm2; [discriminate|].
  destruct (negb (truthy (m !! "reasoning")) || _) eqn:Hr in Hrun;
    [discriminate|].
  destruct (negb (truthy (OptGet (m !! "highlights") "persona1_best")) || _)
    eqn:Hh in Hrun; [discriminate|].
  destruct (negb (truthy (OptGet (m !! "improvement_suggestions") "persona1"))
            || _) eqn:Hs in Hrun; [discriminate|].
  apply orb_false_iff in Hr as [Hr1 Hr2], Hh as [Hh1 Hh2], Hs as [Hs1 Hs2].
  apply negb_false_iff in Hr1, Hh1, Hh2, Hs1, Hs2.
  repeat split; try done.
  destruct Hwin as [-> | ->]; [left|right]; (split; [done|]).
  - simpl in Hm1. apply Z.ltb_ge in Hm1. lia.
  - simpl in Hm2. apply Z.ltb_ge in Hm2. lia.
Qed.

(** C5.  [validateJudgeResult] accepts a result only if the declared
    winner's total is at least the other participant's total, so a result
    that declares the participant with the lower total is always refused;
    when its two scores pass strict validation, so that the comparison of
    the totals is reached, it is refused with the winner-mismatch error,
    for persona1 and for persona2; and nothing more than that comparison
    is asked of the winner: a result with a valid winner, two valid
    scores, a winner total not below the other total and the required
    texts is accepted whatever the persuasiveness sub-scores are, also
    when the totals are within 3 points. *)
Theorem winner_total_not_lower :
  (∀ result : value,
     validateJudgeResult less_than_coerced result = Ok () →
     ∃ (w : string) (t1 t2 : Z),
       OptGet result "winner" = Some (JString w) ∧
       OptGet (persona_score result "persona1") "total" = Some (JNumber t1) ∧
       OptGet (persona_score result "persona2") "total" = Some (JNumber t2) ∧
       ((w = "persona1" ∧ t2 ≤ t1) ∨ (w = "persona2" ∧ t1 ≤ t2))) ∧
  (∀ (result : value) (w : string) (t1 t2 : Z),
     OptGet result "winner" = Some (JString w) →
     OptGet (persona_score result "persona1") "total" = Some (JNumber t1) →
     OptGet (persona_score result "persona2") "total" = Some (JNumber t2) →
     (w = "persona1" ∧ t1 < t2) ∨ (w = "persona2" ∧ t2 < t1) →
     ∃ e : exn, validateJudgeResult less_than_coerced result = Throw e) ∧
  (∀ (result : value) (t1 t2 : Z),
     OptGet result "winner" = Some (JString "persona1") →
     validatePersonaScore (persona_score result "persona1") = Ok () →
     validatePersonaScore (persona_score result "persona2") = Ok () →
     OptGet (persona_score result "persona1") "total" = Some (JNumber t1) →
     OptGet (persona_score result "persona2") "total" = Some (JNumber t2) →
     t1 < t2 →
     validateJudgeResult less_than_coerced result
       = Throw (WinnerMismatch "persona1")) ∧
  (∀ (result : value) (t1 t2 : Z),
     OptGet result "winner" = Some (JString "persona2") →
     validatePersonaScore (persona_score result "persona1") = Ok () →
     validatePersonaScore (persona_score result "persona2") = Ok () →
     OptGet (persona_score result "persona1") "total" = Some (JNumber t1) →
     OptGet (persona_score result "persona2") "total" = Some (JNumber t2) →
     t2 < t1 →
     validateJudgeResult less_than_coerced result
       = Throw (WinnerMismatch "persona2")) ∧
  (∀ (result : value) (w : string) (t1 t2 : Z),
     OptGet result "winner" = Some (JString w) →
     validatePersonaScore (persona_score result "persona1") = Ok () →
     validatePersonaScore (persona_score result "persona2") = Ok () →
     OptGet (persona_score result "persona1") "total" = Some (JNumber t1) →
     OptGet (persona_score result "persona2") "total" = Some (JNumber t2) →
     (w = "persona1" ∧ t2 ≤ t1) ∨ (w = "persona2" ∧ t1 ≤ t2) →
     text_of_length 20 (OptGet result "reasoning") →
     nonempty_text (OptGet (OptGet result "highlights") "persona1_best") →
     nonempty_text (OptGet (OptGet result "highlights") "persona2_best") →
     nonempty_text (OptGet (OptGet result "improvement_suggestions") "persona1") →
     nonempty_text (OptGet (OptGet result "improvement_suggestions") "persona2") →
     validateJudgeResult less_than_coerced result = Ok ()).
Proof.
  split; [|split; [|split; [|split]]].
  - intros result H.
    destruct (validateJudgeResult_Ok_inv _ H)
      as (w & t1 & t2 & Hw & _ & _ & Ht1 & Ht2 & Hge & _).
    by exists w, t1, t2.
  - intros result w t1 t2 Hw Ht1 Ht2 Hlower.
    destruct (validateJudgeResult less_than_coerced result) as [[]|e] eqn:H;
      [exfalso|by exists e].
    destruct (validateJudgeResult_Ok_inv _ H)
      as (w' & t1' & t2' & Hw' & _ & _ & Ht1' & Ht2' & Hge & _).
    rewrite Hw in Hw'. rewrite Ht1 in Ht1'. rewrite Ht2 in Ht2'.
    injection Hw' as <-. injection Ht1' as <-. injection Ht2' as <-.
    destruct Hlower as [[-> ?]|[-> ?]], Hge as [[? ?]|[? ?]];
      discriminate || lia.
  - intros result t1 t2 Hw Hv1 Hv2 Ht1 Ht2 Hlt.
    destruct (judge_result_shape _ _ Hw Hv1 Hv2)
      as (m & sc & m1 & m2 & -> & Hmw & Hsc & H1 & H2).
    unfold persona_score in *. simpl in Hv1, Hv2, Ht1, Ht2.
    rewrite Hsc in Hv1, Hv2, Ht1, Ht2. simpl in Hv1, Hv2, Ht1, Ht2.
    rewrite H1 in Hv1, Ht1. rewrite H2 in Hv2, Ht2. simpl in Ht1, Ht2.
    rewrite (validateJudgeResult_scores_valid m "persona1" sc m1 m2 t1 t2)
      by auto.
    simpl. by decide_comparisons.
  - intros result t1 t2 Hw Hv1 Hv2 Ht1 Ht2 Hlt.
    destruct (judge_result_shape _ _ Hw Hv1 Hv2)
      as (m & sc & m1 & m2 & -> & Hmw & Hsc & H1 & H2).
    unfold persona_score in *. simpl in Hv1, Hv2, Ht1, Ht2.
    rewrite Hsc in Hv1, Hv2, Ht1, Ht2. simpl in Hv1, Hv2, Ht1, Ht2.
    rewrite H1 in Hv1, Ht1. rewrite H2 in Hv2, Ht2. simpl in Ht1, Ht2.
    rewrite (validateJudgeResult_scores_valid m "persona2" sc m1 m2 t1 t2)
      by auto.
    simpl. by decide_comparisons.
  - intros result w t1 t2 Hw Hv1 Hv2 Ht1 Ht2 Hge
      (r & Hr & Hlen) (h1 & Hh1 & Hne1) (h2 & Hh2 & Hne2)
      (s1 & Hs1 & Hne3) (s2 & Hs2 & Hne4).
    destruct (judge_result_shape _ _ Hw Hv1 Hv2)
      as (m & sc & m1 & m2 & -> & Hmw & Hsc & H1 & H2).
    unfold persona_score in *. simpl in Hv1, Hv2, Ht1, Ht2, Hr, Hh1, Hh2, Hs1, Hs2.
    rewrite Hsc in Hv1, Hv2, Ht1, Ht2. simpl in Hv1, Hv2, Ht1, Ht2.
    rewrite H1 in Hv1, Ht1. rewrite H2 in Hv2, Ht2. simpl in Ht1, Ht2.
    rewrite (validateJudgeResult_scores_valid m w sc m1 m2 t1 t2)
      by (try done; destruct Hge as [[-> _]|[-> _]]; auto).
    rewrite Hr, Hh1, Hh2, Hs1, Hs2.
    replace (String.eqb w "persona1" && (t1 <? t2)) with false
      by (destruct Hge as [[-> ?]|[-> ?]]; simpl; [by decide_comparisons|done]).
    replace (String.eqb w "persona2" && (t2 <? t1)) with false
      by (destruct Hge as [[-> ?]|[-> ?]]; simpl; [done|by decide_comparisons]).
    assert (∀ s, s ≠ "" → truthy (Some (JString s)) = true) as Htruthy
      by (by intros [|]).
    rewrite !Htruthy by (try done; intros ->; simpl in Hlen; lia).
    simpl. by decide_comparisons.
Qed.

(** C8.  A judge result is refused whenever its reasoning is missing or
    shorter than 20 characters, or one of [highlights.persona1_best],
    [highlights.persona2_best], [improvement_suggestions.persona1],
    [improvement_suggestions.persona2] is missing or empty; the pipeline
    then raises the judge parse error.  (A result without
    [highlights.persona2_best] is an instance.) *)
Theorem required_fields_enforced :
  ∀ result : value,
    missing_or_shorter 20 (OptGet result "reasoning") ∨
    missing_or_empty (OptGet (OptGet result "highlights") "persona1_best") ∨
    missing_or_empty (OptGet (OptGet result "highlights") "persona2_best") ∨
    missing_or_empty (OptGet (OptGet result "improvement_suggestions") "persona1") ∨
    missing_or_empty (OptGet (OptGet result "improvement_suggestions") "persona2") →
    (∃ e : exn, validateJudgeResult less_than_coerced result = Throw e) ∧
    ∀ (JSON_parse : string → JS.result JSON) (response_text : string)
      (parsed : JSON),
      JSON_parse (clean response_text) = Ok parsed →
      result = Some parsed →
      ∃ cause : exn,
        judgeBattle less_than_coerced JSON_parse response_text
          = Throw (JudgeParseError cause).
Proof.
  intros result Hmissing.
  assert (∃ e, validateJudgeResult less_than_coerced result = Throw e) as [e He].
  { destruct (validateJudgeResult less_than_coerced result) as [[]|e] eqn:H;
      [exfalso|by exists e].
    destruct (validateJudgeResult_Ok_inv _ H)
      as (w & t1 & t2 & _ & _ & _ & _ & _ & _
          & Hr & Hlen & Hh1 & Hh2 & Hs1 & Hs2).
    destruct Hmissing as [Hm|[Hm|[Hm|[Hm|Hm]]]].
    - destruct Hm as [Hm|[Hm|(s & Hm & Hshort)]]; rewrite Hm in Hr, Hlen;
        try discriminate.
      simpl in Hlen. apply Z.ltb_ge in Hlen. lia.
    - destruct Hm as [Hm|[Hm|Hm]]; rewrite Hm in Hh1; discriminate.
    - destruct Hm as [Hm|[Hm|Hm]]; rewrite Hm in Hh2; discriminate.
    - destruct Hm as [Hm|[Hm|Hm]]; rewrite Hm in Hs1; discriminate.
    - destruct Hm as [Hm|[Hm|Hm]]; rewrite Hm in Hs2; discriminate. }
  split; [by exists e|].
  intros JSON_parse response_text parsed Hparse ->.
  exists e. unfold judgeBattle. rewrite Hparse. simpl. by rewrite He.
Qed.

End BattleJudgePipeline.

(** C5 on two results: the close one (70 against 68, the loser more
    persuasive) is accepted; the one declaring the lower total is refused
    with the winner-mismatch error. *)
Lemma winner_total_not_lower_witness :
  validateJudgeResult (λ _ _, false) (Some (close_result both_highlights))
    = Ok () ∧
  validateJudgeResult (λ _ _, false) (Some mismatch_result)
    = Throw (Error "Winner mismatch: persona2 declared but has lower score") ∧
  ∃ (w : string) (t1 t2 : Z),
    OptGet (Some (close_result both_highlights)) "winner" = Some (JString w) ∧
    OptGet (persona_score (Some (close_result both_highlights)) "persona1")
      "total" = Some (JNumber t1) ∧
    OptGet (persona_score (Some (close_result both_highlights)) "persona2")
      "total" = Some (JNumber t2) ∧
    ((w = "persona1" ∧ t2 ≤ t1) ∨ (w = "persona2" ∧ t1 ≤ t2)).
Proof.
  destruct (winner_total_not_lower (λ _ _, false))
    as (Honly & _ & _ & Hmismatch & Haccept).
  assert (validateJudgeResult (λ _ _, false)
            (Some (close_result both_highlights)) = Ok ()) as Hok.
  { apply (Haccept _ "persona1" 70 68); try reflexivity.
    - left. split; [reflexivity|lia].
    - eexists. split; [reflexivity|]. simpl. lia.
    - eexists. split; [reflexivity|discriminate].
    - eexists. split; [reflexivity|discriminate].
    - eexists. split; [reflexivity|discriminate].
    - eexists. split; [reflexivity|discriminate]. }
  split; [exact Hok|]. split.
  - apply (Hmismatch _ 70 68); reflexivity.
  - apply Honly. exact Hok.
Defined.

(** C8 on the close result without [highlights.persona2_best]. *)
Lemma required_fields_enforced_witness :
  (∃ e : exn,
     validateJudgeResult (λ _ _, false) (Some (close_result first_highlight_only))
       = Throw e) ∧
  ∀ (JSON_parse : string → JS.result JSON) (response_text : string)
    (parsed : JSON),
    JSON_parse (clean response_text) = Ok parsed →
    Some (close_result first_highlight_only) = Some parsed →
    ∃ cause : exn,
      judgeBattle (λ _ _, false) JSON_parse response_text
        = Throw (JudgeParseError cause).
Proof.
  apply required_fields_enforced.
  right. right. left. left. reflexivity.
Defined.

(** ** Further properties of the services *)

(** *** Lenient validation: order of the checks, result, idempotence *)

Section LenientValidationMore.

Lemma Destructure_non_null j k :
  j ≠ JNull → Destructure (Some j) k = Ok (property j k).
Proof. by destruct j. Qed.

(** What [validateScore] hands back: an object whose five members are
    numbers in range, the total within 1 of the sum. *)
Lemma validateScore_Ok_result score score' :
  validateScore score = Ok score' →
  ∃ members' a b c d t',
    score' = Some (JObject members') ∧
    prompt_numbers members' a b c d t' ∧
    0 ≤ a ≤ 25 ∧ 0 ≤ b ≤ 25 ∧ 0 ≤ c ≤ 25 ∧ 0 ≤ d ≤ 25 ∧ 0 ≤ t' ≤ 100 ∧
    Z.abs (a + b + c + d - t') ≤ 1.
Proof.
  intros H.
  destruct (validateScore_Ok_inv _ _ H)
    as (members & a & b & c & d & t & -> & Hnum & Ha & Hb & Hc & Hd & Ht).
  rewrite (validateScore_numbers _ _ _ _ _ _ Hnum) in H.
  destruct Hnum as (Hna & Hnb & Hnc & Hnd & Hnt).
  revert H. decide_comparisons; intros [= <-].
  - exists (<["total" := JNumber (a + b + c + d)]> members), a, b, c, d,
      (a + b + c + d).
    unfold prompt_numbers. rewrite !lookup_insert_ne by done.
    rewrite lookup_insert_eq. repeat split; try done; lia.
  - exists members, a, b, c, d, t. repeat split; try done; lia.
Qed.

(** X1.  [validateScore] checks in a fixed order.  A [null] or
    [undefined] score raises a [TypeError]; otherwise, if any of the five
    members is not a number (missing included) the error is the format
    error, whatever the other members hold; and when all five are numbers
    and a sub-score is outside [0,25], the error is the sub-score range
    error, whatever the total is. *)
Theorem validateScore_rejection_order :
  (∀ score : value,
     score = None ∨ score = Some JNull →
     ∃ msg : string, validateScore score = Throw (TypeError msg)) ∧
  (∀ (j : JSON) (k : string),
     j ≠ JNull →
     k ∈ ["specificity"; "creativity"; "coherence"; "complexity"; "total"] →
     typeof_number (property j k) = None →
     validateScore (Some j) = Throw (Error "Invalid score format")) ∧
  (∀ (members : gmap string JSON) (a b c d t : Z),
     prompt_numbers members a b c d t →
     ¬ (0 ≤ a ≤ 25 ∧ 0 ≤ b ≤ 25 ∧ 0 ≤ c ≤ 25 ∧ 0 ≤ d ≤ 25) →
     validateScore (Some (JObject members))
       = Throw (Error "Scores must be between 0 and 25")).
Proof.
  split; [|split].
  - intros score [-> | ->]; by eexists.
  - intros j k Hj Hk Hty. unfold validateScore.
    rewrite !Destructure_non_null by done. simpl.
    destruct (typeof_number (property j "specificity")) eqn:H1; [|done].
    destruct (typeof_number (property j "creativity")) eqn:H2; [|done].
    destruct (typeof_number (property j "coherence")) eqn:H3; [|done].
    destruct (typeof_number (property j "complexity")) eqn:H4; [|done].
    destruct (typeof_number (property j "total")) eqn:H5; [|done].
    exfalso.
    repeat (apply elem_of_cons in Hk as [-> | Hk]; [congruence|]).
    by apply elem_of_nil in Hk.
  - intros members a b c d t Hnum Hrange.
    rewrite (validateScore_numbers _ _ _ _ _ _ Hnum).
    destruct (_ || _) eqn:Hsub; [done|].
    exfalso. apply Hrange. comparisons_of_hyps. lia.
Qed.

(** X1 on a score without [coherence] and on one whose specificity is 30
    and whose total is 500. *)
Lemma validateScore_rejection_order_witness :
  (∃ msg : string, validateScore None = Throw (TypeError msg)) ∧
  validateScore
    (Some (JObject {[ "specificity" := JNumber 90; "creativity" := JNumber 18;
                      "complexity" := JNumber 15; "total" := JNumber 74 ]}))
    = Throw (Error "Invalid score format") ∧
  validateScore
    (Some (JObject {[ "specificity" := JNumber 30; "creativity" := JNumber 18;
                      "coherence" := JNumber 22; "complexity" := JNumber 15;
                      "total" := JNumber 500 ]}))
    = Throw (Error "Scores must be between 0 and 25").
Proof.
  destruct validateScore_rejection_order as (Hnull & Hformat & Hrange).
  split; [|split].
  - apply Hnull. by left.
  - apply (Hformat _ "coherence"); [done| |reflexivity].
    apply list_elem_of_In. simpl. tauto.
  - apply (Hrange _ 30 18 22 15 500); [by repeat split|lia].
Defined.

(** X2.  A score that passed lenient validation satisfies the rubric:
    what [validateScore] returns is an object whose four sub-scores are
    numbers in [0,25], whose total is a number in [0,100], and whose total
    is within 1 of the sum of the sub-scores. *)
Theorem validateScore_establishes_rubric :
  ∀ score score' : value,
    validateScore score = Ok score' →
    ∃ (members' : gmap string JSON) (a b c d t' : Z),
      score' = Some (JObject members') ∧
      prompt_numbers members' a b c d t' ∧
      0 ≤ a ≤ 25 ∧ 0 ≤ b ≤ 25 ∧ 0 ≤ c ≤ 25 ∧ 0 ≤ d ≤ 25 ∧ 0 ≤ t' ≤ 100 ∧
      Z.abs (a + b + c + d - t') ≤ 1.
Proof. exact validateScore_Ok_result. Qed.

(** X3.  Lenient validation is idempotent: validating again what
    [validateScore] returned succeeds and changes nothing. *)
Theorem validateScore_idempotent :
  ∀ score score' : value,
    validateScore score = Ok score' → validateScore score' = Ok score'.
Proof.
  intros score score' H.
  destruct (validateScore_Ok_result _ _ H)
    as (members' & a & b & c & d & t' & -> & Hnum & Ha & Hb & Hc & Hd & Ht & Hdev).
  rewrite (validateScore_numbers _ _ _ _ _ _ Hnum).
  by decide_comparisons.
Qed.

End LenientValidationMore.

(** X2 on a score that declares 60 for sub-scores summing to 75. *)
Lemma validateScore_establishes_rubric_witness :
  ∃ (members' : gmap string JSON) (a b c d t' : Z),
    Some (JObject (<["total" := JNumber 75]>
       {[ "specificity" := JNumber 20; "creativity" := JNumber 18;
          "coherence" := JNumber 22; "complexity" := JNumber 15;
          "total" := JNumber 60 ]}))
      = Some (JObject members') ∧
    prompt_numbers members' a b c d t' ∧
    0 ≤ a ≤ 25 ∧ 0 ≤ b ≤ 25 ∧ 0 ≤ c ≤ 25 ∧ 0 ≤ d ≤ 25 ∧ 0 ≤ t' ≤ 100 ∧
    Z.abs (a + b + c + d - t') ≤ 1.
Proof.
  apply (validateScore_establishes_rubric
    (Some (JObject {[ "specificity" := JNumber 20; "creativity" := JNumber 18;
                      "coherence" := JNumber 22; "complexity" := JNumber 15;
                      "total" := JNumber 60 ]}))).
  reflexivity.
Defined.

(** X3 on the same score. *)
Lemma validateScore_idempotent_witness :
  validateScore
    (Some (JObject (<["total" := JNumber 75]>
       {[ "specificity" := JNumber 20; "creativity" := JNumber 18;
          "coherence" := JNumber 22; "complexity" := JNumber 15;
          "total" := JNumber 60 ]})))
  = Ok (Some (JObject (<["total" := JNumber 75]>
       {[ "specificity" := JNumber 20; "creativity" := JNumber 18;
          "coherence" := JNumber 22; "complexity" := JNumber 15;
          "total" := JNumber 60 ]}))).
Proof.
  apply (validateScore_idempotent
    (Some (JObject {[ "specificity" := JNumber 20; "creativity" := JNumber 18;
                      "coherence" := JNumber 22; "complexity" := JNumber 15;
                      "total" := JNumber 60 ]}))).
  reflexivity.
Defined.

(** *** The evaluation pipeline as a whole *)

Section PromptEvaluationPipelineMore.
Variable JSON_parse : string → result JSON.

Lemma TIER_PROBABILITIES_band (total : Q) :
  ∃ row : TierProbability,
    TIER_PROBABILITIES !! getQualityLevel total = Some row ∧
    sum_weights row = 100.
Proof.
  destruct (getQualityLevel_cases total)
    as [[_ ->]|[(_ & _ & ->)|[(_ & _ & ->)|[_ ->]]]]; by eexists.
Qed.

(** From the generated text on, [evaluatePrompt] fails only with the
    wrapped parse error: the cause is either what [JSON.parse] threw on
    the cleaned text or what [validateScore] threw on the parsed value;
    nothing after validation can fail. *)
Lemma evaluatePrompt_text_failure :
  ∀ (response_text : string) (e : exn),
    evaluatePrompt JSON_parse response_text = Throw e →
    ∃ cause : exn,
      e = EvaluationParseError cause ∧
      (JSON_parse (clean response_text) = Throw cause ∨
       ∃ parsed : JSON,
         JSON_parse (clean response_text) = Ok parsed ∧
         validateScore (Some parsed) = Throw cause).
Proof.
  intros response_text e. unfold evaluatePrompt.
  destruct (JSON_parse (clean response_text)) as [parsed|cause] eqn:Hparse; simpl.
  - destruct (validateScore (Some parsed)) as [score'|cause] eqn:Hv; simpl.
    + destruct (validateScore_Ok_result _ _ Hv) as (m & ? & ? & ? & ? & ? & -> & _).
      discriminate.
    + intros [= <-]. exists cause. split; [done|]. right. by exists parsed.
  - intros [= <-]. exists cause. split; [done|]. by left.
Qed.

(** X5.  What a successful [evaluatePrompt] returns: the score is the
    validated parse of the cleaned text, its total is a number in
    [0,100], the quality level is the band of that total, and the tier
    probabilities are the table's row for that band, which sums to 100. *)
Theorem evaluatePrompt_success :
  ∀ (response_text : string) (response : PromptEvaluationResponse),
    evaluatePrompt JSON_parse response_text = Ok response →
    ∃ (parsed : JSON) (total : Z) (row : TierProbability),
      JSON_parse (clean response_text) = Ok parsed ∧
      validateScore (Some parsed) = Ok (score response) ∧
      OptGet (score response) "total" = Some (JNumber total) ∧
      0 ≤ total ≤ 100 ∧
      qualityLevel response = getQualityLevel (inject_Z total) ∧
      tierProbabilities response = Some row ∧
      TIER_PROBABILITIES !! qualityLevel response = Some row ∧
      sum_weights row = 100.
Proof.
  intros response_text response. unfold evaluatePrompt.
  destruct (JSON_parse (clean response_text)) as [parsed|cause] eqn:Hparse;
    simpl; [|discriminate].
  destruct (validateScore (Some parsed)) as [score'|cause] eqn:Hv;
    simpl; [|discriminate].
  destruct (validateScore_Ok_result _ _ Hv)
    as (m & a & b & c & d & t & -> & (_ & _ & _ & _ & Ht) & _ & _ & _ & _ & Hr & _).
  simpl. rewrite Ht. simpl. intros [= <-]. simpl.
  destruct (TIER_PROBABILITIES_band (inject_Z t)) as (row & Hrow & Hsum).
  exists parsed, t, row. rewrite Ht. repeat split; try done; lia.
Qed.

End PromptEvaluationPipelineMore.

(** X5 with the reference parser, on the end-to-end example. *)
Lemma evaluatePrompt_success_witness :
  ∃ (parsed : JSON) (total : Z) (row : TierProbability),
    ReferenceJSON.parse (clean example_text) = Ok parsed ∧
    validateScore (Some parsed) = Ok (Some example_score) ∧
    OptGet (Some example_score) "total" = Some (JNumber total) ∧
    0 ≤ total ≤ 100 ∧
    "high" = getQualityLevel (inject_Z total) ∧
    Some [("common", 25); ("rare", 40); ("epic", 28); ("legendary", 7)]
      = Some row ∧
    TIER_PROBABILITIES !! "high" = Some row ∧
    sum_weights row = 100.
Proof.
  apply (evaluatePrompt_success ReferenceJSON.parse example_text
    {| score := Some example_score;
       tierProbabilities :=
         Some [("common", 25); ("rare", 40); ("epic", 28); ("legendary", 7)];
       qualityLevel := "high" |}).
  vm_compute. reflexivity.
Defined.

Import Notions.

(** *** Rolling: range of the result, bands, frequencies *)

Section TierRollerMore.

Lemma cumulative_at_least entries : ∀ i tier p,
  Forall (λ entry, 0 ≤ entry.2) entries →
  entries !! i = Some (tier, p) →
  p ≤ cumulative entries i.
Proof.
  induction entries as [|[t0 p0] rest IH]; intros i tier p Hpos Hi; [done|].
  apply Forall_cons in Hpos as [Hp0 Hpos]. simpl in Hp0.
  destruct i as [|i].
  - injection Hi as -> ->. rewrite cumulative_head. lia.
  - rewrite cumulative_tail. specialize (IH i tier p Hpos Hi). lia.
Qed.

(** With weights that are not negative, the cumulative weights grow. *)
Lemma cumulative_before entries : ∀ i j tier p,
  Forall (λ entry, 0 ≤ entry.2) entries →
  entries !! i = Some (tier, p) →
  (j < i)%nat →
  cumulative entries j ≤ cumulative entries i - p.
Proof.
  induction entries as [|[t0 p0] rest IH]; intros i j tier p Hpos Hi Hj; [done|].
  pose proof Hpos as Hall.
  apply Forall_cons in Hpos as [Hp0 Hpos]. simpl in Hp0.
  destruct i as [|i]; [lia|]. rewrite cumulative_tail.
  destruct j as [|j].
  - rewrite cumulative_head.
    pose proof (cumulative_at_least rest i tier p Hpos Hi). lia.
  - rewrite cumulative_tail.
    assert (cumulative rest j ≤ cumulative rest i - p)
      by (apply (IH i j tier p); [done|done|lia]).
    lia.
Qed.

Lemma cumulative_last entries :
  entries ≠ [] →
  cumulative entries (length entries - 1) = sum_weights entries.
Proof.
  intros Hne. unfold cumulative, sum_weights.
  destruct entries as [|e rest]; [done|].
  simpl length. rewrite Nat.sub_succ, Nat.sub_0_r.
  by rewrite firstn_all2 by (simpl; lia).
Qed.

Lemma rollTier_loop_range roll entries : ∀ c,
  rollTier_loop roll c entries ∈ "common" :: entries.*1.
Proof.
  induction entries as [|[t p] rest IH]; intros c; simpl.
  - apply list_elem_of_here.
  - destruct (Qlt_bool roll (inject_Z (c + p))).
    + apply list_elem_of_further, list_elem_of_here.
    + specialize (IH (c + p)).
      apply elem_of_cons in IH as [-> | IH].
      * apply list_elem_of_here.
      * by do 2 apply list_elem_of_further.
Qed.

(** X6.  [rollTier] returns "common" or a tier named by the
    distribution, never anything else; and when the draw is at least 0 and
    below the total weight, the fallback is not taken: the result is the
    first tier whose cumulative weight exceeds the draw, a tier the
    distribution names. *)
Theorem rollTier_range :
  (∀ (roll : Q) (probabilities : TierProbability),
     rollTier roll probabilities
       ∈ "common" :: (Object_entries probabilities).*1) ∧
  (∀ (roll : Q) (probabilities : TierProbability),
     (0 <= roll < inject_Z (sum_weights probabilities))%Q →
     first_exceeding roll (Object_entries probabilities)
       (rollTier roll probabilities) ∧
     rollTier roll probabilities ∈ (Object_entries probabilities).*1).
Proof.
  split.
  - intros roll probabilities. apply rollTier_loop_range.
  - intros roll probabilities [Hlo Hhi]. unfold Object_entries in *.
    assert (probabilities ≠ []) as Hne.
    { intros ->. apply (Qlt_not_le _ _ Hhi Hlo). }
    destruct (first_or_none roll probabilities 0)
      as [(i & tier & p & Hi & Hlt & Hmin)|Hnone].
    + assert (first_exceeding roll probabilities tier) as Hfirst.
      { exists i, p. split; [done|]. split; [done|].
        intros j Hj. by apply Hmin. }
      rewrite (rollTier_loop_first roll probabilities 0 i tier p Hi Hlt Hmin
               : rollTier roll probabilities = tier).
      split; [done|].
      apply list_elem_of_fmap. exists (tier, p). split; [done|].
      by apply list_elem_of_lookup_2 in Hi.
    + exfalso. apply (Hnone (length probabilities - 1)%nat).
      * destruct probabilities; [done|simpl; lia].
      * rewrite Z.add_0_l, cumulative_last by done. exact Hhi.
Qed.

(** X6 on the medium row at a draw of 99.5. *)
Lemma rollTier_range_witness :
  first_exceeding (199 # 2)
    [("common", 50); ("rare", 35); ("epic", 12); ("legendary", 3)]
    (rollTier (199 # 2)
       [("common", 50); ("rare", 35); ("epic", 12); ("legendary", 3)]) ∧
  rollTier (199 # 2)
    [("common", 50); ("rare", 35); ("epic", 12); ("legendary", 3)]
    ∈ [("common", 50); ("rare", 35); ("epic", 12); ("legendary", 3)].*1.
Proof.
  destruct rollTier_range as [_ Hin].
  apply (Hin (199 # 2)%Q
    [("common", 50); ("rare", 35); ("epic", 12); ("legendary", 3)]).
  split; [discriminate|reflexivity].
Defined.

(** X7.  With weights that are not negative, each tier owns the band of
    draws from the cumulative weight before it up to its own cumulative
    weight: a draw in that band returns that tier.  (The band is as wide
    as the tier's weight, so a uniform draw picks the tier with that
    weight.) *)
Theorem rollTier_band :
  ∀ (roll : Q) (probabilities : TierProbability) (i : nat) (tier : string)
    (p : Z),
    Forall (λ entry, 0 ≤ entry.2) (Object_entries probabilities) →
    Object_entries probabilities !! i = Some (tier, p) →
    (inject_Z (cumulative (Object_entries probabilities) i - p) <= roll
     < inject_Z (cumulative (Object_entries probabilities) i))%Q →
    rollTier roll probabilities = tier.
Proof.
  intros roll probabilities i tier p Hpos Hi [Hlo Hhi].
  unfold Object_entries in *.
  apply (rollTier_loop_first roll probabilities 0 i tier p); [done|done|].
  intros j Hj Hlt. rewrite Z.add_0_l in Hlt.
  pose proof (cumulative_before probabilities i j tier p Hpos Hi Hj) as Hle.
  apply (Qlt_not_le _ _ Hlt).
  apply Qle_trans with (inject_Z (cumulative probabilities i - p)); [|done].
  by rewrite <- Zle_Qle.
Qed.

(** X7 on the low row: epic owns the draws from 95 up to 99. *)
Lemma rollTier_band_witness :
  rollTier (197 # 2)
    [("common", 80); ("rare", 15); ("epic", 4); ("legendary", 1)] = "epic".
Proof.
  apply (rollTier_band (197 # 2)%Q
    [("common", 80); ("rare", 15); ("epic", 4); ("legendary", 1)] 2 "epic" 4).
  - repeat constructor; simpl; lia.
  - reflexivity.
  - split; [discriminate|reflexivity].
Defined.

(** X8.  On every row of the table, the hundred integer draws 0..99 give
    each tier exactly as many times as its weight: the weights are the
    percentages. *)
Theorem rollTier_frequencies :
  ∀ (band : string) (row : TierProbability) (tier : string) (p : Z),
    TIER_PROBABILITIES !! band = Some row →
    (tier, p) ∈ row →
    draws_giving row tier = p.
Proof.
  intros band row tier p Hrow Hin.
  destruct (TIER_PROBABILITIES_lookup band row Hrow)
    as [[_ ->]|[[_ ->]|[[_ ->]|[_ ->]]]];
    repeat (apply elem_of_cons in Hin as [[= -> ->] | Hin];
            [vm_compute; reflexivity|]);
    by apply elem_of_nil in Hin.
Qed.

(** X8 on the legendary tier of the exceptional row. *)
Lemma rollTier_frequencies_witness :
  draws_giving [("common", 5); ("rare", 30); ("epic", 45); ("legendary", 20)]
    "legendary" = 20.
Proof.
  apply (rollTier_frequencies "exceptional"); [reflexivity|].
  apply list_elem_of_In. simpl. tauto.
Defined.

(** X9.  A higher total never lowers the quality band, never lowers the
    weight of legendary and never raises the weight of common. *)
Theorem quality_monotone :
  ∀ (total1 total2 : Q) (row1 row2 : TierProbability),
    (total1 <= total2)%Q →
    TIER_PROBABILITIES !! getQualityLevel total1 = Some row1 →
    TIER_PROBABILITIES !! getQualityLevel total2 = Some row2 →
    (quality_rank (getQualityLevel total1)
       ≤ quality_rank (getQualityLevel total2))%nat ∧
    tier_weight row1 "legendary" ≤ tier_weight row2 "legendary" ∧
    tier_weight row2 "common" ≤ tier_weight row1 "common".
Proof.
  intros total1 total2 row1 row2 Hle.
  destruct (getQualityLevel_cases total1)
    as [[H1 ->]|[(H1 & _ & ->)|[(H1 & _ & ->)|[_ ->]]]];
    destruct (getQualityLevel_cases total2)
      as [[_ ->]|[(_ & H2 & ->)|[(_ & H2 & ->)|[H2 ->]]]];
    try (exfalso;
         pose proof (Qle_lt_trans _ _ _ (Qle_trans _ _ _ H1 Hle) H2);
         discriminate);
    intros [= <-] [= <-]; vm_compute; repeat split; discriminate || lia.
Qed.

(** X9 on the totals 40 and 86. *)
Lemma quality_monotone_witness :
  (quality_rank (getQualityLevel 40) ≤ quality_rank (getQualityLevel 86))%nat ∧
  tier_weight [("common", 80); ("rare", 15); ("epic", 4); ("legendary", 1)]
    "legendary"
    ≤ tier_weight [("common", 5); ("rare", 30); ("epic", 45); ("legendary", 20)]
        "legendary" ∧
  tier_weight [("common", 5); ("rare", 30); ("epic", 45); ("legendary", 20)]
    "common"
    ≤ tier_weight [("common", 80); ("rare", 15); ("epic", 4); ("legendary", 1)]
        "common".
Proof.
  apply (quality_monotone 40 86); [discriminate|reflexivity|reflexivity].
Defined.

End TierRollerMore.

(** *** Strict validation: what is accepted, which error comes first *)

Section StrictValidationMore.

(** X10.  [validatePersonaScore] accepts exactly the objects whose four
    sub-scores are numbers in their ranges (0-30, 0-25, 0-25, 0-20), whose
    total is a number in [0,100] and whose total is within 1 of the sum of
    the sub-scores; a deviation of exactly 1 is accepted. *)
Theorem validatePersonaScore_accepts_exactly :
  ∀ score : value,
    validatePersonaScore score = Ok () ↔
    ∃ (members : gmap string JSON) (l c p r t : Z),
      score = Some (JObject members) ∧
      persona_numbers members l c p r t ∧
      0 ≤ l ≤ 30 ∧ 0 ≤ c ≤ 25 ∧ 0 ≤ p ≤ 25 ∧ 0 ≤ r ≤ 20 ∧ 0 ≤ t ≤ 100 ∧
      Z.abs (l + c + p + r - t) ≤ 1.
Proof.
  intros score. split; [apply validatePersonaScore_Ok_inv|].
  intros (members & l & c & p & r & t & -> & Hnum & Hl & Hc & Hp & Hr & Ht & Hdev).
  rewrite (validatePersonaScore_numbers _ _ _ _ _ _ Hnum).
  by decide_comparisons.
Qed.

(** X11.  [validatePersonaScore] reports the first offence in a fixed
    order: a member that is not a number gives the type error whatever the
    values are; then the first sub-score out of range, in the order
    logical_coherence, creativity, persuasiveness, topic_relevance, gives
    the error that names it; then the total's range; and the mismatch of
    the total only when every range holds. *)
Theorem validatePersonaScore_first_offence :
  (∀ (j : JSON) (k : string),
     j ≠ JNull →
     k ∈ ["logical_coherence"; "creativity"; "persuasiveness";
          "topic_relevance"; "total"] →
     typeof_number (property j k) = None →
     validatePersonaScore (Some j) = Throw (Error "Invalid score types")) ∧
  (∀ (members : gmap string JSON) (l c p r t : Z),
     persona_numbers members l c p r t →
     validatePersonaScore (Some (JObject members)) =
       if bool_decide (¬ 0 ≤ l ≤ 30)
       then Throw (Error "logical_coherence must be 0-30")
       else if bool_decide (¬ 0 ≤ c ≤ 25)
       then Throw (Error "creativity must be 0-25")
       else if bool_decide (¬ 0 ≤ p ≤ 25)
       then Throw (Error "persuasiveness must be 0-25")
       else if bool_decide (¬ 0 ≤ r ≤ 20)
       then Throw (Error "topic_relevance must be 0-20")
       else if bool_decide (¬ 0 ≤ t ≤ 100)
       then Throw (Error "total must be 0-100")
       else if bool_decide (1 < Z.abs (l + c + p + r - t))
       then Throw TotalMismatch
       else Ok ()).
Proof.
  split.
  - intros j k Hj Hk Hty. unfold validatePersonaScore.
    rewrite !Destructure_non_null by done. simpl.
    destruct (typeof_number (property j "logical_coherence")) eqn:H1; [|done].
    destruct (typeof_number (property j "creativity")) eqn:H2; [|done].
    destruct (typeof_number (property j "persuasiveness")) eqn:H3; [|done].
    destruct (typeof_number (property j "topic_relevance")) eqn:H4; [|done].
    destruct (typeof_number (property j "total")) eqn:H5; [|done].
    exfalso.
    repeat (apply elem_of_cons in Hk as [-> | Hk]; [congruence|]).
    by apply elem_of_nil in Hk.
  - intros members l c p r t Hnum.
    rewrite (validatePersonaScore_numbers _ _ _ _ _ _ Hnum).
    repeat case_bool_decide; decide_comparisons; try done; lia.
Qed.

End StrictValidationMore.

(** X10 on a score whose total is 1 below the sum. *)
Lemma validatePersonaScore_accepts_exactly_witness :
  validatePersonaScore
    (Some (JObject {[ "logical_coherence" := JNumber 25;
                      "creativity" := JNumber 20;
                      "persuasiveness" := JNumber 10;
                      "topic_relevance" := JNumber 15;
                      "total" := JNumber 69 ]})) = Ok ().
Proof.
  apply validatePersonaScore_accepts_exactly.
  exists {[ "logical_coherence" := JNumber 25; "creativity" := JNumber 20;
            "persuasiveness" := JNumber 10; "topic_relevance" := JNumber 15;
            "total" := JNumber 69 ]}, 25, 20, 10, 15, 69.
  repeat split; reflexivity || lia.
Defined.

(** X11 on a score whose creativity and total are both out of range, and
    on one whose total is a string. *)
Lemma validatePersonaScore_first_offence_witness :
  validatePersonaScore
    (Some (JObject {[ "logical_coherence" := JNumber 25;
                      "creativity" := JNumber 26;
                      "persuasiveness" := JNumber 10;
                      "topic_relevance" := JNumber 15;
                      "total" := JNumber 101 ]}))
    = Throw (Error "creativity must be 0-25") ∧
  validatePersonaScore
    (Some (JObject {[ "logical_coherence" := JNumber 31;
                      "creativity" := JNumber 20;
                      "persuasiveness" := JNumber 10;
                      "topic_relevance" := JNumber 15;
                      "total" := JString "76" ]}))
    = Throw (Error "Invalid score types").
Proof.
  destruct validatePersonaScore_first_offence as [Htypes Hfirst].
  split.
  - rewrite (Hfirst _ 25 26 10 15 101) by (by repeat split). reflexivity.
  - apply (Htypes _ "total"); [done| |reflexivity].
    apply list_elem_of_In. simpl. tauto.
Defined.

(** *** Judge results: acceptance, order of the errors, ties *)

Section BattleJudgePipelineMore.
Variable less_than_coerced : JSON → Z → bool.

(** The checks that follow the validation of the two scores, read along
    the paths of the result. *)
Lemma validateJudgeResult_after_scores result w t1 t2 :
  OptGet result "winner" = Some (JString w) →
  w = "persona1" ∨ w = "persona2" →
  validatePersonaScore (persona_score result "persona1") = Ok () →
  validatePersonaScore (persona_score result "persona2") = Ok () →
  OptGet (persona_score result "persona1") "total" = Some (JNumber t1) →
  OptGet (persona_score result "persona2") "total" = Some (JNumber t2) →
  validateJudgeResult less_than_coerced result =
    if String.eqb w "persona1" && (t1 <? t2)
    then Throw (WinnerMismatch "persona1")
    else if String.eqb w "persona2" && (t2 <? t1)
    then Throw (WinnerMismatch "persona2")
    else if negb (truthy (OptGet result "reasoning"))
            || less_than less_than_coerced
                 (OptGet (OptGet result "reasoning") "length") 20
    then Throw (Error "Reasoning must be at least 20 characters")
    else if negb (truthy (OptGet (OptGet result "highlights") "persona1_best"))
            || negb (truthy (OptGet (OptGet result "highlights") "persona2_best"))
    then Throw (Error "Missing highlights")
    else if negb (truthy (OptGet (OptGet result "improvement_suggestions")
                            "persona1"))
            || negb (truthy (OptGet (OptGet result "improvement_suggestions")
                               "persona2"))
    then Throw (Error "Missing improvement suggestions")
    else Ok ().
Proof.
  intros Hw Hwin Hv1 Hv2 Ht1 Ht2.
  destruct (judge_result_shape _ _ Hw Hv1 Hv2)
    as (m & sc & m1 & m2 & -> & Hmw & Hsc & H1 & H2).
  unfold persona_score in *. simpl in Hv1, Hv2, Ht1, Ht2.
  rewrite Hsc in Hv1, Hv2, Ht1, Ht2. simpl in Hv1, Hv2, Ht1, Ht2.
  rewrite H1 in Hv1, Ht1. rewrite H2 in Hv2, Ht2. simpl in Ht1, Ht2.
  by rewrite (validateJudgeResult_scores_valid less_than_coerced
                m w sc m1 m2 t1 t2).
Qed.

Lemma validateJudgeResult_Ok_iff result :
  validateJudgeResult less_than_coerced result = Ok () ↔
  judge_result_ok less_than_coerced result.
Proof.
  split; [apply validateJudgeResult_Ok_inv|].
  intros (w & t1 & t2 & Hw & Hv1 & Hv2 & Ht1 & Ht2 & Hge
          & Hr & Hlen & Hh1 & Hh2 & Hs1 & Hs2).
  rewrite (validateJudgeResult_after_scores result w t1 t2)
    by (try done; destruct Hge as [[-> _]|[-> _]]; auto).
  rewrite Hr, Hlen, Hh1, Hh2, Hs1, Hs2. simpl.
  destruct Hge as [[-> ?]|[-> ?]]; simpl; by decide_comparisons.
Qed.

(** X12.  [validateJudgeResult] accepts a result exactly when the winner
    is one of the two participants, both scores pass strict validation,
    the winner's total is not below the other's, the reasoning is present
    and not shorter than 20, and the two highlights and the two
    suggestions are present and not empty. *)
Theorem validateJudgeResult_accepts_exactly :
  ∀ result : value,
    validateJudgeResult less_than_coerced result = Ok () ↔
    judge_result_ok less_than_coerced result.
Proof. exact validateJudgeResult_Ok_iff. Qed.

(** X13.  Before any score is looked at, [validateJudgeResult] refuses a
    result whose winner is not the string persona1 or persona2 (a missing
    winner included) with the invalid-winner error; a [null] or
    [undefined] result, and a result with a valid winner but no [scores],
    raise a [TypeError] instead of a validation error. *)
Theorem validateJudgeResult_winner_first :
  (∀ j : JSON,
     j ≠ JNull →
     property j "winner" ≠ Some (JString "persona1") →
     property j "winner" ≠ Some (JString "persona2") →
     validateJudgeResult less_than_coerced (Some j)
       = Throw (Error "Invalid winner value")) ∧
  (∀ result : value,
     result = None ∨ result = Some JNull →
     ∃ msg : string,
       validateJudgeResult less_than_coerced result = Throw (TypeError msg)) ∧
  (∀ (members : gmap string JSON) (w : string),
     members !! "winner" = Some (JString w) →
     w = "persona1" ∨ w = "persona2" →
     members !! "scores" = None ∨ members !! "scores" = Some JNull →
     ∃ msg : string,
       validateJudgeResult less_than_coerced (Some (JObject members))
         = Throw (TypeError msg)).
Proof.
  split; [|split].
  - intros j Hj H1 H2. unfold validateJudgeResult.
    assert (Get (Some j) "winner" = Ok (property j "winner")) as ->
      by (by destruct j).
    simpl.
    replace (includes_winner (property j "winner")) with false; [done|].
    symmetry. unfold includes_winner, strict_equals.
    destruct (property j "winner") as [[| | |s| |]|]; try done.
    apply orb_false_iff. split; apply String.eqb_neq; congruence.
  - intros result [-> | ->]; by eexists.
  - intros members w Hw Hwin Hsc. unfold validateJudgeResult. simpl.
    rewrite Hw.
    replace (includes_winner (Some (JString w))) with true
      by (by destruct Hwin as [-> | ->]).
    simpl. destruct Hsc as [-> | ->]; by eexists.
Qed.

(** X14.  A tie is not broken by the validator: when the two totals are
    equal, an accepted result stays accepted with either participant
    declared winner. *)
Theorem validateJudgeResult_tie_either_winner :
  ∀ (members : gmap string JSON) (t : Z) (w : string),
    validateJudgeResult less_than_coerced (Some (JObject members)) = Ok () →
    OptGet (persona_score (Some (JObject members)) "persona1") "total"
      = Some (JNumber t) →
    OptGet (persona_score (Some (JObject members)) "persona2") "total"
      = Some (JNumber t) →
    w = "persona1" ∨ w = "persona2" →
    validateJudgeResult less_than_coerced
      (Some (JObject (<["winner" := JString w]> members))) = Ok ().
Proof.
  intros members t w H Ht1 Ht2 Hw.
  apply validateJudgeResult_Ok_iff in H
    as (w0 & t1 & t2 & _ & Hv1 & Hv2 & Ht1' & Ht2' & _
        & Hr & Hlen & Hh1 & Hh2 & Hs1 & Hs2).
  apply validateJudgeResult_Ok_iff.
  exists w, t, t. unfold persona_score in *. simpl in *.
  rewrite lookup_insert_eq. rewrite !lookup_insert_ne by done.
  repeat split; try done.
  destruct Hw as [-> | ->]; [left|right]; split; done || lia.
Qed.

(** X15.  With a valid winner, valid scores and a winner total that is
    not lower, the required texts are checked in the order reasoning,
    highlights, suggestions, and the first one that fails names the
    error: a missing or short reasoning gives the reasoning error even if
    highlights are missing too, and a missing or empty highlight gives the
    highlights error even if suggestions are missing too. *)
Theorem validateJudgeResult_required_order :
  ∀ (result : value) (w : string) (t1 t2 : Z),
    OptGet result "winner" = Some (JString w) →
    validatePersonaScore (persona_score result "persona1") = Ok () →
    validatePersonaScore (persona_score result "persona2") = Ok () →
    OptGet (persona_score result "persona1") "total" = Some (JNumber t1) →
    OptGet (persona_score result "persona2") "total" = Some (JNumber t2) →
    (w = "persona1" ∧ t2 ≤ t1) ∨ (w = "persona2" ∧ t1 ≤ t2) →
    (missing_or_shorter 20 (OptGet result "reasoning") →
     validateJudgeResult less_than_coerced result
       = Throw (Error "Reasoning must be at least 20 characters")) ∧
    (text_of_length 20 (OptGet result "reasoning") →
     missing_or_empty (OptGet (OptGet result "highlights") "persona1_best") ∨
     missing_or_empty (OptGet (OptGet result "highlights") "persona2_best") →
     validateJudgeResult less_than_coerced result
       = Throw (Error "Missing highlights")) ∧
    (text_of_length 20 (OptGet result "reasoning") →
     nonempty_text (OptGet (OptGet result "highlights") "persona1_best") →
     nonempty_text (OptGet (OptGet result "highlights") "persona2_best") →
     missing_or_empty (OptGet (OptGet result "improvement_suggestions")
                         "persona1") ∨
     missing_or_empty (OptGet (OptGet result "improvement_suggestions")
                         "persona2") →
     validateJudgeResult less_than_coerced result
       = Throw (Error "Missing improvement suggestions")).
Proof.
  intros result w t1 t2 Hw Hv1 Hv2 Ht1 Ht2 Hge.
  rewrite (validateJudgeResult_after_scores result w t1 t2)
    by (try done; destruct Hge as [[-> _]|[-> _]]; auto).
  replace (String.eqb w "persona1" && (t1 <? t2)) with false
    by (destruct Hge as [[-> ?]|[-> ?]]; simpl; [by decide_comparisons|done]).
  replace (String.eqb w "persona2" && (t2 <? t1)) with false
    by (destruct Hge as [[-> ?]|[-> ?]]; simpl; [done|by decide_comparisons]).
  assert (∀ v, missing_or_empty v → truthy v = false) as Hfalsy
    by (by intros v [-> | [-> | ->]]).
  assert (∀ v, nonempty_text v → truthy v = true) as Htruthy
    by (by intros v ([|] & -> & ?)).
  assert (∀ v, text_of_length 20 v →
            negb (truthy v) || less_than less_than_coerced (OptGet v "length") 20
            = false) as Hlong.
  { intros v ([|c s] & -> & Hlen); simpl in *; [lia|]. by decide_comparisons. }
  split; [|split].
  - intros [-> | [-> | (s & -> & Hshort)]]; try done.
    destruct s; simpl; [done|]. simpl in Hshort. by decide_comparisons.
  - intros Hr Hh. rewrite (Hlong _ Hr).
    destruct Hh as [Hh | Hh]; rewrite (Hfalsy _ Hh); simpl; [done|].
    by rewrite orb_true_r.
  - intros Hr Hh1 Hh2 Hs.
    rewrite (Hlong _ Hr), (Htruthy _ Hh1), (Htruthy _ Hh2). simpl.
    destruct Hs as [Hs | Hs]; rewrite (Hfalsy _ Hs); simpl; [done|].
    by rewrite orb_true_r.
Qed.

(** From the generated text on, [judgeBattle] returns the parsed value,
    which [validateJudgeResult] accepts. *)
Lemma judgeBattle_text_success :
  ∀ (JSON_parse : string → JS.result JSON) (response_text : string)
    (v : value),
    judgeBattle less_than_coerced JSON_parse response_text = Ok v →
    ∃ parsed : JSON,
      v = Some parsed ∧
      JSON_parse (clean response_text) = Ok parsed ∧
      validateJudgeResult less_than_coerced (Some parsed) = Ok ().
Proof.
  intros JSON_parse response_text v. unfold judgeBattle.
  destruct (JSON_parse (clean response_text)) as [parsed|cause] eqn:Hparse;
    simpl; [|discriminate].
  destruct (validateJudgeResult less_than_coerced (Some parsed))
    as [[]|cause] eqn:Hv; simpl; [|discriminate].
  intros [= <-]. by exists parsed.
Qed.

(** From the generated text on, [judgeBattle] fails only with the
    wrapped parse error, whose cause is what [JSON.parse] or
    [validateJudgeResult] threw. *)
Lemma judgeBattle_text_failure :
  ∀ (JSON_parse : string → JS.result JSON) (response_text : string)
    (e : exn),
    judgeBattle less_than_coerced JSON_parse response_text = Throw e →
    ∃ cause : exn,
      e = JudgeParseError cause ∧
      (JSON_parse (clean response_text) = Throw cause ∨
       ∃ parsed : JSON,
         JSON_parse (clean response_text) = Ok parsed ∧
         validateJudgeResult less_than_coerced (Some parsed) = Throw cause).
Proof.
  intros JSON_parse response_text e. unfold judgeBattle.
  destruct (JSON_parse (clean response_text)) as [parsed|cause] eqn:Hparse;
    simpl.
  - destruct (validateJudgeResult less_than_coerced (Some parsed))
      as [[]|cause] eqn:Hv; simpl; [discriminate|].
    intros [= <-]. exists cause. split; [done|]. right. by exists parsed.
  - intros [= <-]. exists cause. split; [done|]. by left.
Qed.

End BattleJudgePipelineMore.

(** X12 on the close result, which is accepted. *)
Lemma validateJudgeResult_accepts_exactly_witness :
  judge_result_ok (λ _ _, false) (Some (close_result both_highlights)).
Proof.
  apply validateJudgeResult_accepts_exactly. vm_compute. reflexivity.
Defined.

(** X13 on a result that names a third participant and has no scores, on
    [null], and on a result with a winner and nothing else. *)
Lemma validateJudgeResult_winner_first_witness :
  validateJudgeResult (λ _ _, false)
    (Some (JObject {[ "winner" := JString "persona3" ]}))
    = Throw (Error "Invalid winner value") ∧
  (∃ msg : string,
     validateJudgeResult (λ _ _, false) (Some JNull) = Throw (TypeError msg)) ∧
  (∃ msg : string,
     validateJudgeResult (λ _ _, false)
       (Some (JObject {[ "winner" := JString "persona1" ]}))
       = Throw (TypeError msg)).
Proof.
  destruct (validateJudgeResult_winner_first (λ _ _, false))
    as (Hwinner & Hnull & Hscores).
  split; [|split].
  - apply Hwinner; discriminate.
  - apply Hnull. by right.
  - apply (Hscores _ "persona1"); [reflexivity|by left|by left].
Defined.

(** X14 on the tie, declared for persona2 instead of persona1. *)
Lemma validateJudgeResult_tie_either_winner_witness :
  validateJudgeResult (λ _ _, false)
    (Some (JObject (<["winner" := JString "persona2"]> tie_members))) = Ok ().
Proof.
  apply (validateJudgeResult_tie_either_winner (λ _ _, false) tie_members 70);
    [vm_compute; reflexivity|reflexivity|reflexivity|by right].
Defined.

(** X15 on the close result with a two-character reasoning and no
    highlights: the reasoning error comes first. *)
Lemma validateJudgeResult_required_order_witness :
  validateJudgeResult (λ _ _, false) (Some terse_result)
    = Throw (Error "Reasoning must be at least 20 characters").
Proof.
  apply (validateJudgeResult_required_order (λ _ _, false)
           (Some terse_result) "persona1" 70 68); try reflexivity.
  - left. split; [reflexivity|lia].
  - right. right. exists "ok". split; [reflexivity|simpl; lia].
Defined.

(** *** Cleaning the generated text *)

Section Cleaning.

Lemma append_cons c s t : String c s ++ t = String c (s ++ t).
Proof. reflexivity. Qed.

Lemma append_empty t : "" ++ t = t.
Proof. reflexivity. Qed.

Lemma trimStart_split s :
  ∃ pre : string, s = pre ++ trimStart s ∧ all_space pre = true.
Proof.
  induction s as [|c rest (pre & Hpre & Hspace)]; simpl.
  - by exists "".
  - destruct (is_white_space c) eqn:Hc.
    + exists (String c pre). rewrite append_cons. simpl.
      rewrite Hc, Hspace. split; [by f_equal|done].
    + by exists "".
Qed.

Lemma trimEnd_split s :
  ∃ post : string, s = trimEnd s ++ post ∧ all_space post = true.
Proof.
  induction s as [|c rest (post & Hpost & Hspace)]; simpl.
  - by exists "".
  - destruct (trimEnd rest) as [|c' rest'] eqn:Hrest.
    + rewrite append_empty in Hpost. subst post.
      destruct (is_white_space c) eqn:Hc.
      * exists (String c rest). rewrite append_empty. simpl.
        by rewrite Hc, Hspace.
      * exists rest. by rewrite Hspace.
    + exists post. rewrite append_cons. split; [by f_equal|done].
Qed.

Lemma trimStart_starts s : starts_with_space (trimStart s) = false.
Proof.
  induction s as [|c rest IH]; simpl; [done|].
  destruct (is_white_space c) eqn:Hc; [done|]. simpl. by rewrite Hc.
Qed.

Lemma trimEnd_ends s : ends_with_space (trimEnd s) = false.
Proof.
  induction s as [|c rest IH]; simpl; [done|].
  destruct (trimEnd rest) as [|c' rest'] eqn:Hrest.
  - destruct (is_white_space c) eqn:Hc; [done|]. simpl. by rewrite Hc.
  - done.
Qed.

Lemma trimEnd_starts s :
  starts_with_space s = false → starts_with_space (trimEnd s) = false.
Proof.
  destruct s as [|c rest]; simpl; [done|]. intros Hc.
  destruct (trimEnd rest); [by rewrite Hc|done].
Qed.

Lemma trimStart_id s : starts_with_space s = false → trimStart s = s.
Proof. destruct s as [|c rest]; simpl; [done|]. by intros ->. Qed.

Lemma trimEnd_id s : ends_with_space s = false → trimEnd s = s.
Proof.
  induction s as [|c rest IH]; simpl; [done|].
  destruct rest as [|c' rest'].
  - simpl. by intros ->.
  - intros H. by rewrite (IH H).
Qed.

Lemma trim_ends s :
  starts_with_space (trim s) = false ∧ ends_with_space (trim s) = false.
Proof.
  unfold trim. split; [|apply trimEnd_ends].
  apply trimEnd_starts, trimStart_starts.
Qed.

Lemma trim_id s :
  starts_with_space s = false → ends_with_space s = false → trim s = s.
Proof. intros Hs He. unfold trim. by rewrite (trimStart_id s Hs), trimEnd_id. Qed.

(** X17.  [generateBattleTopic] returns the generated text without its
    leading and trailing white space and with nothing else removed: the
    text is the result between two runs of white space, the result
    neither starts nor ends with white space, a text without white space
    at its ends comes back unchanged, and trimming twice is trimming
    once.  The cleaned text the two pipelines parse has no white space at
    its ends either. *)
Theorem generateBattleTopic_trims :
  ∀ response_text : string,
    (∃ pre post : string,
       response_text = pre ++ generateBattleTopic response_text ++ post ∧
       all_space pre = true ∧ all_space post = true) ∧
    starts_with_space (generateBattleTopic response_text) = false ∧
    ends_with_space (generateBattleTopic response_text) = false ∧
    (starts_with_space response_text = false →
     ends_with_space response_text = false →
     generateBattleTopic response_text = response_text) ∧
    generateBattleTopic (generateBattleTopic response_text)
      = generateBattleTopic response_text ∧
    starts_with_space (clean response_text) = false ∧
    ends_with_space (clean response_text) = false.
Proof.
  intros response_text. unfold generateBattleTopic, clean.
  destruct (trim_ends response_text) as [Hs He].
  destruct (trim_ends (replace_fences 0 response_text)) as [Hcs Hce].
  split; [|split; [|split; [|split; [|split; [|split]]]]]; try done.
  - destruct (trimStart_split response_text) as (pre & Hpre & Hspre).
    destruct (trimEnd_split (trimStart response_text)) as (post & Hpost & Hspost).
    exists pre, post. unfold trim. by rewrite <- Hpost.
  - apply trim_id.
  - by apply trim_id.
Qed.

(** X17 on a topic that needs no trimming. *)
Lemma generateBattleTopic_trims_witness :
  generateBattleTopic "Is remote work more productive than office work?"
    = "Is remote work more productive than office work?".
Proof.
  destruct (generateBattleTopic_trims
              "Is remote work more productive than office work?")
    as (_ & _ & _ & Hid & _).
  apply Hid; reflexivity.
Defined.

Lemma prefix_cons a s1 b s2 :
  String.prefix (String a s1) (String b s2)
    = if ascii_dec a b then String.prefix s1 s2 else false.
Proof. reflexivity. Qed.

Lemma prefix_backtick c rest pattern :
  Ascii.eqb c "`" = false →
  String.prefix (String "`" pattern) (String c rest) = false.
Proof.
  intros Hc. rewrite prefix_cons.
  destruct (ascii_dec "`" c) as [<-|]; [by rewrite Ascii.eqb_refl in Hc|done].
Qed.

(** The second alternative with its line break does not match at a
    character of backtick-free text that is followed by more such text
    and then a line break. *)
Lemma prefix_newline_fence c rest tail :
  contains_char "`" rest = false →
  String.prefix (String "010" "```") (String c (rest ++ newline ++ tail)) = false.
Proof.
  intros Hrest. rewrite prefix_cons. destruct (ascii_dec "010" c); [|done].
  destruct rest as [|c' rest']; [done|].
  simpl in Hrest. apply orb_false_iff in Hrest as [Hc' _].
  rewrite append_cons. by apply prefix_backtick.
Qed.

Lemma prefix_newline_fence_end c rest :
  contains_char "`" rest = false →
  String.prefix (String "010" "```") (String c rest) = false.
Proof.
  intros Hrest. rewrite prefix_cons. destruct (ascii_dec "010" c); [|done].
  destruct rest as [|c' rest']; [done|].
  simpl in Hrest. apply orb_false_iff in Hrest as [Hc' _].
  by apply prefix_backtick.
Qed.

Lemma fence_json_newline :
  "```json" ++ String "010" "" = String "`" ("``json" ++ String "010" "").
Proof. reflexivity. Qed.

(** Text without a backtick loses nothing. *)
Lemma replace_fences_plain body :
  contains_char "`" body = false → replace_fences 0 body = body.
Proof.
  induction body as [|c rest IH]; [done|].
  simpl contains_char. intros H. apply orb_false_iff in H as [Hc Hrest].
  cbn [replace_fences]. rewrite fence_json_newline.
  rewrite !(prefix_backtick c _ _ Hc), (prefix_newline_fence_end c rest Hrest).
  by rewrite (IH Hrest).
Qed.

(** A closing fence on a line of its own after backtick-free text is
    dropped together with its line break. *)
Lemma replace_fences_closing body :
  contains_char "`" body = false →
  replace_fences 0 (body ++ newline ++ "```") = body.
Proof.
  induction body as [|c rest IH]; [done|].
  simpl contains_char. intros H. apply orb_false_iff in H as [Hc Hrest].
  rewrite append_cons. cbn [replace_fences]. rewrite fence_json_newline.
  rewrite !(prefix_backtick c _ _ Hc), (prefix_newline_fence c rest _ Hrest).
  by rewrite (IH Hrest).
Qed.

(** An opening json fence with its line break is dropped. *)
Lemma replace_fences_opening text :
  replace_fences 0 ("```json" ++ newline ++ text) = replace_fences 0 text.
Proof. by destruct text. Qed.

(** An opening plain fence is dropped; its line break stays when what
    follows is not a closing fence. *)
Lemma replace_fences_plain_opening body :
  contains_char "`" body = false →
  replace_fences 0 ("```" ++ newline ++ body ++ newline ++ "```")
    = newline ++ replace_fences 0 (body ++ newline ++ "```").
Proof.
  intros Hbody.
  change (replace_fences 0 ("```" ++ newline ++ body ++ newline ++ "```"))
    with (replace_fences 0 (String "010" (body ++ newline ++ "```"))).
  cbn [replace_fences]. rewrite fence_json_newline.
  rewrite !prefix_backtick by done.
  by rewrite (prefix_newline_fence "010" body "```" Hbody).
Qed.

End Cleaning.

Section Fences.
Variable JSON_parse : string → result JSON.
Variable less_than_coerced : JSON → Z → bool.

(** X18.  For a text without a backtick: cleaning it alone, or wrapped
    in a json code fence, or wrapped in a plain code fence, gives the
    trimmed text; so both pipelines treat the fenced and the bare reply
    alike. *)
Theorem clean_strips_fences :
  ∀ body : string,
    contains_char "`" body = false →
    clean body = trim body ∧
    clean ("```json" ++ newline ++ body ++ newline ++ "```") = trim body ∧
    clean ("```" ++ newline ++ body ++ newline ++ "```") = trim body ∧
    evaluatePrompt JSON_parse
        ("```json" ++ newline ++ body ++ newline ++ "```")
      = evaluatePrompt JSON_parse body ∧
    judgeBattle less_than_coerced JSON_parse
        ("```json" ++ newline ++ body ++ newline ++ "```")
      = judgeBattle less_than_coerced JSON_parse body.
Proof.
  intros body Hbody.
  assert (clean body = trim body) as Hplain
    by (unfold clean; by rewrite replace_fences_plain).
  assert (clean ("```json" ++ newline ++ body ++ newline ++ "```") = trim body)
    as Hjson.
  { unfold clean. by rewrite replace_fences_opening, replace_fences_closing. }
  split; [done|]. split; [done|]. split; [|split].
  - unfold clean.
    rewrite replace_fences_plain_opening, replace_fences_closing by done.
    reflexivity.
  - unfold evaluatePrompt. by rewrite Hjson, Hplain.
  - unfold judgeBattle. by rewrite Hjson, Hplain.
Qed.

End Fences.

(** X18 on the end-to-end example, with the reference parser. *)
Lemma clean_strips_fences_witness :
  clean example_text = trim example_text ∧
  clean ("```json" ++ newline ++ example_text ++ newline ++ "```")
    = trim example_text ∧
  clean ("```" ++ newline ++ example_text ++ newline ++ "```")
    = trim example_text ∧
  evaluatePrompt ReferenceJSON.parse
      ("```json" ++ newline ++ example_text ++ newline ++ "```")
    = evaluatePrompt ReferenceJSON.parse example_text ∧
  judgeBattle (λ _ _, false) ReferenceJSON.parse
      ("```json" ++ newline ++ example_text ++ newline ++ "```")
    = judgeBattle (λ _ _, false) ReferenceJSON.parse example_text.
Proof.
  apply clean_strips_fences. reflexivity.
Defined.

(** ** Further properties of the providers and of the web components *)

Import Provider Web.

(** *** The factory and the configuration of the Bedrock provider *)

Section Factory.
Import Provider.
Variable env : string → option string.

Lemma or_default_nonempty a d : d ≠ "" → or_default a d ≠ "".
Proof. by destruct a as [[|c rest]|]. Qed.

(** X19.  [createAIProvider] fails exactly for the two providers the
    enumeration names but the factory does not build, OPENAI and GEMINI,
    with the error that names the provider; it builds the mock exactly
    when MOCK is asked for; without a configuration or without a provider
    in it, it builds the Bedrock provider, so [getDefaultProvider] never
    fails. *)
Theorem createAIProvider_selection :
  (∀ (config : option AIProviderConfig) (e : exn),
     createAIProvider env config = Throw e ↔
     ∃ p : AIProvider,
       config ≫= provider = Some p ∧ (p = OPENAI ∨ p = GEMINI) ∧
       e = Error ("Unsupported AI provider: " ++ AIProvider_value p)) ∧
  (∀ config : option AIProviderConfig,
     createAIProvider env config = Ok Mock ↔ config ≫= provider = Some MOCK) ∧
  (∀ config : option AIProviderConfig,
     config ≫= provider = None ∨ config ≫= provider = Some BEDROCK →
     ∃ instance : BedrockProvider,
       createAIProvider env config = Ok (Bedrock instance)) ∧
  (∃ instance : BedrockProvider,
     getDefaultProvider env = Ok (Bedrock instance)).
Proof.
  split; [|split; [|split]].
  - intros config e. unfold createAIProvider.
    destruct (config ≫= provider) as [[]|] eqn:Hp; simpl; split;
      try discriminate.
    + intros (p & [= <-] & [?|?] & _); discriminate.
    + intros [= <-]. exists OPENAI. auto.
    + by intros (p & [= <-] & _ & ->).
    + intros [= <-]. exists GEMINI. auto.
    + by intros (p & [= <-] & _ & ->).
    + intros (p & [= <-] & [?|?] & _); discriminate.
    + by intros (p & ? & _).
  - intros config. unfold createAIProvider.
    destruct (config ≫= provider) as [[]|]; simpl; split; done.
  - intros config H. unfold createAIProvider.
    destruct H as [-> | ->]; simpl; by eexists.
  - by eexists.
Qed.

(** X20.  The Bedrock provider the factory builds takes its region from
    the configuration when that is a non-empty string, else from
    AWS_REGION when that is non-empty, else it is us-east-1, so the
    region is never empty; and it is given credentials exactly when both
    AWS_ACCESS_KEY_ID and AWS_SECRET_ACCESS_KEY are set and non-empty. *)
Theorem createAIProvider_bedrock_configuration :
  ∀ (config : option AIProviderConfig) (instance : BedrockProvider),
    createAIProvider env config = Ok (Bedrock instance) →
    region instance ≠ "" ∧
    (∀ r, config ≫= factory_region = Some r → r ≠ "" → region instance = r) ∧
    (truthy_string (config ≫= factory_region) = false →
     ∀ r, env "AWS_REGION" = Some r → r ≠ "" → region instance = r) ∧
    (truthy_string (config ≫= factory_region) = false →
     truthy_string (env "AWS_REGION") = false →
     region instance = "us-east-1") ∧
    (∀ key secret : string,
       credentials instance = Some (key, secret) ↔
       env "AWS_ACCESS_KEY_ID" = Some key ∧ key ≠ "" ∧
       env "AWS_SECRET_ACCESS_KEY" = Some secret ∧ secret ≠ "").
Proof.
  intros config instance. unfold createAIProvider.
  destruct (default BEDROCK (config ≫= provider)); try discriminate.
  intros [= <-]. simpl.
  split; [|split; [|split; [|split]]].
  - apply or_default_nonempty, or_default_nonempty. discriminate.
  - intros r -> Hr. by destruct r.
  - intros Hcfg r -> Hr.
    destruct (config ≫= factory_region) as [[|]|]; try discriminate;
      by destruct r.
  - intros Hcfg Henv.
    destruct (config ≫= factory_region) as [[|]|]; try discriminate;
      by destruct (env "AWS_REGION") as [[|]|].
  - intros key secret.
    destruct (env "AWS_ACCESS_KEY_ID") as [[|c1 k1]|];
      destruct (env "AWS_SECRET_ACCESS_KEY") as [[|c2 k2]|];
      (split; [intros H | intros (H1 & H2 & H3 & H4)]);
      try congruence; try (by inversion H);
      try (inversion H1; inversion H3; subst; congruence).
Qed.

End Factory.

(** X19 on a configuration that asks for OPENAI. *)
Lemma createAIProvider_selection_witness :
  createAIProvider empty_env
    (Some {| provider := Some OPENAI; factory_region := None |})
    = Throw (Error "Unsupported AI provider: openai").
Proof.
  destruct (createAIProvider_selection empty_env) as [Hthrow _].
  apply Hthrow. exists OPENAI.
  split; [reflexivity|]. split; [by left|reflexivity].
Defined.

(** X20 in an environment that names a region and both keys, without a
    configuration. *)
Lemma createAIProvider_bedrock_configuration_witness :
  region (new_BedrockProvider sample_env
            {| config_region := None;
               config_textModel := None;
               config_imageModel := None;
               config_accessKeyId := sample_env "AWS_ACCESS_KEY_ID";
               config_secretAccessKey := sample_env "AWS_SECRET_ACCESS_KEY" |})
    = "eu-west-1".
Proof.
  destruct (createAIProvider_bedrock_configuration sample_env None
              (new_BedrockProvider sample_env
                 {| config_region := None;
                    config_textModel := None;
                    config_imageModel := None;
                    config_accessKeyId := sample_env "AWS_ACCESS_KEY_ID";
                    config_secretAccessKey :=
                      sample_env "AWS_SECRET_ACCESS_KEY" |})
              eq_refl) as (_ & _ & Henv & _).
  apply (Henv eq_refl "eu-west-1"); [reflexivity|discriminate].
Defined.

(** *** Token counts *)

Section Tokens.
Import Provider.

Lemma countTokens_formula text :
  countTokens text = (2 * Z.of_nat (String.length text) + 6) / 7.
Proof.
  unfold countTokens. set (n := Z.of_nat (String.length text)).
  unfold Qceiling, Qfloor, Qdiv, Qmult, Qinv, Qopp, inject_Z. simpl.
  change (Z.pos (1 * 7)) with 7. clearbody n. Z.div_mod_to_equations. lia.
Qed.

Lemma Mock_countTokens_formula text :
  Mock_countTokens text = (Z.of_nat (String.length text) + 3) / 4.
Proof.
  unfold Mock_countTokens. set (n := Z.of_nat (String.length text)).
  unfold Qceiling, Qfloor, Qdiv, Qmult, Qinv, Qopp, inject_Z. simpl.
  clearbody n. Z.div_mod_to_equations. lia.
Qed.

(** X21.  Token counts are the length divided by 3.5 (Bedrock) or by 4
    (mock), rounded up: the count [n] is the least integer with
    [2 * length <= 7 * n] (with [length <= 4 * n] for the mock); it is 0
    exactly for the empty text, it never decreases when the text gets
    longer, and the mock never counts more than Bedrock. *)
Theorem countTokens_rounds_up :
  ∀ text : string,
    let len := Z.of_nat (String.length text) in
    7 * (countTokens text - 1) < 2 * len ≤ 7 * countTokens text ∧
    4 * (Mock_countTokens text - 1) < len ≤ 4 * Mock_countTokens text ∧
    (countTokens text = 0 ↔ text = "") ∧
    (Mock_countTokens text = 0 ↔ text = "") ∧
    Mock_countTokens text ≤ countTokens text ∧
    ∀ longer : string,
      (String.length text ≤ String.length longer)%nat →
      countTokens text ≤ countTokens longer ∧
      Mock_countTokens text ≤ Mock_countTokens longer.
Proof.
  intros text len.
  rewrite countTokens_formula, Mock_countTokens_formula. fold len.
  assert (len = 0 ↔ text = "") as Hempty.
  { unfold len. destruct text; simpl; split; intros; try done; lia. }
  assert (0 ≤ len) by (unfold len; lia).
  assert (∀ longer : string,
            (String.length text ≤ String.length longer)%nat →
            len ≤ Z.of_nat (String.length longer)) as Hlonger
    by (unfold len; lia).
  clearbody len.
  split; [Z.div_mod_to_equations; lia|].
  split; [Z.div_mod_to_equations; lia|].
  split; [rewrite <- Hempty; Z.div_mod_to_equations; lia|].
  split; [rewrite <- Hempty; Z.div_mod_to_equations; lia|].
  split; [Z.div_mod_to_equations; lia|].
  intros longer Hlen. specialize (Hlonger longer Hlen).
  rewrite countTokens_formula, Mock_countTokens_formula.
  set (len' := Z.of_nat (String.length longer)) in *. clearbody len'.
  split; Z.div_mod_to_equations; lia.
Qed.

End Tokens.

(** X21 on a text of twelve characters: four tokens for Bedrock, three
    for the mock. *)
Lemma countTokens_rounds_up_witness :
  countTokens "Hello, world" = 4 ∧ Mock_countTokens "Hello, world" = 3.
Proof.
  pose proof (countTokens_rounds_up "Hello, world") as H. cbv zeta in H.
  change (Z.of_nat (String.length "Hello, world")) with 12 in H.
  destruct H as (Hbedrock & Hmock & _). lia.
Defined.

(** *** The Bedrock provider: text generation *)

Section BedrockText.
Import Provider.
Variable self : BedrockProvider.
Variable JSON_parse : string → result JSON.
Variable add_coerced : JSON → JSON → JSON.
Variable send : TextInput → outcome string.

Lemma strict_equals_spec v s :
  strict_equals v s = true ↔ v = Some (JString s).
Proof.
  destruct v as [[| | |t| |]|]; simpl; split; try done.
  - intros H. apply String.eqb_eq in H. by subst.
  - intros [= ->]. apply String.eqb_refl.
Qed.

Lemma find_text_step c rest :
  c ≠ JNull →
  find_text (c :: rest) =
    if strict_equals (property c "type") "text" then Ok (Some c)
    else find_text rest.
Proof. by destruct c. Qed.

Lemma find_text_Some l block :
  find_text l = Ok (Some block) →
  ∃ before after : list JSON,
    l = (before ++ block :: after)%list ∧
    property block "type" = Some (JString "text") ∧
    Forall not_text_block before.
Proof.
  induction l as [|c rest IH]; [done|].
  assert (c = JNull ∨ c ≠ JNull) as [->|Hc]
    by (destruct c; [by left|by right..]).
  { done. }
  rewrite (find_text_step c rest Hc).
  destruct (strict_equals (property c "type") "text") eqn:Hty.
  - intros [= <-]. exists [], rest. repeat split; [|constructor].
    by apply strict_equals_spec.
  - intros H. destruct (IH H) as (before & after & -> & Hb & Hall).
    exists (c :: before), after. repeat split; try done.
    constructor; [|done]. split; [done|]. intros Heq.
    apply strict_equals_spec in Heq. congruence.
Qed.

Lemma find_text_found before block after :
  Forall not_text_block before →
  property block "type" = Some (JString "text") →
  find_text (before ++ block :: after) = Ok (Some block).
Proof.
  intros Hall Hb. induction Hall as [|c before [Hc Hty] _ IH].
  - rewrite app_nil_l, find_text_step by (by destruct block).
    apply strict_equals_spec in Hb. by rewrite Hb.
  - rewrite <- app_comm_cons, (find_text_step c _ Hc).
    destruct (strict_equals (property c "type") "text") eqn:Heq; [|done].
    by apply strict_equals_spec in Heq.
Qed.

(** A result of [optional_find_text], when there is one, is the first
    text block of the content array. *)
Lemma optional_find_text_Some content block :
  optional_find_text content = Ok (Some block) ↔ first_text_block content block.
Proof.
  split.
  - destruct content as [[| | | |l|]|]; try done. simpl. intros H.
    destruct (find_text_Some l block H) as (before & after & -> & Hb & Hall).
    by exists before, after.
  - intros (before & after & -> & Hb & Hall). simpl.
    by apply find_text_found.
Qed.

Lemma text_block_truthy block :
  property block "type" = Some (JString "text") →
  truthy (Some block) = true ∧
  Get (Some block) "text" = Ok (property block "text").
Proof. by destruct block. Qed.

Lemma engine_Get_non_null (j : JSON) k :
  j ≠ JNull → engine (Get (Some j) k) = Return (property j k).
Proof. by destruct j. Qed.

(** The run of [generateText] once the client has answered with a body
    that parses to something other than [null]. *)
Lemma generateText_body request body responseBody :
  send (text_input self request) = Return body →
  JSON_parse body = Ok responseBody →
  responseBody ≠ JNull →
  generateText self JSON_parse add_coerced send request =
    if strict_equals (property responseBody "stop_reason") "content_filtered"
    then Raise (ContentFilterError "bedrock"
                  "Content was filtered by safety policies")
    else
      match optional_find_text (property responseBody "content") with
      | Throw e => Raise (text_failure (Engine e))
      | Ok None =>
          Raise (text_failure
                   (AIProviderError "No text content in response" "bedrock" None))
      | Ok (Some block) =>
          if truthy (Some block)
          then
            match Get (Some block) "text" with
            | Throw e => Raise (text_failure (Engine e))
            | Ok text =>
                Return
                  {| text := text;
                     model := textModel self;
                     inputTokens :=
                       or_zero (OptGet (property responseBody "usage")
                                  "input_tokens");
                     outputTokens :=
                       or_zero (OptGet (property responseBody "usage")
                                  "output_tokens");
                     totalTokens :=
                       add add_coerced
                         (or_zero (OptGet (property responseBody "usage")
                                     "input_tokens"))
                         (or_zero (OptGet (property responseBody "usage")
                                     "output_tokens"));
                     finishReason :=
                       mapStopReason (property responseBody "stop_reason");
                     metadata_id := property responseBody "id";
                     metadata_model := property responseBody "model" |}
            end
          else
            Raise (text_failure
                     (AIProviderError "No text content in response" "bedrock"
                        None))
      end.
Proof.
  intros Hsend Hparse Hnull. unfold generateText.
  change {| text_modelId := textModel self;
            text_contentType := "application/json";
            text_accept := "application/json";
            text_body := text_payload request |}
    with (text_input self request).
  rewrite Hsend. cbn [mbind outcome_bind]. rewrite Hparse.
  change (engine (Ok responseBody)) with (Return responseBody).
  cbn [mbind outcome_bind].
  rewrite (engine_Get_non_null responseBody "stop_reason" Hnull),
    (engine_Get_non_null responseBody "content" Hnull),
    (engine_Get_non_null responseBody "usage" Hnull),
    (engine_Get_non_null responseBody "id" Hnull),
    (engine_Get_non_null responseBody "model" Hnull).
  cbn [mbind outcome_bind].
  destruct (strict_equals (property responseBody "stop_reason")
              "content_filtered"); [reflexivity|].
  destruct (optional_find_text (property responseBody "content"))
    as [[block|]|e]; cbn [engine mbind outcome_bind try_rethrow]; try done.
  destruct (truthy (Some block)); cbn [negb]; [|done].
  by destruct (Get (Some block) "text") as [text|e].
Qed.

(** What the handler of [generateText] can produce. *)
Lemma text_failure_class error :
  text_failure error = RateLimitError "bedrock" (Some 60) ∨
  (text_failure error = error ∧
   (instanceof_ContentFilterError error = true ∨
    instanceof_RateLimitError error = true)) ∨
  text_failure error
    = AIProviderError
        ("Bedrock text generation failed: " ++ thrown_message error)
        "bedrock" (Some error).
Proof.
  unfold text_failure.
  destruct (String.eqb (thrown_name error) "ThrottlingException"); [by left|].
  destruct error; simpl; auto.
Qed.


Lemma generateText_send_fails request error :
  send (text_input self request) = Raise error →
  generateText self JSON_parse add_coerced send request
    = Raise (text_failure error).
Proof.
  intros Hsend. unfold generateText.
  change {| text_modelId := textModel self;
            text_contentType := "application/json";
            text_accept := "application/json";
            text_body := text_payload request |}
    with (text_input self request).
  by rewrite Hsend.
Qed.

Lemma generateText_parse_fails request body e :
  send (text_input self request) = Return body →
  JSON_parse body = Throw e →
  generateText self JSON_parse add_coerced send request
    = Raise (text_failure (Engine e)).
Proof.
  intros Hsend Hparse. unfold generateText.
  change {| text_modelId := textModel self;
            text_contentType := "application/json";
            text_accept := "application/json";
            text_body := text_payload request |}
    with (text_input self request).
  rewrite Hsend. cbn [mbind outcome_bind]. by rewrite Hparse.
Qed.

Lemma generateText_null request body :
  send (text_input self request) = Return body →
  JSON_parse body = Ok JNull →
  generateText self JSON_parse add_coerced send request
    = Raise (AIProviderError
               "Bedrock text generation failed: Cannot read properties of null (reading 'stop_reason')"
               "bedrock"
               (Some (Engine (TypeError
                  "Cannot read properties of null (reading 'stop_reason')")))).
Proof.
  intros Hsend Hparse. unfold generateText.
  change {| text_modelId := textModel self;
            text_contentType := "application/json";
            text_accept := "application/json";
            text_body := text_payload request |}
    with (text_input self request).
  rewrite Hsend. cbn [mbind outcome_bind]. by rewrite Hparse.
Qed.

Lemma engine_name_not_throttling e :
  String.eqb (thrown_name (Engine e)) "ThrottlingException" = false.
Proof. by destruct e. Qed.

Lemma text_failure_engine e :
  text_failure (Engine e)
    = AIProviderError ("Bedrock text generation failed: " ++ exn_message e)
        "bedrock" (Some (Engine e)).
Proof. unfold text_failure. by rewrite engine_name_not_throttling. Qed.

Lemma mapStopReason_cases v :
  (mapStopReason v = "stop" ∨ mapStopReason v = "length" ∨
   mapStopReason v = "content_filter") ∧
  (mapStopReason v = "length" ↔ v = Some (JString "max_tokens")) ∧
  (mapStopReason v = "content_filter" ↔ v = Some (JString "content_filtered")).
Proof.
  unfold mapStopReason.
  destruct (strict_equals v "end_turn") eqn:H1.
  { apply strict_equals_spec in H1 as ->. by repeat split; auto. }
  destruct (strict_equals v "stop_sequence") eqn:H2.
  { apply strict_equals_spec in H2 as ->. by repeat split; auto. }
  destruct (strict_equals v "max_tokens") eqn:H3.
  { apply strict_equals_spec in H3 as ->. by repeat split; auto. }
  destruct (strict_equals v "content_filtered") eqn:H4.
  { apply strict_equals_spec in H4 as ->. by repeat split; auto. }
  repeat split; auto; try done.
  - intros ->. discriminate H3.
  - intros ->. discriminate H4.
Qed.

(** The responses of [generateText]. *)
Lemma generateText_Return request r :
  generateText self JSON_parse add_coerced send request = Return r ↔
  ∃ (body : string) (responseBody block : JSON),
    send (text_input self request) = Return body ∧
    JSON_parse body = Ok responseBody ∧
    property responseBody "stop_reason" ≠ Some (JString "content_filtered") ∧
    first_text_block (property responseBody "content") block ∧
    r = {| text := property block "text";
           model := textModel self;
           inputTokens :=
             or_zero (OptGet (property responseBody "usage") "input_tokens");
           outputTokens :=
             or_zero (OptGet (property responseBody "usage") "output_tokens");
           totalTokens :=
             add add_coerced
               (or_zero (OptGet (property responseBody "usage") "input_tokens"))
               (or_zero (OptGet (property responseBody "usage")
                           "output_tokens"));
           finishReason := mapStopReason (property responseBody "stop_reason");
           metadata_id := property responseBody "id";
           metadata_model := property responseBody "model" |}.
Proof.
  split.
  - intros H.
    destruct (send (text_input self request)) as [body|error] eqn:Hsend;
      [|by rewrite (generateText_send_fails _ _ Hsend) in H].
    destruct (JSON_parse body) as [responseBody|e] eqn:Hparse;
      [|by rewrite (generateText_parse_fails _ _ _ Hsend Hparse) in H].
    assert (responseBody ≠ JNull) as Hnull.
    { intros ->. by rewrite (generateText_null _ _ Hsend Hparse) in H. }
    rewrite (generateText_body _ _ _ Hsend Hparse Hnull) in H.
    destruct (strict_equals (property responseBody "stop_reason")
                "content_filtered") eqn:Hstop; [done|].
    destruct (optional_find_text (property responseBody "content"))
      as [[block|]|e] eqn:Hfind; try done.
    apply optional_find_text_Some in Hfind.
    pose proof Hfind as (_ & _ & _ & Hty & _).
    destruct (text_block_truthy block Hty) as [Htruthy Htext].
    rewrite Htruthy, Htext in H. injection H as <-.
    exists body, responseBody, block. repeat split; try done.
    intros Heq. apply strict_equals_spec in Heq. congruence.
  - intros (body & responseBody & block & Hsend & Hparse & Hstop & Hfind & ->).
    assert (responseBody ≠ JNull) as Hnull.
    { intros ->. by destruct Hfind as (? & ? & ? & _). }
    rewrite (generateText_body _ _ _ Hsend Hparse Hnull).
    destruct (strict_equals (property responseBody "stop_reason")
                "content_filtered") eqn:Heq.
    { by apply strict_equals_spec in Heq. }
    pose proof Hfind as (_ & _ & _ & Hty & _).
    apply optional_find_text_Some in Hfind. rewrite Hfind.
    destruct (text_block_truthy block Hty) as [Htruthy Htext].
    by rewrite Htruthy, Htext.
Qed.

End BedrockText.

Section BedrockTextProperties.
Import Provider.
Variable self : BedrockProvider.
Variable JSON_parse : string → result JSON.
Variable add_coerced : JSON → JSON → JSON.
Variable send : TextInput → outcome string.

(** X22.  [generateText] never lets an error of the engine or of the AWS
    client out: whatever it raises is a [RateLimitError], a
    [ContentFilterError] or an [AIProviderError] for bedrock whose
    message is "Bedrock text generation failed: " followed by the message
    of the cause it carries.  A rejection of the client named
    ThrottlingException becomes the rate-limit error with a retry delay
    of 60, any other rejection of the client and a body that does not
    parse become the wrapped failure. *)
Theorem generateText_failures :
  ∀ request : TextGenerationRequest,
    (∀ t : thrown,
       generateText self JSON_parse add_coerced send request = Raise t →
       (∃ provider retryAfter, t = RateLimitError provider retryAfter) ∨
       (∃ provider reason, t = ContentFilterError provider reason) ∨
       (∃ cause,
          t = AIProviderError
                ("Bedrock text generation failed: " ++ thrown_message cause)
                "bedrock" (Some cause))) ∧
    (∀ error : thrown,
       send (text_input self request) = Raise error →
       thrown_name error = "ThrottlingException" →
       generateText self JSON_parse add_coerced send request
         = Raise (RateLimitError "bedrock" (Some 60))) ∧
    (∀ name message : string,
       send (text_input self request) = Raise (Sdk name message) →
       name ≠ "ThrottlingException" →
       generateText self JSON_parse add_coerced send request
         = Raise (AIProviderError
                    ("Bedrock text generation failed: " ++ message)
                    "bedrock" (Some (Sdk name message)))) ∧
    (∀ (body : string) (e : exn),
       send (text_input self request) = Return body →
       JSON_parse body = Throw e →
       generateText self JSON_parse add_coerced send request
         = Raise (AIProviderError
                    ("Bedrock text generation failed: " ++ exn_message e)
                    "bedrock" (Some (Engine e)))).
Proof.
  intros request. split; [|split; [|split]].
  - intros t H. unfold generateText in H.
    match type of H with try_rethrow ?b _ = _ => destruct b as [r|error] end;
      [discriminate|].
    injection H as <-.
    destruct (text_failure_class error) as [-> | [[-> Hclass] | ->]].
    + left. by eexists _, _.
    + destruct error; simpl in Hclass; destruct Hclass; try discriminate.
      * left. by eexists _, _.
      * right. left. by eexists _, _.
    + right. right. by eexists.
  - intros error Hsend Hname.
    rewrite (generateText_send_fails _ _ _ _ _ _ Hsend).
    unfold text_failure. by rewrite Hname.
  - intros name message Hsend Hname.
    rewrite (generateText_send_fails _ _ _ _ _ _ Hsend).
    unfold text_failure. simpl.
    by apply String.eqb_neq in Hname as ->.
  - intros body e Hsend Hparse.
    rewrite (generateText_parse_fails _ _ _ _ _ _ _ Hsend Hparse).
    apply f_equal, text_failure_engine.
Qed.

(** X23.  Once the body parses, a stop reason of content_filtered raises
    the content-filter error whatever else the body holds, a text block
    included; without it, a body whose [content] is missing, [null] or an
    array with no text block raises "No text content in response", which
    the handler wraps once more. *)
Theorem generateText_filtered_or_empty :
  ∀ (request : TextGenerationRequest) (body : string) (responseBody : JSON),
    send (text_input self request) = Return body →
    JSON_parse body = Ok responseBody →
    responseBody ≠ JNull →
    (property responseBody "stop_reason" = Some (JString "content_filtered") →
     generateText self JSON_parse add_coerced send request
       = Raise (ContentFilterError "bedrock"
                  "Content was filtered by safety policies")) ∧
    (property responseBody "stop_reason" ≠ Some (JString "content_filtered") →
     property responseBody "content" = None ∨
     property responseBody "content" = Some JNull ∨
     (∃ l : list JSON,
        property responseBody "content" = Some (JArray l) ∧
        Forall not_text_block l) →
     generateText self JSON_parse add_coerced send request
       = Raise (AIProviderError
                  "Bedrock text generation failed: No text content in response"
                  "bedrock"
                  (Some (AIProviderError "No text content in response"
                           "bedrock" None)))).
Proof.
  intros request body responseBody Hsend Hparse Hnull.
  rewrite (generateText_body _ _ _ _ _ _ _ Hsend Hparse Hnull).
  split.
  - intros Hstop. apply strict_equals_spec in Hstop. by rewrite Hstop.
  - intros Hstop Hcontent.
    destruct (strict_equals (property responseBody "stop_reason")
                "content_filtered") eqn:Heq.
    { by apply strict_equals_spec in Heq. }
    destruct Hcontent as [-> | [-> | (l & -> & Hall)]]; try done.
    simpl.
    assert (find_text l = Ok None) as ->; [|done].
    induction Hall as [|c l [Hc Hty] _ IH]; [done|].
    rewrite (find_text_step c l Hc).
    destruct (strict_equals (property c "type") "text") eqn:Hc'; [|done].
    by apply strict_equals_spec in Hc'.
Qed.

(** X24.  A response of [generateText] comes from a body that parsed,
    was not content-filtered and has a text block: its text is the text
    of the first text block of [content], its model is the provider's
    text model, its total is the sum of its two token counts (all three 0
    when the body has no [usage]), and its finish reason is "length"
    exactly for the stop reason max_tokens and "stop" otherwise, never
    "content_filter".  Conversely every such body gives a response. *)
Theorem generateText_response :
  ∀ request : TextGenerationRequest,
    (∀ r : TextGenerationResponse,
       generateText self JSON_parse add_coerced send request = Return r →
       ∃ (body : string) (responseBody block : JSON),
         send (text_input self request) = Return body ∧
         JSON_parse body = Ok responseBody ∧
         first_text_block (property responseBody "content") block ∧
         text r = property block "text" ∧
         model r = textModel self ∧
         totalTokens r = add add_coerced (inputTokens r) (outputTokens r) ∧
         (property responseBody "usage" = None →
          inputTokens r = JNumber 0 ∧ outputTokens r = JNumber 0 ∧
          totalTokens r = JNumber 0) ∧
         (finishReason r = "length" ↔
          property responseBody "stop_reason" = Some (JString "max_tokens")) ∧
         (finishReason r = "stop" ∨ finishReason r = "length") ∧
         finishReason r ≠ "content_filter") ∧
    (∀ (body : string) (responseBody block : JSON),
       send (text_input self request) = Return body →
       JSON_parse body = Ok responseBody →
       property responseBody "stop_reason" ≠ Some (JString "content_filtered") →
       first_text_block (property responseBody "content") block →
       ∃ r : TextGenerationResponse,
         generateText self JSON_parse add_coerced send request = Return r ∧
         text r = property block "text").
Proof.
  intros request. split.
  - intros r H. apply generateText_Return in H
      as (body & responseBody & block & Hsend & Hparse & Hstop & Hfind & ->).
    exists body, responseBody, block. simpl.
    destruct (mapStopReason_cases (property responseBody "stop_reason"))
      as (Hcases & Hlength & Hfilter).
    do 6 (split; [done|]).
    split; [by intros ->|].
    split; [exact Hlength|].
    split.
    + destruct Hcases as [? | [? | Hc]]; auto. by apply Hfilter in Hc.
    + intros Hc. by apply Hfilter in Hc.
  - intros body responseBody block Hsend Hparse Hstop Hfind.
    eexists. split.
    + apply generateText_Return. by exists body, responseBody, block.
    + reflexivity.
Qed.

(** X25.  What is sent: the outcome depends on the client only through
    its answer to one command, for the provider's text model, whose
    payload has the prompt as the single user message; [max_tokens] is
    the request's [maxTokens] unless that is missing or 0, when it is
    4096, whereas a temperature or [topP] of 0 is kept and only a missing
    one becomes 0.7 or 0.9; a system prompt is sent exactly when it is
    not empty, and stop sequences whenever given, an empty list
    included. *)
Theorem generateText_payload :
  ∀ request : TextGenerationRequest,
    (∀ send' : TextInput → outcome string,
       send' (text_input self request) = send (text_input self request) →
       generateText self JSON_parse add_coerced send' request
         = generateText self JSON_parse add_coerced send request) ∧
    text_modelId (text_input self request) = textModel self ∧
    messages (text_body (text_input self request))
      = [("user", prompt request)] ∧
    (∀ n : Z, maxTokens request = Some n → n ≠ 0 →
       max_tokens (text_body (text_input self request)) = n) ∧
    (maxTokens request = None ∨ maxTokens request = Some 0 →
     max_tokens (text_body (text_input self request)) = 4096) ∧
    (∀ t : Q, temperature request = Some t →
       payload_temperature (text_body (text_input self request)) = t) ∧
    (temperature request = None →
     payload_temperature (text_body (text_input self request)) = (7 # 10)%Q) ∧
    (∀ p : Q, topP request = Some p →
       top_p (text_body (text_input self request)) = p) ∧
    (topP request = None →
     top_p (text_body (text_input self request)) = (9 # 10)%Q) ∧
    (∀ s : string,
       system (text_body (text_input self request)) = Some s ↔
       systemPrompt request = Some s ∧ s ≠ "") ∧
    stop_sequences (text_body (text_input self request))
      = stopSequences request.
Proof.
  intros request.
  split; [|split; [done|split; [done|]]].
  - intros send' Hsame. unfold generateText.
    change {| text_modelId := textModel self;
              text_contentType := "application/json";
              text_accept := "application/json";
              text_body := text_payload request |}
      with (text_input self request).
    by rewrite Hsame.
  - simpl.
    split; [intros n -> Hn; by destruct n|].
    split; [by intros [-> | ->]|].
    split; [by intros t ->|]. split; [by intros ->|].
    split; [by intros p ->|]. split; [by intros ->|].
    split; [|done].
    intros s. destruct (systemPrompt request) as [[|c s']|]; simpl; split;
      try done.
    + by intros [[= <-] Hne].
    + by intros [= <-].
    + by intros [[= <-] _].
    + by intros [? _].
Qed.

(** X26.  [healthCheck] answers [true] exactly when the client answers the
    probe with a body that parses, is not content-filtered and whose
    first text block has a text that is not empty (nor otherwise falsy);
    any rejection of the client, any malformed body gives [false]. *)
Theorem healthCheck_true :
  healthCheck self JSON_parse add_coerced send = true ↔
  ∃ (body : string) (responseBody block : JSON),
    send (text_input self
            {| prompt := "Hello"; maxTokens := Some 10; temperature := None;
               topP := None; stopSequences := None; systemPrompt := None |})
      = Return body ∧
    JSON_parse body = Ok responseBody ∧
    property responseBody "stop_reason" ≠ Some (JString "content_filtered") ∧
    first_text_block (property responseBody "content") block ∧
    truthy (property block "text") = true.
Proof.
  unfold healthCheck.
  set (probe := {| prompt := "Hello"; maxTokens := Some 10;
                   temperature := None; topP := None; stopSequences := None;
                   systemPrompt := None |}).
  destruct (generateText self JSON_parse add_coerced send probe) as [r|t] eqn:H.
  - apply generateText_Return in H
      as (body & responseBody & block & Hsend & Hparse & Hstop & Hfind & ->).
    simpl. split.
    + intros Htext. by exists body, responseBody, block.
    + intros (body' & responseBody' & block' & Hsend' & Hparse' & _ & Hfind'
              & Htext).
      rewrite Hsend in Hsend'. injection Hsend' as <-.
      rewrite Hparse in Hparse'. injection Hparse' as <-.
      destruct Hfind as (b1 & a1 & Hc1 & Hty1 & Hall1).
      destruct Hfind' as (b2 & a2 & Hc2 & Hty2 & Hall2).
      assert (optional_find_text (property responseBody "content")
                = Ok (Some block)) as Hf1
        by (apply optional_find_text_Some; by exists b1, a1).
      assert (optional_find_text (property responseBody "content")
                = Ok (Some block')) as Hf2
        by (apply optional_find_text_Some; by exists b2, a2).
      rewrite Hf1 in Hf2. by injection Hf2 as <-.
  - split; [done|].
    intros (body & responseBody & block & Hsend & Hparse & Hstop & Hfind & _).
    assert (∃ r, generateText self JSON_parse add_coerced send probe = Return r)
      as [r Hr]; [|by rewrite H in Hr].
    eexists. apply generateText_Return. by exists body, responseBody, block.
Qed.

End BedrockTextProperties.

(** X22 on a client that rejects with a ThrottlingException. *)
Lemma generateText_failures_witness :
  generateText default_provider ReferenceJSON.parse no_add
    (λ _, Raise (Sdk "ThrottlingException" "Rate exceeded")) probe
    = Raise (RateLimitError "bedrock" (Some 60)).
Proof.
  destruct (generateText_failures default_provider ReferenceJSON.parse no_add
              (λ _, Raise (Sdk "ThrottlingException" "Rate exceeded")) probe)
    as (_ & Hthrottled & _).
  apply (Hthrottled (Sdk "ThrottlingException" "Rate exceeded"));
    reflexivity.
Defined.

(** X23 on a body with a text block whose stop reason is
    content_filtered, read by the reference parser. *)
Lemma generateText_filtered_or_empty_witness :
  generateText default_provider ReferenceJSON.parse no_add
    (λ _, Return (text_reply "content_filtered")) probe
    = Raise (ContentFilterError "bedrock"
               "Content was filtered by safety policies").
Proof.
  destruct (generateText_filtered_or_empty default_provider
              ReferenceJSON.parse no_add
              (λ _, Return (text_reply "content_filtered")) probe
              (text_reply "content_filtered")
              (text_reply_body "content_filtered"))
    as [Hfiltered _].
  - reflexivity.
  - vm_compute. reflexivity.
  - discriminate.
  - apply Hfiltered. reflexivity.
Defined.

(** X24 on a body that ends its turn with the text Hi. *)
Lemma generateText_response_witness :
  ∃ r : TextGenerationResponse,
    generateText default_provider ReferenceJSON.parse no_add
      (λ _, Return (text_reply "end_turn")) probe = Return r ∧
    text r = Some (JString "Hi").
Proof.
  destruct (generateText_response default_provider ReferenceJSON.parse no_add
              (λ _, Return (text_reply "end_turn")) probe)
    as [_ Hresponse].
  apply (Hresponse (text_reply "end_turn") (text_reply_body "end_turn")
           text_block).
  - reflexivity.
  - vm_compute. reflexivity.
  - discriminate.
  - exists [], []. split; [reflexivity|]. split; [reflexivity|constructor].
Defined.

(** X25 on the probe of the health check, which asks for 10 tokens. *)
Lemma generateText_payload_witness :
  max_tokens (text_body (text_input default_provider probe)) = 10.
Proof.
  destruct (generateText_payload default_provider ReferenceJSON.parse no_add
              (λ _, Return (text_reply "end_turn")) probe)
    as (_ & _ & _ & Hmax & _).
  apply Hmax; [reflexivity|discriminate].
Defined.

(** X26 on a client that answers the probe with the text Hi. *)
Lemma healthCheck_true_witness :
  healthCheck default_provider ReferenceJSON.parse no_add
    (λ _, Return (text_reply "end_turn")) = true.
Proof.
  apply healthCheck_true.
  exists (text_reply "end_turn"), (text_reply_body "end_turn"), text_block.
  split; [reflexivity|]. split; [vm_compute; reflexivity|].
  split; [discriminate|]. split; [|reflexivity].
  exists [], []. split; [reflexivity|]. split; [reflexivity|constructor].
Defined.

(** *** The Bedrock provider: image generation *)

Section BedrockImage.
Import Provider.
Variable self : BedrockProvider.
Variable JSON_parse : string → result JSON.
Variable to_string_coerced : value → string.
Variable send : ImageInput → outcome string.

Lemma Get_non_null (j : JSON) k :
  j ≠ JNull → Get (Some j) k = Ok (property j k).
Proof. by destruct j. Qed.

Lemma image_failure_provider message :
  image_failure (AIProviderError message "bedrock" None)
    = AIProviderError ("Bedrock image generation failed: " ++ message)
        "bedrock" (Some (AIProviderError message "bedrock" None)).
Proof. reflexivity. Qed.

Lemma generateImage_unsupported request :
  supported_dimension (or_number (width request) 1024) = false ∨
  supported_dimension (or_number (height request) 1024) = false →
  generateImage self JSON_parse to_string_coerced send request
    = Raise (AIProviderError
               "Bedrock image generation failed: Invalid dimensions. Titan supports 512x512 or 1024x1024"
               "bedrock"
               (Some (AIProviderError
                        "Invalid dimensions. Titan supports 512x512 or 1024x1024"
                        "bedrock" None))).
Proof.
  intros H. unfold generateImage.
  replace (negb (supported_dimension (or_number (width request) 1024))
           || negb (supported_dimension (or_number (height request) 1024)))
    with true; [done|].
  destruct H as [-> | ->]; [done|]. by rewrite orb_true_r.
Qed.

(** The run of [generateImage] for supported dimensions, once the client
    has answered with a body that parses to something other than
    [null]. *)
Lemma generateImage_body request body responseBody :
  supported_dimension (or_number (width request) 1024) = true →
  supported_dimension (or_number (height request) 1024) = true →
  send (image_input self request) = Return body →
  JSON_parse body = Ok responseBody →
  responseBody ≠ JNull →
  generateImage self JSON_parse to_string_coerced send request =
    if no_images (property responseBody "images")
    then Raise (AIProviderError
                  "Bedrock image generation failed: No images generated"
                  "bedrock"
                  (Some (AIProviderError "No images generated" "bedrock" None)))
    else
      let base64Image :=
        match property responseBody "images" with
        | Some j => first_element j
        | None => None
        end in
      Return
        {| imageUrl :=
             "data:image/png;base64," ++ template to_string_coerced base64Image;
           base64 := base64Image;
           response_seed :=
             if truthy (property responseBody "seed")
             then or_zero (property responseBody "seed")
             else JNumber (or_number (seed request) 0);
           image_model := imageModel self;
           dimensions := (or_number (width request) 1024,
                          or_number (height request) 1024) |}.
Proof.
  intros Hw Hh Hsend Hparse Hnull. unfold generateImage.
  rewrite Hw, Hh. cbn [negb orb].
  change (send _) with (send (image_input self request)).
  rewrite Hsend. cbn [mbind outcome_bind]. rewrite Hparse.
  change (engine (Ok responseBody)) with (Return responseBody).
  cbn [mbind outcome_bind].
  rewrite (engine_Get_non_null responseBody "images" Hnull),
    (engine_Get_non_null responseBody "seed" Hnull).
  cbn [mbind outcome_bind].
  rewrite (Get_non_null responseBody "images" Hnull).
  unfold no_images.
  destruct (truthy (property responseBody "images")) eqn:Himages;
    cbn [negb or_else orb engine mbind outcome_bind result_bind];
    [|reflexivity].
  rewrite (Get_truthy _ "length" Himages).
  cbn [engine mbind outcome_bind result_bind].
  destruct (OptGet (property responseBody "images") "length")
    as [[| |[| |]| | |]|]; try reflexivity.
Qed.

Lemma generateImage_send_fails request error :
  supported_dimension (or_number (width request) 1024) = true →
  supported_dimension (or_number (height request) 1024) = true →
  send (image_input self request) = Raise error →
  generateImage self JSON_parse to_string_coerced send request
    = Raise (image_failure error).
Proof.
  intros Hw Hh Hsend. unfold generateImage.
  rewrite Hw, Hh. cbn [negb orb].
  change (send _) with (send (image_input self request)).
  by rewrite Hsend.
Qed.

Lemma generateImage_parse_fails request body e :
  supported_dimension (or_number (width request) 1024) = true →
  supported_dimension (or_number (height request) 1024) = true →
  send (image_input self request) = Return body →
  JSON_parse body = Throw e →
  generateImage self JSON_parse to_string_coerced send request
    = Raise (image_failure (Engine e)).
Proof.
  intros Hw Hh Hsend Hparse. unfold generateImage.
  rewrite Hw, Hh. cbn [negb orb].
  change (send _) with (send (image_input self request)).
  rewrite Hsend. cbn [mbind outcome_bind]. by rewrite Hparse.
Qed.

Lemma generateImage_null request body :
  supported_dimension (or_number (width request) 1024) = true →
  supported_dimension (or_number (height request) 1024) = true →
  send (image_input self request) = Return body →
  JSON_parse body = Ok JNull →
  ∃ error : thrown,
    generateImage self JSON_parse to_string_coerced send request
      = Raise (image_failure error).
Proof.
  intros Hw Hh Hsend Hparse. unfold generateImage.
  rewrite Hw, Hh. cbn [negb orb].
  change (send _) with (send (image_input self request)).
  rewrite Hsend. cbn [mbind outcome_bind]. rewrite Hparse.
  by eexists.
Qed.

(** The responses of [generateImage]. *)
Lemma generateImage_Return request r :
  generateImage self JSON_parse to_string_coerced send request = Return r ↔
  supported_dimension (or_number (width request) 1024) = true ∧
  supported_dimension (or_number (height request) 1024) = true ∧
  ∃ (body : string) (responseBody : JSON),
    send (image_input self request) = Return body ∧
    JSON_parse body = Ok responseBody ∧
    responseBody ≠ JNull ∧
    no_images (property responseBody "images") = false ∧
    r = {| imageUrl :=
             "data:image/png;base64,"
             ++ template to_string_coerced
                  match property responseBody "images" with
                  | Some j => first_element j
                  | None => None
                  end;
           base64 :=
             match property responseBody "images" with
             | Some j => first_element j
             | None => None
             end;
           response_seed :=
             if truthy (property responseBody "seed")
             then or_zero (property responseBody "seed")
             else JNumber (or_number (seed request) 0);
           image_model := imageModel self;
           dimensions := (or_number (width request) 1024,
                          or_number (height request) 1024) |}.
Proof.
  split.
  - intros H.
    destruct (supported_dimension (or_number (width request) 1024)) eqn:Hw;
      [|by rewrite generateImage_unsupported in H by (by left)].
    destruct (supported_dimension (or_number (height request) 1024)) eqn:Hh;
      [|by rewrite generateImage_unsupported in H by (by right)].
    destruct (send (image_input self request)) as [body|error] eqn:Hsend;
      [|by rewrite (generateImage_send_fails _ _ Hw Hh Hsend) in H].
    destruct (JSON_parse body) as [responseBody|e] eqn:Hparse;
      [|by rewrite (generateImage_parse_fails _ _ _ Hw Hh Hsend Hparse) in H].
    assert (responseBody ≠ JNull) as Hnull.
    { intros ->.
      destruct (generateImage_null _ _ Hw Hh Hsend Hparse) as [error Herr].
      by rewrite Herr in H. }
    rewrite (generateImage_body _ _ _ Hw Hh Hsend Hparse Hnull) in H.
    destruct (no_images (property responseBody "images")) eqn:Hno; [done|].
    injection H as <-. split; [done|]. split; [done|].
    by exists body, responseBody.
  - intros (Hw & Hh & body & responseBody & Hsend & Hparse & Hnull & Hno & ->).
    rewrite (generateImage_body _ _ _ Hw Hh Hsend Hparse Hnull).
    by rewrite Hno.
Qed.

Lemma image_failure_class error :
  image_failure error = RateLimitError "bedrock" (Some 60) ∨
  (instanceof_RateLimitError error = true ∧ image_failure error = error) ∨
  image_failure error
    = AIProviderError
        ("Bedrock image generation failed: " ++ thrown_message error)
        "bedrock" (Some error).
Proof.
  unfold image_failure, text_failure.
  destruct (String.eqb (thrown_name error) "ThrottlingException"); [by left|].
  destruct error; simpl; auto.
Qed.

Lemma supported_dimension_spec n :
  supported_dimension n = true ↔ n = 512 ∨ n = 1024.
Proof. unfold supported_dimension. lia. Qed.

(** X27.  [generateImage] asks the client only for images whose width
    and height are each 512 or 1024, a missing or zero dimension counting
    as 1024 and the two dimensions being checked separately (512 by 1024
    passes): any other request fails, whatever the client would answer,
    with the wrapped invalid-dimensions error; and a response reports the
    dimensions that were asked for. *)
Theorem generateImage_dimensions :
  ∀ request : ImageGenerationRequest,
    let w := or_number (width request) 1024 in
    let h := or_number (height request) 1024 in
    (¬ ((w = 512 ∨ w = 1024) ∧ (h = 512 ∨ h = 1024)) →
     generateImage self JSON_parse to_string_coerced send request
       = Raise (AIProviderError
                  "Bedrock image generation failed: Invalid dimensions. Titan supports 512x512 or 1024x1024"
                  "bedrock"
                  (Some (AIProviderError
                           "Invalid dimensions. Titan supports 512x512 or 1024x1024"
                           "bedrock" None)))) ∧
    (∀ r : ImageGenerationResponse,
       generateImage self JSON_parse to_string_coerced send request = Return r →
       dimensions r = (w, h) ∧ (w = 512 ∨ w = 1024) ∧ (h = 512 ∨ h = 1024) ∧
       ∃ body : string,
         send (image_input self request) = Return body ∧
         payload_width (image_body (image_input self request)) = w ∧
         payload_height (image_body (image_input self request)) = h) ∧
    (width request = None ∨ width request = Some 0 → w = 1024) ∧
    (height request = None ∨ height request = Some 0 → h = 1024).
Proof.
  intros request w h. split; [|split; [|split]].
  - intros Hbad. apply generateImage_unsupported. fold w h.
    destruct (supported_dimension w) eqn:Hw; [|by left].
    destruct (supported_dimension h) eqn:Hh; [|by right].
    exfalso. apply Hbad. by rewrite <- !supported_dimension_spec.
  - intros r H. apply generateImage_Return in H
      as (Hw & Hh & body & responseBody & Hsend & _ & _ & _ & ->).
    apply supported_dimension_spec in Hw, Hh.
    split; [done|]. split; [done|]. split; [done|]. by exists body.
  - unfold w. by intros [-> | ->].
  - unfold h. by intros [-> | ->].
Qed.

(** X28.  The answers of [generateImage]: a body whose [images] is
    missing, [null] or an empty array gives the wrapped "No images
    generated" failure; a body whose first image is a string gives a
    response whose [base64] is that string and whose [imageUrl] is the
    data URL made of it, with the seed of the body, else the non-zero
    seed of the request, else 0; and whatever is raised is a
    [RateLimitError] or an [AIProviderError] with the message "Bedrock
    image generation failed: " and the message of its cause, a
    [ContentFilterError] of the client included. *)
Theorem generateImage_answers :
  ∀ request : ImageGenerationRequest,
    (∀ (body : string) (responseBody : JSON),
       supported_dimension (or_number (width request) 1024) = true →
       supported_dimension (or_number (height request) 1024) = true →
       send (image_input self request) = Return body →
       JSON_parse body = Ok responseBody →
       responseBody ≠ JNull →
       (property responseBody "images" = None ∨
        property responseBody "images" = Some JNull ∨
        property responseBody "images" = Some (JArray []) →
        generateImage self JSON_parse to_string_coerced send request
          = Raise (AIProviderError
                     "Bedrock image generation failed: No images generated"
                     "bedrock"
                     (Some (AIProviderError "No images generated" "bedrock"
                              None)))) ∧
       (∀ (s : string) (rest : list JSON),
          property responseBody "images" = Some (JArray (JString s :: rest)) →
          ∃ r : ImageGenerationResponse,
            generateImage self JSON_parse to_string_coerced send request
              = Return r ∧
            base64 r = Some (JString s) ∧
            imageUrl r = "data:image/png;base64," ++ s ∧
            image_model r = imageModel self ∧
            (∀ n : Z, property responseBody "seed" = Some (JNumber n) →
               n ≠ 0 → response_seed r = JNumber n) ∧
            (property responseBody "seed" = None →
             response_seed r = JNumber (or_number (seed request) 0)))) ∧
    (∀ t : thrown,
       generateImage self JSON_parse to_string_coerced send request = Raise t →
       (∃ provider retryAfter, t = RateLimitError provider retryAfter) ∨
       (∃ cause,
          t = AIProviderError
                ("Bedrock image generation failed: " ++ thrown_message cause)
                "bedrock" (Some cause))) ∧
    (∀ provider reason : string,
       supported_dimension (or_number (width request) 1024) = true →
       supported_dimension (or_number (height request) 1024) = true →
       send (image_input self request)
         = Raise (ContentFilterError provider reason) →
       generateImage self JSON_parse to_string_coerced send request
         = Raise (AIProviderError
                    ("Bedrock image generation failed: Content filtered: "
                     ++ reason)
                    "bedrock" (Some (ContentFilterError provider reason)))).
Proof.
  intros request. split; [|split].
  - intros body responseBody Hw Hh Hsend Hparse Hnull.
    rewrite (generateImage_body _ _ _ Hw Hh Hsend Hparse Hnull).
    split.
    + by intros [-> | [-> | ->]].
    + intros s rest Himages. rewrite Himages. eexists. split; [reflexivity|].
      simpl. repeat split.
      * intros n -> Hn. by destruct n.
      * by intros ->.
  - intros t H. unfold generateImage in H.
    match type of H with try_rethrow ?b _ = _ => destruct b as [r|error] end;
      [discriminate|].
    injection H as <-.
    destruct (image_failure_class error) as [-> | [(Hclass & ->) | ->]].
    + left. by eexists _, _.
    + destruct error; try discriminate. left. by eexists _, _.
    + right. by eexists.
  - intros provider reason Hw Hh Hsend.
    by rewrite (generateImage_send_fails _ _ Hw Hh Hsend).
Qed.

End BedrockImage.

(** X27 on a request for 256 by 256, with a client that would answer. *)
Lemma generateImage_dimensions_witness :
  generateImage default_provider ReferenceJSON.parse undefined_text
    (λ _, Return image_reply) (image_request 256)
    = Raise (AIProviderError
               "Bedrock image generation failed: Invalid dimensions. Titan supports 512x512 or 1024x1024"
               "bedrock"
               (Some (AIProviderError
                        "Invalid dimensions. Titan supports 512x512 or 1024x1024"
                        "bedrock" None))).
Proof.
  destruct (generateImage_dimensions default_provider ReferenceJSON.parse
              undefined_text (λ _, Return image_reply) (image_request 256))
    as [Hinvalid _].
  apply Hinvalid. simpl. lia.
Defined.

(** X28 on a body with one image, for a request of 512 by 512 with the
    seed 7. *)
Lemma generateImage_answers_witness :
  ∃ r : ImageGenerationResponse,
    generateImage default_provider ReferenceJSON.parse undefined_text
      (λ _, Return image_reply) (image_request 512) = Return r ∧
    imageUrl r = "data:image/png;base64,aGVsbG8=" ∧
    response_seed r = JNumber 7.
Proof.
  destruct (generateImage_answers default_provider ReferenceJSON.parse
              undefined_text (λ _, Return image_reply) (image_request 512))
    as [Hbody _].
  destruct (Hbody image_reply image_reply_body) as [_ Himage].
  - reflexivity.
  - reflexivity.
  - reflexivity.
  - vm_compute. reflexivity.
  - discriminate.
  - destruct (Himage "aGVsbG8=" []) as (r & Hr & _ & Hurl & _ & _ & Hseed);
      [reflexivity|].
    exists r. split; [exact Hr|]. split; [exact Hurl|].
    apply Hseed. reflexivity.
Defined.

(** *** The web components *)

Section WebComponents.
Import Web.

Lemma length_append (s t : string) :
  String.length (s ++ t) = (String.length s + String.length t)%nat.
Proof.
  induction s as [|c s IH]; [done|].
  rewrite append_cons. simpl. by rewrite IH.
Qed.

Lemma substring_prefix (pre rest : string) :
  substring 0 (String.length pre) (pre ++ rest) = pre.
Proof.
  induction pre as [|c pre IH].
  - rewrite append_empty. by destruct rest.
  - rewrite append_cons. simpl. by rewrite IH.
Qed.

Lemma substring_all (s : string) (n : nat) :
  (String.length s ≤ n)%nat → substring 0 n s = s.
Proof.
  revert n. induction s as [|c s IH]; intros n Hn.
  - by destruct n.
  - destruct n as [|n]; simpl in *; [lia|]. rewrite IH; [done|lia].
Qed.

Lemma substring_suffix (rest suf : string) :
  substring (String.length rest) (String.length suf) (rest ++ suf) = suf.
Proof.
  induction rest as [|c rest IH].
  - rewrite append_empty. by apply substring_all.
  - rewrite append_cons. exact IH.
Qed.

Lemma length_substring (s : string) (n m : nat) :
  (n + m ≤ String.length s)%nat → String.length (substring n m s) = m.
Proof.
  revert n m. induction s as [|c s IH]; intros n m Hlen; simpl in Hlen.
  - assert (n = 0%nat) as -> by lia. by assert (m = 0%nat) as -> by lia.
  - destruct n as [|n]; simpl.
    + destruct m as [|m]; [done|]. simpl. rewrite IH; [done|lia].
    + apply IH. lia.
Qed.

Lemma substring_from_length (s : string) (m : nat) :
  substring (String.length s) m s = "".
Proof.
  induction s as [|c s IH]; [by destruct m|]. exact IH.
Qed.

Lemma percentage_range (value : Q) :
  (0 <= percentage value)%Q ∧ (percentage value <= 100)%Q.
Proof.
  unfold percentage. split.
  - apply Q.min_glb; [done|]. apply Q.le_max_l.
  - apply Q.le_min_l.
Qed.

Lemma percentage_in_range (value : Q) :
  (0 <= value)%Q → (value <= 100)%Q → percentage value == value.
Proof.
  intros H0 H100. unfold percentage.
  rewrite (Q.max_r 0 value H0). by apply Q.min_r.
Qed.

(** X29.  The width [TraitBar] draws is the trait value clamped to the
    percentages: it lies between 0 and 100, is the value itself when
    that lies in the range, 0 for a value below and 100 for a value
    above, it grows with the value, and clamping twice changes
    nothing. *)
Theorem percentage_clamps :
  ∀ value : Q,
    (0 <= percentage value)%Q ∧ (percentage value <= 100)%Q ∧
    ((0 <= value)%Q → (value <= 100)%Q → percentage value == value) ∧
    ((value <= 0)%Q → percentage value == 0) ∧
    ((100 <= value)%Q → percentage value == 100) ∧
    (∀ other : Q,
       (value <= other)%Q → (percentage value <= percentage other)%Q) ∧
    percentage (percentage value) == percentage value.
Proof.
  intros value.
  destruct (percentage_range value) as [H0 H100].
  repeat split; try done.
  - apply percentage_in_range.
  - intros Hneg. unfold percentage.
    rewrite (Q.max_l 0 value Hneg). by apply Q.min_r.
  - intros Hbig. unfold percentage.
    assert (0 <= value)%Q as Hpos by (by apply Qle_trans with 100%Q).
    rewrite (Q.max_r 0 value Hpos). by apply Q.min_l.
  - intros other Hle. unfold percentage.
    apply Q.min_le_compat_l. by apply Q.max_le_compat_l.
  - by apply percentage_in_range.
Qed.

Lemma slice_first (address : string) (chars : Z) :
  0 ≤ chars →
  slice address 0 (Some chars) = substring 0 (Z.to_nat chars) address.
Proof.
  intros Hc. unfold slice, relative_index.
  change (0 <? 0) with false. cbv iota.
  destruct (chars <? 0) eqn:Hneg; [lia|].
  set (len := Z.of_nat (String.length address)).
  assert (Z.min 0 len = 0) as -> by lia.
  change (Z.to_nat 0) with 0%nat. rewrite Z.sub_0_r.
  destruct (Z.le_ge_cases chars len) as [Hle|Hge].
  - by rewrite Z.min_l.
  - rewrite Z.min_r by done.
    rewrite !substring_all; [done|lia|unfold len; lia].
Qed.

Lemma slice_last (address : string) (chars : Z) :
  0 < chars →
  slice address (- chars) None
    = substring (String.length address - Z.to_nat chars) (Z.to_nat chars)
        address.
Proof.
  intros Hc. unfold slice, relative_index.
  destruct (- chars <? 0) eqn:Hneg; [|lia].
  set (len := Z.of_nat (String.length address)).
  destruct (Z.le_ge_cases chars len) as [Hle|Hge].
  - rewrite Z.max_l by lia. f_equal; unfold len; lia.
  - rewrite Z.max_r by lia.
    change (Z.to_nat 0) with 0%nat. rewrite Z.sub_0_r.
    replace (String.length address - Z.to_nat chars)%nat with 0%nat
      by (unfold len in Hge; lia).
    rewrite !substring_all; [done|unfold len in Hge; lia|unfold len; lia].
Qed.

Lemma truncateAddress_given (address : string) (chars : Z) :
  truncateAddress address (Some chars)
    = slice address 0 (Some chars) ++ "..." ++ slice address (- chars) None.
Proof. reflexivity. Qed.

(** X30.  [truncateAddress] keeps the first and the last [chars]
    characters of an address around three dots, [chars] being 4 when it
    is not given: for a positive [chars] the result is the prefix and the
    suffix of that length, which may overlap; an address of at most
    [chars] characters appears twice in full; and for [chars = 0] the
    whole address follows the dots, since [slice(-0)] is [slice(0)]. *)
Theorem truncateAddress_shape :
  ∀ (address : string) (chars : Z),
    truncateAddress address None = truncateAddress address (Some 4) ∧
    (0 < chars →
     ∀ first rest rest' last : string,
       address = first ++ rest →
       address = rest' ++ last →
       Z.of_nat (String.length first) = chars →
       Z.of_nat (String.length last) = chars →
       truncateAddress address (Some chars) = first ++ "..." ++ last) ∧
    (0 < chars →
     Z.of_nat (String.length address) ≤ chars →
     truncateAddress address (Some chars) = address ++ "..." ++ address) ∧
    truncateAddress address (Some 0) = "..." ++ address ∧
    (0 < chars →
     Z.of_nat (String.length (truncateAddress address (Some chars)))
       = 2 * Z.min chars (Z.of_nat (String.length address)) + 3).
Proof.
  intros address chars. split; [done|].
  assert (0 < chars →
          Z.of_nat (String.length address) ≤ chars →
          truncateAddress address (Some chars) = address ++ "..." ++ address)
    as Hshort.
  { intros Hc Hlen. rewrite truncateAddress_given.
    rewrite slice_first by lia. rewrite slice_last by done.
    replace (String.length address - Z.to_nat chars)%nat with 0%nat by lia.
    rewrite !substring_all by lia. done. }
  assert (0 < chars →
          ∀ first rest rest' last : string,
            address = first ++ rest →
            address = rest' ++ last →
            Z.of_nat (String.length first) = chars →
            Z.of_nat (String.length last) = chars →
            truncateAddress address (Some chars) = first ++ "..." ++ last)
    as Hlong.
  { intros Hc first rest rest' last Hfirst Hlast Hlf Hll.
    rewrite truncateAddress_given.
    rewrite slice_first by lia. rewrite slice_last by done.
    f_equal; [|f_equal].
    - rewrite Hfirst. replace (Z.to_nat chars) with (String.length first) by lia.
      apply substring_prefix.
    - rewrite Hlast at 1 2. rewrite length_append.
      replace (Z.to_nat chars) with (String.length last) by lia.
      replace (String.length rest' + String.length last - String.length last)%nat
        with (String.length rest') by lia.
      apply substring_suffix. }
  split; [exact Hlong|]. split; [exact Hshort|]. split.
  - rewrite truncateAddress_given. rewrite slice_first by done.
    change (Z.to_nat 0) with 0%nat.
    assert (substring 0 0 address = "") as -> by (by destruct address).
    rewrite append_empty. f_equal.
    unfold slice, relative_index. change (- 0) with 0.
    change (0 <? 0) with false. cbv iota zeta.
    assert (Z.min 0 (Z.of_nat (String.length address)) = 0) as -> by lia.
    rewrite Z.sub_0_r, Nat2Z.id. change (Z.to_nat 0) with 0%nat.
    by apply substring_all.
  - intros Hc.
    destruct (Z.le_ge_cases (Z.of_nat (String.length address)) chars)
      as [Hle|Hge].
    + rewrite Hshort by done. rewrite !length_append. simpl String.length. lia.
    + rewrite truncateAddress_given.
      rewrite slice_first by lia. rewrite slice_last by done.
      rewrite !length_append, !length_substring by lia.
      simpl String.length. lia.
Qed.

End WebComponents.

(** X29 on a value of 150, drawn as 100. *)
Lemma percentage_clamps_witness : percentage 150 == 100.
Proof.
  destruct (percentage_clamps 150) as (_ & _ & _ & _ & Hhigh & _).
  apply Hhigh. discriminate.
Defined.

(** X30 on a wallet address, with the default of four characters. *)
Lemma truncateAddress_shape_witness :
  truncateAddress "7xKXtg2CW87d97TXJSDpbD5jBkheTqA83TZRuJosgAsU" (Some 4)
    = "7xKX...gAsU".
Proof.
  destruct (truncateAddress_shape
              "7xKXtg2CW87d97TXJSDpbD5jBkheTqA83TZRuJosgAsU" 4)
    as (_ & Hlong & _).
  apply (Hlong eq_refl "7xKX" "tg2CW87d97TXJSDpbD5jBkheTqA83TZRuJosgAsU"
           "7xKXtg2CW87d97TXJSDpbD5jBkheTqA83TZRuJos" "gAsU");
    reflexivity.
Defined.

(** ** The services with their provider *)

Section ServicesWithProvider.
Variable generateText :
  TextGenerationRequest → outcome TextGenerationResponse.
Variable JSON_parse : string → result JSON.
Variable less_than_coerced : JSON → Z → bool.
Variable String_replace : string → string → string → string.
Variable Number_toString : Z → string.
Variable ToString_object : JSON → result string.
Variable toString_object : JSON → result string.

#[local] Abbreviation whole_evaluatePrompt :=
  (ServiceMethods.evaluatePrompt generateText JSON_parse String_replace
     Number_toString ToString_object).
#[local] Abbreviation whole_judgeBattle :=
  (ServiceMethods.judgeBattle generateText JSON_parse less_than_coerced
     String_replace Number_toString ToString_object toString_object).
#[local] Abbreviation buildJudgePrompt :=
  (ServiceMethods.buildJudgePrompt String_replace Number_toString
     ToString_object toString_object).
#[local] Abbreviation evaluation_prompt_of :=
  (evaluation_prompt String_replace Number_toString ToString_object).

Lemma cleaned_string (s : string) :
  ServiceMethods.cleaned_text (Some (JString s)) = Ok (clean s).
Proof. reflexivity. Qed.

Lemma cleaned_not_string (text : value) :
  ¬ is_string text →
  ∃ msg : string, ServiceMethods.cleaned_text text = Throw (TypeError msg).
Proof.
  intros Hnot. destruct text as [[]|]; try (by eexists).
  exfalso. apply Hnot. by eexists.
Qed.

Lemma cleaned_Ok (text : value) (c : string) :
  ServiceMethods.cleaned_text text = Ok c →
  ∃ s : string, text = Some (JString s) ∧ c = clean s.
Proof.
  destruct text as [[]|]; try discriminate. intros [= <-]. by eexists.
Qed.

Lemma evaluatePrompt_unfold (request : value) :
  whole_evaluatePrompt request
  = (evaluationPrompt ← engine (evaluation_prompt_of request);
     response ← generateText (evaluation_request evaluationPrompt);
     score ← engine (try_catch
       (cleaned ← ServiceMethods.cleaned_text (text response);
        score ← JSON_parse cleaned;
        validateScore (Some score))
       EvaluationParseError);
     total ← engine (Get score "total");
     Return
       {| score := score;
          tierProbabilities :=
            TIER_PROBABILITIES
              !! getQualityLevel (inject_Z (number_value total));
          qualityLevel :=
            getQualityLevel (inject_Z (number_value total)) |}).
Proof.
  unfold ServiceMethods.evaluatePrompt, evaluation_prompt.
  destruct (ServiceMethods.Destructure_request request "prompt"); [|done].
  simpl.
  by destruct (ServiceMethods.replace _ _ _ _ _ _).
Qed.

(** On a text that is a string, the whole method continues as the part
    modelled from the generated text. *)
Lemma evaluatePrompt_from_text request evaluationPrompt response s :
  evaluation_prompt_of request = Ok evaluationPrompt →
  generateText (evaluation_request evaluationPrompt) = Return response →
  text response = Some (JString s) →
  whole_evaluatePrompt request
    = engine (PromptEvaluationService.evaluatePrompt JSON_parse s).
Proof.
  intros Hbuild Hsend Htext. rewrite evaluatePrompt_unfold, Hbuild. simpl.
  rewrite Hsend. simpl. rewrite Htext, cleaned_string.
  unfold PromptEvaluationService.evaluatePrompt. simpl.
  destruct (JSON_parse (clean s)) as [parsed|cause]; simpl; [|done].
  destruct (validateScore (Some parsed)) as [score'|cause]; simpl; [|done].
  by destruct (Get score' "total").
Qed.

Lemma evaluatePrompt_build_fails request e :
  evaluation_prompt_of request = Throw e →
  whole_evaluatePrompt request = Raise (Engine e).
Proof. intros H. by rewrite evaluatePrompt_unfold, H. Qed.

Lemma evaluatePrompt_provider_fails request evaluationPrompt t :
  evaluation_prompt_of request = Ok evaluationPrompt →
  generateText (evaluation_request evaluationPrompt) = Raise t →
  whole_evaluatePrompt request = Raise t.
Proof.
  intros Hbuild Hsend. rewrite evaluatePrompt_unfold, Hbuild. simpl.
  by rewrite Hsend.
Qed.

Lemma evaluatePrompt_text_not_string request evaluationPrompt response :
  evaluation_prompt_of request = Ok evaluationPrompt →
  generateText (evaluation_request evaluationPrompt) = Return response →
  ¬ is_string (text response) →
  ∃ msg : string,
    ServiceMethods.cleaned_text (text response) = Throw (TypeError msg) ∧
    whole_evaluatePrompt request
      = Raise (Engine (EvaluationParseError (TypeError msg))).
Proof.
  intros Hbuild Hsend Htext.
  destruct (cleaned_not_string _ Htext) as [msg Hmsg].
  exists msg. split; [done|].
  rewrite evaluatePrompt_unfold, Hbuild. simpl. rewrite Hsend. simpl.
  by rewrite Hmsg.
Qed.

Lemma is_string_dec (v : value) : is_string v ∨ ¬ is_string v.
Proof.
  destruct v as [[]|]; try (right; intros [s Hs]; discriminate).
  left. by eexists.
Qed.

Lemma engine_Raise {A : Type} (r : result A) (t : thrown) :
  engine r = Raise t → ∃ e : exn, r = Throw e ∧ t = Engine e.
Proof. destruct r; [discriminate|]. intros [= <-]. by eexists. Qed.

Lemma engine_Return {A : Type} (r : result A) (a : A) :
  engine r = Return a → r = Ok a.
Proof. destruct r; [|discriminate]. by intros [= <-]. Qed.

(** X4.  How [evaluatePrompt] fails.  The call of the provider stands
    before the [try]: whatever the provider raises, a rate-limit or a
    content-filter error included, leaves [evaluatePrompt] as it is, not
    wrapped; so does what reading the request or converting its prompt
    throws, before the provider is called.  Only a failure on the
    response is wrapped as "Failed to parse evaluation response:
    <cause>", the cause being the [TypeError] of a [text] that is not a
    string, what [JSON.parse] threw on the cleaned text or what
    [validateScore] threw on the parsed value.  There is no other
    failure. *)
Theorem evaluatePrompt_failure_modes :
  ∀ request : value,
    (∀ t : thrown,
       whole_evaluatePrompt request = Raise t →
       (∃ e : exn,
          evaluation_prompt_of request = Throw e ∧ t = Engine e) ∨
       (∃ evaluationPrompt : string,
          evaluation_prompt_of request = Ok evaluationPrompt ∧
          generateText (evaluation_request evaluationPrompt) = Raise t) ∨
       (∃ (evaluationPrompt : string) (response : TextGenerationResponse)
          (cause : exn),
          evaluation_prompt_of request = Ok evaluationPrompt ∧
          generateText (evaluation_request evaluationPrompt)
            = Return response ∧
          t = Engine (EvaluationParseError cause) ∧
          ((¬ is_string (text response) ∧
            ∃ msg : string, cause = TypeError msg) ∨
           ∃ s : string,
             text response = Some (JString s) ∧
             (JSON_parse (clean s) = Throw cause ∨
              ∃ parsed : JSON,
                JSON_parse (clean s) = Ok parsed ∧
                validateScore (Some parsed) = Throw cause)))) ∧
    (∀ (evaluationPrompt : string) (t : thrown),
       evaluation_prompt_of request = Ok evaluationPrompt →
       generateText (evaluation_request evaluationPrompt) = Raise t →
       whole_evaluatePrompt request = Raise t) ∧
    (∀ (evaluationPrompt : string) (response : TextGenerationResponse),
       evaluation_prompt_of request = Ok evaluationPrompt →
       generateText (evaluation_request evaluationPrompt) = Return response →
       ¬ is_string (text response) →
       ∃ msg : string,
         whole_evaluatePrompt request
           = Raise (Engine (EvaluationParseError (TypeError msg)))) ∧
    (request = None ∨ request = Some JNull →
     ∃ msg : string,
       whole_evaluatePrompt request = Raise (Engine (TypeError msg))) ∧
    (∀ j : JSON,
       request = Some j → j ≠ JNull → is_string (property j "prompt") →
       ∃ evaluationPrompt : string,
         evaluation_prompt_of request = Ok evaluationPrompt).
Proof.
  intros request. split; [|split; [|split; [|split]]].
  - intros t H.
    destruct (evaluation_prompt_of request) as [evaluationPrompt|e] eqn:Hbuild.
    2: { rewrite (evaluatePrompt_build_fails _ _ Hbuild) in H.
         injection H as <-. left. by exists e. }
    right.
    destruct (generateText (evaluation_request evaluationPrompt))
      as [response|t'] eqn:Hsend.
    2: { rewrite (evaluatePrompt_provider_fails _ _ _ Hbuild Hsend) in H.
         injection H as <-. left. by exists evaluationPrompt. }
    right. exists evaluationPrompt, response.
    destruct (is_string_dec (text response)) as [[s Hs]|Hnot].
    + rewrite (evaluatePrompt_from_text _ _ _ _ Hbuild Hsend Hs) in H.
      apply engine_Raise in H as (e & He & ->).
      apply evaluatePrompt_text_failure in He as (cause & -> & Hcause).
      exists cause. do 3 (split; [done|]). right. by exists s.
    + destruct (evaluatePrompt_text_not_string _ _ _ Hbuild Hsend Hnot)
        as (msg & _ & Hmsg).
      rewrite Hmsg in H. injection H as <-.
      exists (TypeError msg). do 3 (split; [done|]). left.
      split; [done|]. by exists msg.
  - intros evaluationPrompt t. apply evaluatePrompt_provider_fails.
  - intros evaluationPrompt response Hbuild Hsend Hnot.
    destruct (evaluatePrompt_text_not_string _ _ _ Hbuild Hsend Hnot)
      as (msg & _ & Hmsg).
    by exists msg.
  - intros Hnull. eexists. apply evaluatePrompt_build_fails.
    unfold evaluation_prompt. destruct Hnull as [-> | ->]; reflexivity.
  - intros j -> Hj [s Hs]. unfold evaluation_prompt.
    destruct j; try done; simpl in *; rewrite Hs; by eexists.
Qed.

Lemma OptGet_Get (v : value) (k : string) (x : JSON) :
  OptGet v k = Some x → Get v k = Ok (Some x).
Proof. destruct v as [[]|]; try done; simpl; by intros ->. Qed.

Lemma OptGet_Some_Get (v : value) (k : string) (x : JSON) (k' : string) :
  OptGet (OptGet v k) k' = Some x →
  ∃ y : JSON,
    OptGet v k = Some y ∧ Get v k = Ok (Some y) ∧
    Get (Some y) k' = Ok (Some x).
Proof.
  intros H. destruct (OptGet v k) as [y|] eqn:Hy; [|done].
  exists y. split; [done|]. split; by apply OptGet_Get.
Qed.

Lemma replace_string template pattern s :
  ServiceMethods.replace String_replace Number_toString ToString_object
    template pattern (Some (JString s))
  = Ok (String_replace template pattern s).
Proof. reflexivity. Qed.

Lemma call_toString_number n :
  ServiceMethods.call_toString Number_toString toString_object
    (Some (JNumber n)) = Ok (Number_toString n).
Proof. reflexivity. Qed.

(** A request of the declared shape always gives a prompt. *)
Lemma buildJudgePrompt_declared (request : value) :
  request_declared request →
  ∃ prompt : string, buildJudgePrompt request = Ok prompt.
Proof.
  intros ([topic Htopic] & H1 & H2).
  destruct H1 as ([n1 Hn1] & [a1 Ha1] & [i1 Hi1] & [c1 Hc1] & [p1 Hp1]).
  destruct H2 as ([n2 Hn2] & [a2 Ha2] & [i2 Hi2] & [c2 Hc2] & [p2 Hp2]).
  apply OptGet_Get in Htopic.
  apply OptGet_Some_Get in Hn1 as (persona1 & Ho1 & Hpersona1 & Hn1).
  apply OptGet_Some_Get in Hn2 as (persona2 & Ho2 & Hpersona2 & Hn2).
  rewrite Ho1 in Ha1, Hi1, Hc1, Hp1.
  rewrite Ho2 in Ha2, Hi2, Hc2, Hp2.
  apply OptGet_Get in Ha1, Ha2.
  apply OptGet_Some_Get in Hi1 as (traits1 & Ht1 & Htraits1 & Hi1).
  apply OptGet_Some_Get in Hi2 as (traits2 & Ht2 & Htraits2 & Hi2).
  rewrite Ht1 in Hc1, Hp1. rewrite Ht2 in Hc2, Hp2.
  apply OptGet_Get in Hc1, Hp1, Hc2, Hp2.
  unfold ServiceMethods.buildJudgePrompt.
  repeat first
    [ rewrite Htopic | rewrite Hpersona1 | rewrite Hpersona2
    | rewrite Hn1 | rewrite Hn2 | rewrite Ha1 | rewrite Ha2
    | rewrite Htraits1 | rewrite Htraits2
    | rewrite Hi1 | rewrite Hi2 | rewrite Hc1 | rewrite Hc2
    | rewrite Hp1 | rewrite Hp2
    | rewrite replace_string | rewrite call_toString_number
    | progress cbn [mbind result_bind] ].
  by eexists.
Qed.

Lemma judgeBattle_unfold (request : value) :
  whole_judgeBattle request
  = (prompt ← engine (buildJudgePrompt request);
     response ← generateText (judge_request prompt);
     engine (try_catch
       (cleaned ← ServiceMethods.cleaned_text (text response);
        result ← JSON_parse cleaned;
        validateJudgeResult less_than_coerced (Some result);;
        Ok (Some result))
       JudgeParseError)).
Proof. reflexivity. Qed.

Lemma judgeBattle_from_text request prompt response s :
  buildJudgePrompt request = Ok prompt →
  generateText (judge_request prompt) = Return response →
  text response = Some (JString s) →
  whole_judgeBattle request
    = engine (BattleJudgeService.judgeBattle less_than_coerced JSON_parse s).
Proof.
  intros Hbuild Hsend Htext. rewrite judgeBattle_unfold, Hbuild. simpl.
  rewrite Hsend. simpl. by rewrite Htext, cleaned_string.
Qed.

Lemma judgeBattle_build_fails request e :
  buildJudgePrompt request = Throw e →
  whole_judgeBattle request = Raise (Engine e).
Proof. intros H. by rewrite judgeBattle_unfold, H. Qed.

Lemma judgeBattle_provider_fails request prompt t :
  buildJudgePrompt request = Ok prompt →
  generateText (judge_request prompt) = Raise t →
  whole_judgeBattle request = Raise t.
Proof.
  intros Hbuild Hsend. rewrite judgeBattle_unfold, Hbuild. simpl.
  by rewrite Hsend.
Qed.

Lemma judgeBattle_text_not_string request prompt response :
  buildJudgePrompt request = Ok prompt →
  generateText (judge_request prompt) = Return response →
  ¬ is_string (text response) →
  ∃ msg : string,
    whole_judgeBattle request
      = Raise (Engine (JudgeParseError (TypeError msg))).
Proof.
  intros Hbuild Hsend Htext.
  destruct (cleaned_not_string _ Htext) as [msg Hmsg].
  exists msg.
  rewrite judgeBattle_unfold, Hbuild. simpl. rewrite Hsend. simpl.
  by rewrite Hmsg.
Qed.

(** X16.  The outcomes of [judgeBattle].  A result is the parsed value,
    unaltered, of a text the provider returned for the judge prompt, and
    [validateJudgeResult] accepts it.  The prompt is built and the
    provider called before the [try]: what building the prompt throws for
    a request that is not of the declared shape, and whatever the
    provider raises, leave [judgeBattle] as they are, not wrapped; a
    request of the declared shape always gives a prompt.  Only a failure
    on the response is wrapped as "Failed to parse judge response:
    <cause>", the cause being the [TypeError] of a [text] that is not a
    string, what [JSON.parse] threw or what [validateJudgeResult]
    threw. *)
Theorem judgeBattle_outcomes :
  ∀ request : value,
    (∀ v : value,
       whole_judgeBattle request = Return v →
       ∃ (prompt : string) (response : TextGenerationResponse) (s : string)
         (parsed : JSON),
         buildJudgePrompt request = Ok prompt ∧
         generateText (judge_request prompt) = Return response ∧
         text response = Some (JString s) ∧
         v = Some parsed ∧
         JSON_parse (clean s) = Ok parsed ∧
         validateJudgeResult less_than_coerced (Some parsed) = Ok ()) ∧
    (∀ t : thrown,
       whole_judgeBattle request = Raise t →
       (∃ e : exn, buildJudgePrompt request = Throw e ∧ t = Engine e) ∨
       (∃ prompt : string,
          buildJudgePrompt request = Ok prompt ∧
          generateText (judge_request prompt) = Raise t) ∨
       (∃ (prompt : string) (response : TextGenerationResponse)
          (cause : exn),
          buildJudgePrompt request = Ok prompt ∧
          generateText (judge_request prompt) = Return response ∧
          t = Engine (JudgeParseError cause) ∧
          ((¬ is_string (text response) ∧
            ∃ msg : string, cause = TypeError msg) ∨
           ∃ s : string,
             text response = Some (JString s) ∧
             (JSON_parse (clean s) = Throw cause ∨
              ∃ parsed : JSON,
                JSON_parse (clean s) = Ok parsed ∧
                validateJudgeResult less_than_coerced (Some parsed)
                  = Throw cause)))) ∧
    (∀ (prompt : string) (t : thrown),
       buildJudgePrompt request = Ok prompt →
       generateText (judge_request prompt) = Raise t →
       whole_judgeBattle request = Raise t) ∧
    (∀ (prompt : string) (response : TextGenerationResponse),
       buildJudgePrompt request = Ok prompt →
       generateText (judge_request prompt) = Return response →
       ¬ is_string (text response) →
       ∃ msg : string,
         whole_judgeBattle request
           = Raise (Engine (JudgeParseError (TypeError msg)))) ∧
    (request = None ∨ request = Some JNull →
     ∃ msg : string,
       whole_judgeBattle request = Raise (Engine (TypeError msg))) ∧
    (request_declared request →
     ∃ prompt : string, buildJudgePrompt request = Ok prompt).
Proof.
  intros request. split; [|split; [|split; [|split; [|split]]]].
  - intros v H.
    destruct (buildJudgePrompt request) as [prompt|e] eqn:Hbuild;
      [|by rewrite (judgeBattle_build_fails _ _ Hbuild) in H].
    destruct (generateText (judge_request prompt)) as [response|t] eqn:Hsend;
      [|by rewrite (judgeBattle_provider_fails _ _ _ Hbuild Hsend) in H].
    destruct (is_string_dec (text response)) as [[s Hs]|Hnot].
    + rewrite (judgeBattle_from_text _ _ _ _ Hbuild Hsend Hs) in H.
      apply engine_Return in H.
      apply judgeBattle_text_success in H as (parsed & -> & Hparse & Hvalid).
      by exists prompt, response, s, parsed.
    + destruct (judgeBattle_text_not_string _ _ _ Hbuild Hsend Hnot)
        as (msg & Hmsg).
      by rewrite Hmsg in H.
  - intros t H.
    destruct (buildJudgePrompt request) as [prompt|e] eqn:Hbuild.
    2: { rewrite (judgeBattle_build_fails _ _ Hbuild) in H.
         injection H as <-. left. by exists e. }
    right.
    destruct (generateText (judge_request prompt)) as [response|t'] eqn:Hsend.
    2: { rewrite (judgeBattle_provider_fails _ _ _ Hbuild Hsend) in H.
         injection H as <-. left. by exists prompt. }
    right. exists prompt, response.
    destruct (is_string_dec (text response)) as [[s Hs]|Hnot].
    + rewrite (judgeBattle_from_text _ _ _ _ Hbuild Hsend Hs) in H.
      apply engine_Raise in H as (e & He & ->).
      apply judgeBattle_text_failure in He as (cause & -> & Hcause).
      exists cause. do 3 (split; [done|]). right. by exists s.
    + destruct (judgeBattle_text_not_string _ _ _ Hbuild Hsend Hnot)
        as (msg & Hmsg).
      rewrite Hmsg in H. injection H as <-.
      exists (TypeError msg). do 3 (split; [done|]). left.
      split; [done|]. by exists msg.
  - intros prompt t. apply judgeBattle_provider_fails.
  - intros prompt response. apply judgeBattle_text_not_string.
  - intros Hnull. eexists. apply judgeBattle_build_fails.
    destruct Hnull as [-> | ->]; reflexivity.
  - apply buildJudgePrompt_declared.
Qed.

End ServicesWithProvider.

(** X4 on a provider that is throttled: its rate-limit error leaves
    [evaluatePrompt] as it is. *)
Lemma evaluatePrompt_failure_modes_witness :
  ServiceMethods.evaluatePrompt throttled ReferenceJSON.parse replace_first
    decimal object_text (Some prompt_request)
    = Raise (RateLimitError "bedrock" (Some 60)).
Proof.
  destruct (evaluatePrompt_failure_modes throttled ReferenceJSON.parse
              replace_first decimal object_text (Some prompt_request))
    as (_ & Hprovider & _).
  eapply Hprovider; reflexivity.
Defined.

(** X16 on a provider that answers the sample battle with a [text] that
    is the number 5, not a string: the [TypeError] comes out wrapped. *)
Lemma judgeBattle_outcomes_witness :
  ∃ msg : string,
    ServiceMethods.judgeBattle (answering (Some (JNumber 5)))
      ReferenceJSON.parse (λ _ _, false) replace_first decimal object_text
      object_text (Some battle_request)
      = Raise (Engine (JudgeParseError (TypeError msg))).
Proof.
  destruct (judgeBattle_outcomes (answering (Some (JNumber 5)))
              ReferenceJSON.parse (λ _ _, false) replace_first decimal
              object_text object_text (Some battle_request))
    as (_ & _ & _ & Htext & _).
  eapply Htext; [reflexivity|reflexivity|].
  intros [s Hs]. discriminate.
Defined.
